(** * swift-mt940: the Revolut-CSV to MT940 converter, embedded and verified

    Shallow embedding of [src/converter.py].  The converter is a pure
    function from the CSV text and an IBAN to the MT940 text; it leans on
    four pieces of the Python runtime, each embedded here as far as the
    converter uses it:

    - [str]: a Python string is embedded as the string of the bytes of
      its UTF-8 text.  Its characters are the groups of bytes that encode
      one code point each ([chars]): [len], slicing and [strip] count and
      cut characters, not bytes, and [strip] knows the white space of
      Unicode.  The characters the converter searches for and replaces
      (tags, separators, the space, CR, LF, the hyphen) are single bytes
      that occur in no longer character, so that [replace], [in] and
      equality work on the bytes.  Letter case is modelled on the ASCII
      letters: [upper] leaves every other character as it is.
    - [decimal.Decimal] with the default context (precision 28,
      ROUND_HALF_EVEN, Emax 999999, traps InvalidOperation and Overflow),
      as [_pydecimal] defines it: exponents are unbounded integers, and
      numbers are read in ASCII digits.
    - [datetime.strptime] for the one format ["%Y-%m-%d"] and [strftime]
      for ["%y%m%d"] and ["%m%d"]; dates are read in ASCII digits.
    - [csv.DictReader] over [io.StringIO] with the default (excel)
      dialect, as of CPython 3.11 (a NUL is an ordinary character).

    Exceptions are values: every function that can raise returns a
    [result]. *)

From Stdlib Require Import ZArith NArith Lia List Bool Ascii String.
Import ListNotations.
Open Scope string_scope.
Open Scope list_scope.

Set Implicit Arguments.

(* ================================================================== *)
(** * Exceptions                                                      *)
(* ================================================================== *)

(** The exceptions that can leave [revolut_to_mt940]. *)
Inductive exn : Type :=
| ValueError_empty_csv              (* raise ValueError("CSV ...") of the converter *)
| ValueError_strptime               (* datetime.strptime: text is not a date *)
| ValueError_range                  (* range() arg 3 must not be zero *)
| KeyError (key : string)           (* row[key] with the key absent *)
| TypeError_strptime                (* strptime() argument 1 must be str, not None *)
| InvalidOperation                  (* decimal.InvalidOperation *)
| Overflow                          (* decimal.Overflow *)
| csv_Error.                        (* _csv.Error *)

Inductive result (A : Type) : Type :=
| Ok (a : A)
| Raise (e : exn).

Arguments Ok {A} a.
Arguments Raise {A} e.

Definition bind {A B : Type} (r : result A) (k : A -> result B) : result B :=
  match r with
  | Ok a => k a
  | Raise e => Raise e
  end.

Notation "x <- r ;; k" := (bind r (fun x => k))
  (at level 61, r at next level, right associativity).

(* ================================================================== *)
(** * Python strings                                                  *)
(* ================================================================== *)

Definition LF : ascii := "010"%char.
Definition CR : ascii := "013"%char.
Definition SP : ascii := " "%char.

(** A continuation byte of UTF-8, [10xxxxxx]. *)
Definition is_cont (c : ascii) : bool :=
  let n := nat_of_ascii c in ((128 <=? n) && (n <=? 191))%nat.

(** Whether a text begins with a continuation byte. *)
Definition starts_cont (s : string) : bool :=
  match s with
  | String d _ => is_cont d
  | EmptyString => false
  end.

(** The characters of a string, each with its bytes: a character is a
    byte with the continuation bytes that follow it. *)
Fixpoint chars (s : string) : list string :=
  match s with
  | EmptyString => []
  | String c r =>
      match chars r with
      | ch :: rest =>
          if starts_cont r then String c ch :: rest
          else String c EmptyString :: ch :: rest
      | [] => [String c EmptyString]
      end
  end.

(** [len(s)] *)
Definition len (s : string) : nat := List.length (chars s).

(** ["".join(l)] *)
Definition join0 (l : list string) : string := String.concat "" l.

(** [s[i:i+n]] for [0 <= i] and [0 <= n] *)
Definition slice (i n : nat) (s : string) : string :=
  join0 (firstn n (skipn i (chars s))).

(** [str.isspace] on one ASCII character: TAB, LF, VT, FF, CR, the four
    separators FS, GS, RS, US, and the space. *)
Definition is_space (c : ascii) : bool :=
  let n := nat_of_ascii c in
  ((9 <=? n) && (n <=? 13) || (28 <=? n) && (n <=? 32))%nat.

Definition bytes (l : list nat) : string :=
  fold_right (fun n s => String (ascii_of_nat n) s) EmptyString l.

(** The white space outside ASCII, in UTF-8: U+0085, U+00A0, U+1680,
    U+2000 to U+200A, U+2028, U+2029, U+202F, U+205F and U+3000. *)
Definition unicode_spaces : list string :=
  map bytes
    ([[194; 133]; [194; 160]; [225; 154; 128]]
     ++ map (fun k => [226; 128; 128 + k]) (seq 0 11)
     ++ [[226; 128; 168]; [226; 128; 169]; [226; 128; 175];
         [226; 129; 159]; [227; 128; 128]])%nat.

(** [ch.isspace()] of one character *)
Definition is_space_char (ch : string) : bool :=
  match ch with
  | String c EmptyString => is_space c
  | _ => existsb (String.eqb ch) unicode_spaces
  end.

(** The characters left when the white space at the front is dropped,
    and when that at the end is. *)
Fixpoint lstrip_chars (l : list string) : list string :=
  match l with
  | [] => []
  | ch :: r => if is_space_char ch then lstrip_chars r else l
  end.

Definition rstrip_chars (l : list string) : list string :=
  rev (lstrip_chars (rev l)).

(** [s.strip()] *)
Definition strip (s : string) : string :=
  join0 (rstrip_chars (lstrip_chars (chars s))).

(** [s.replace(old, new)] for a one-character [old]; every use in the
    converter has this shape, with an ASCII [old]. *)
Fixpoint replace (old : ascii) (new : string) (s : string) : string :=
  match s with
  | EmptyString => EmptyString
  | String c r =>
      if Ascii.eqb c old then new ++ replace old new r
      else String c (replace old new r)
  end.

Definition is_lower (c : ascii) : bool :=
  let n := nat_of_ascii c in ((97 <=? n) && (n <=? 122))%nat.

Definition is_upper (c : ascii) : bool :=
  let n := nat_of_ascii c in ((65 <=? n) && (n <=? 90))%nat.

Definition is_digit (c : ascii) : bool :=
  let n := nat_of_ascii c in ((48 <=? n) && (n <=? 57))%nat.

Definition upper_char (c : ascii) : ascii :=
  if is_lower c then ascii_of_nat (nat_of_ascii c - 32) else c.

(** [s.upper()] *)
Fixpoint upper (s : string) : string :=
  match s with
  | EmptyString => EmptyString
  | String c r => String (upper_char c) (upper r)
  end.

(** [s.startswith(p)] *)
Fixpoint startswith (p s : string) : bool :=
  match p, s with
  | EmptyString, _ => true
  | String a p', String b s' => Ascii.eqb a b && startswith p' s'
  | String _ _, EmptyString => false
  end.

(** [p in s] *)
Fixpoint str_in (p s : string) : bool :=
  startswith p s ||
  match s with
  | EmptyString => false
  | String _ r => str_in p r
  end.

(** [s[n:]] for [0 <= n], on a text whose first [n] characters are
    ASCII, as it is at every use. *)
Fixpoint drop (n : nat) (s : string) : string :=
  match n, s with
  | O, _ => s
  | S n', EmptyString => EmptyString
  | S n', String _ r => drop n' r
  end.

(** [sep.join(l)] *)
Definition join (sep : string) (l : list string) : string := String.concat sep l.

(** [bool(s)] of a string: non-empty. *)
Definition truthy (s : string) : bool := negb (s =? "").

(** [range(0, stop, step)] for [0 < step]: the multiples of [step] below
    [stop]; there are [ceil(stop / step)] of them. *)
Definition range0 (stop step : nat) : list nat :=
  map (fun k => k * step) (seq 0 ((stop + step - 1) / step)).

(* ================================================================== *)
(** * converter.py: _split_text_chunks                                *)
(* ================================================================== *)

(** [text.replace("\r", " ").replace("\n", " ").strip()] *)
Definition normalize_text (text : string) : string :=
  strip (replace LF " " (replace CR " " text)).

(** [def _split_text_chunks(text, chunk_len=35)].  [range] raises on a
    zero step and is empty on a negative one. *)
Definition _split_text_chunks (text : string) (chunk_len : Z) : result (list string) :=
  let text := normalize_text text in
  if truthy text then
    if (chunk_len =? 0)%Z then Raise ValueError_range
    else if (chunk_len <? 0)%Z then Ok []
    else
      let n := Z.to_nat chunk_len in
      Ok (map (fun i => slice i n text) (range0 (len text) n))
  else Ok [].

(* ================================================================== *)
(** * decimal.Decimal, default context                                *)
(* ================================================================== *)

(** A decimal is finite ([(-1)^sign * coef * 10^exp]), an infinity, or a
    quiet or signaling NaN with its diagnostic digits. *)
Inductive Decimal : Type :=
| Finite (sign : bool) (coef : N) (exp : Z)
| Infinity (sign : bool)
| NaN (sign : bool) (signaling : bool) (payload : string).

Definition prec : Z := 28.
Definition Emax : Z := 999999.
Definition Emin : Z := -999999.
Definition Etiny : Z := Emin - prec + 1.
Definition Etop : Z := Emax - prec + 1.

Definition digit_char (d : N) : ascii := ascii_of_N (48 + d).

(** The decimal digits of [n], most significant first; [fuel] bounds the
    number of digits. *)
Fixpoint digits_of (fuel : nat) (n : N) : string :=
  match fuel with
  | O => EmptyString
  | S fuel' =>
      if (n <? 10)%N then String (digit_char n) EmptyString
      else digits_of fuel' (n / 10) ++ String (digit_char (n mod 10)) EmptyString
  end.

(** [str(n)] of a natural number; a number has no more decimal digits
    than binary ones. *)
Definition N_to_str (n : N) : string := digits_of (S (N.to_nat (N.log2 n))) n.

Definition digit_val (c : ascii) : N := N.of_nat (nat_of_ascii c - 48).

(** [int(s)] of a string of digits, the digits read so far being [acc]. *)
Fixpoint digits_to_N (acc : N) (s : string) : N :=
  match s with
  | EmptyString => acc
  | String c r => digits_to_N (10 * acc + digit_val c) r
  end.

(** [len(str(n))] *)
Definition ndigits (n : N) : Z := Z.of_nat (length (N_to_str n)).

Definition pow10 (k : Z) : N := Z.to_N (10 ^ k).

(** Division of [c] by [m] rounded to nearest, ties to even
    (ROUND_HALF_EVEN on the dropped digits). *)
Definition div_half_even (c m : N) : N :=
  let q := (c / m)%N in
  let r := (c mod m)%N in
  if ((m <? 2 * r) || ((2 * r =? m) && N.odd q))%N then (q + 1)%N else q.

(** [Decimal._fix_nan]: a payload longer than the precision keeps its
    last [prec] digits, leading zeros dropped. *)
Fixpoint lstrip0 (s : string) : string :=
  match s with
  | String "0" r => lstrip0 r
  | _ => s
  end.

Definition fix_nan (payload : string) : string :=
  if (prec <? Z.of_nat (length payload))%Z
  then lstrip0 (drop (length payload - Z.to_nat prec) payload)
  else payload.

(** [Decimal._fix(context)]: round to the context precision and exponent
    range.  Overflow is trapped; Clamped, Rounded, Inexact, Subnormal and
    Underflow are not. *)
Definition Decimal_fix (d : Decimal) : result Decimal :=
  match d with
  | NaN s sg p => Ok (NaN s sg (fix_nan p))
  | Infinity s => Ok (Infinity s)
  | Finite s c e =>
      if (c =? 0)%N then Ok (Finite s 0 (Z.min (Z.max e Etiny) Emax))
      else
        let exp_min := (ndigits c + e - prec)%Z in
        if (Etop <? exp_min)%Z then Raise Overflow
        else
          let exp_min := Z.max exp_min Etiny in
          if (e <? exp_min)%Z then
            let coeff := div_half_even c (pow10 (exp_min - e)) in
            let '(coeff, exp_min) :=
              if (prec <? ndigits coeff)%Z
              then ((coeff / 10)%N, (exp_min + 1)%Z)
              else (coeff, exp_min) in
            if (Etop <? exp_min)%Z then Raise Overflow
            else Ok (Finite s coeff exp_min)
          else Ok d
  end.

(** [d < 0]: an ordering comparison with a NaN signals InvalidOperation. *)
Definition lt0 (d : Decimal) : result bool :=
  match d with
  | NaN _ _ _ => Raise InvalidOperation
  | Infinity s => Ok s
  | Finite s c _ => Ok (s && negb (c =? 0)%N)
  end.

(** [abs(d)]: the sign is cleared and the result rounded by [Decimal_fix]. *)
Definition Decimal_abs (d : Decimal) : result Decimal :=
  match d with
  | NaN s true p => Raise InvalidOperation
  | NaN s false p => Ok (NaN s false (fix_nan p))
  | Infinity _ => Ok (Infinity false)
  | Finite _ c e => Decimal_fix (Finite false c e)
  end.

(** [Decimal._rescale(exp, ROUND_HALF_EVEN)] of a finite decimal: the
    coefficient at exponent [exp]. *)
Definition rescale (c : N) (e exp : Z) : N :=
  if (c =? 0)%N then 0%N
  else if (exp <=? e)%Z then (c * pow10 (e - exp))%N
  else div_half_even c (pow10 (exp - e)).

(** [d.quantize(q)] *)
Definition quantize (d q : Decimal) : result Decimal :=
  match d, q with
  | NaN _ true _, _ | _, NaN _ true _ => Raise InvalidOperation
  | NaN s false p, _ | _, NaN s false p => Ok (NaN s false (fix_nan p))
  | Infinity s, Infinity _ => Ok (Infinity s)
  | Infinity _, Finite _ _ _ | Finite _ _ _, Infinity _ => Raise InvalidOperation
  | Finite s c e, Finite _ _ exp =>
      if negb ((Etiny <=? exp) && (exp <=? Emax))%Z then Raise InvalidOperation
      else if (c =? 0)%N then Decimal_fix (Finite s 0 exp)
      else
        let adjusted := (e + ndigits c - 1)%Z in
        if (Emax <? adjusted)%Z then Raise InvalidOperation
        else if (prec <? adjusted - exp + 1)%Z then Raise InvalidOperation
        else
          let ans := rescale c e exp in
          if (Emax <? exp + ndigits ans - 1)%Z then Raise InvalidOperation
          else if (prec <? ndigits ans)%Z then Raise InvalidOperation
          else Decimal_fix (Finite s ans exp)
  end.

Definition sign_str (s : bool) : string := if s then "-" else "".

(** Two digits, zero padded: ["%02d"]. *)
Definition pad2 (n : N) : string :=
  if (n <? 10)%N then "0" ++ N_to_str n else N_to_str n.

(** [f"{d:.2f}"]: specials print their name; a finite decimal is rescaled
    to two places and printed as sign, integer part, point, two digits. *)
Definition format_2f (d : Decimal) : string :=
  match d with
  | NaN s sg p => sign_str s ++ (if sg then "sNaN" else "NaN") ++ p
  | Infinity s => sign_str s ++ "Infinity"
  | Finite s c e =>
      let cents := rescale c e (-2) in
      sign_str s ++ N_to_str (cents / 100) ++ "." ++ pad2 (cents mod 100)
  end.

(** ** Decimal(str) *)

(** The longest prefix of digits, and the rest. *)
Fixpoint span_digits (s : string) : string * string :=
  match s with
  | EmptyString => (EmptyString, EmptyString)
  | String c r =>
      if is_digit c
      then let (d, t) := span_digits r in (String c d, t)
      else (EmptyString, s)
  end.

(** An optional sign [[-+]?]: whether it is a minus, and the rest. *)
Definition split_sign (s : string) : bool * string :=
  match s with
  | String "-" r => (true, r)
  | String "+" r => (false, r)
  | _ => (false, s)
  end.

(** The exponent part, up to the end of the text: nothing, or [E], an
    optional sign and at least one digit. *)
Definition parse_exponent (s : string) : option Z :=
  match s with
  | EmptyString => Some 0%Z
  | String c r =>
      if Ascii.eqb (upper_char c) "E" then
        let (neg, r') := split_sign r in
        let (ds, t) := span_digits r' in
        if truthy ds && negb (truthy t)
        then Some (if neg then - Z.of_N (digits_to_N 0 ds) else Z.of_N (digits_to_N 0 ds))%Z
        else None
      else None
  end.

(** A number: digits with an optional point among them, at least one
    digit, an optional exponent.  The integer digits, the fraction digits
    and the exponent. *)
Definition parse_number (s : string) : option (string * string * Z) :=
  let (intpart, r1) := span_digits s in
  let (fracpart, r2) :=
    match r1 with
    | String "." t => span_digits t
    | _ => (EmptyString, r1)
    end in
  if truthy intpart || truthy fracpart then
    match parse_exponent r2 with
    | Some e => Some (intpart, fracpart, e)
    | None => None
    end
  else None.

Definition all_digits (s : string) : bool := negb (truthy (snd (span_digits s))).

(** [Decimal(value)] of a string; [None] when the text is no numeric
    string, where Python raises InvalidOperation (ConversionSyntax).
    White space around the text and underscores anywhere are ignored,
    letters match in either case. *)
Definition Decimal_of_str (value : string) : option Decimal :=
  let (sign, s) := split_sign (replace "_" "" (strip value)) in
  match parse_number s with
  | Some (intpart, fracpart, e) =>
      Some (Finite sign (digits_to_N 0 (intpart ++ fracpart))
                   (e - Z.of_nat (length fracpart)))
  | None =>
      let u := upper s in
      if (u =? "INF") || (u =? "INFINITY") then Some (Infinity sign)
      else if startswith "NAN" u && all_digits (drop 3 u)
      then Some (NaN sign false (lstrip0 (drop 3 u)))
      else if startswith "SNAN" u && all_digits (drop 4 u)
      then Some (NaN sign true (lstrip0 (drop 4 u)))
      else None
  end.

(** [Decimal("0")] and [Decimal("0.01")] *)
Definition Decimal_0 : Decimal := Finite false 0 0.
Definition Decimal_0_01 : Decimal := Finite false 1 (-2).

(* ================================================================== *)
(** * converter.py: _fmt_amount                                       *)
(* ================================================================== *)

(** [def _fmt_amount(amount)] *)
Definition _fmt_amount (amount : Decimal) : result string :=
  q <- quantize amount Decimal_0_01 ;;
  let s := format_2f q in
  Ok (replace "." "," s).

(** [def parse_decimal(v)], the helper nested in [revolut_to_mt940]; [v]
    is a string or [None]. *)
Definition parse_decimal (v : option string) : Decimal :=
  match v with
  | None => Decimal_0
  | Some s =>
      if s =? "" then Decimal_0
      else match Decimal_of_str (replace "," "." s) with
           | Some d => d
           | None => Decimal_0
           end
  end.

(* ================================================================== *)
(** * datetime: strptime("%Y-%m-%d"), strftime, calendar.monthrange   *)
(* ================================================================== *)

Record datetime : Type := mkdatetime { year : N; month : N; day : N }.

Definition char_in (lo hi : ascii) (c : ascii) : bool :=
  ((nat_of_ascii lo <=? nat_of_ascii c) && (nat_of_ascii c <=? nat_of_ascii hi))%nat.

(** One alternative of a directive's regular expression: two characters
    or one, with the number they spell and the text that follows. *)
Definition two_chars (p1 p2 : ascii -> bool) (s : string) : list (N * string) :=
  match s with
  | String a (String b r) =>
      if p1 a && p2 b then [((10 * digit_val a + digit_val b)%N, r)] else []
  | _ => []
  end.

Definition one_char (p : ascii -> bool) (s : string) : list (N * string) :=
  match s with
  | String a r => if p a then [(digit_val a, r)] else []
  | _ => []
  end.

(** [%m] is [1[0-2]|0[1-9]|[1-9]]: its matches at the head of [s], in the
    order the regex engine tries them. *)
Definition re_m (s : string) : list (N * string) :=
  two_chars (Ascii.eqb "1") (char_in "0" "2") s ++
  two_chars (Ascii.eqb "0") (char_in "1" "9") s ++
  one_char (char_in "1" "9") s.

(** [%d] is [3[01]|[12]\d|0[1-9]|[1-9]| [1-9]]. *)
Definition re_d (s : string) : list (N * string) :=
  two_chars (Ascii.eqb "3") (char_in "0" "1") s ++
  two_chars (char_in "1" "2") is_digit s ++
  two_chars (Ascii.eqb "0") (char_in "1" "9") s ++
  one_char (char_in "1" "9") s ++
  match s with
  | String c r => if Ascii.eqb c " " then one_char (char_in "1" "9") r else []
  | EmptyString => []
  end.

(** The first alternative, in order, on which the rest of the pattern
    matches. *)
Fixpoint first_match {A B : Type} (k : A -> option B) (alts : list A) : option B :=
  match alts with
  | [] => None
  | a :: rest => match k a with
                 | Some b => Some b
                 | None => first_match k rest
                 end
  end.

(** The regex of ["%Y-%m-%d"] matched at the start of [s]: year, month,
    day and the text left unmatched. *)
Definition match_Ymd (s : string) : option (N * N * N * string) :=
  match s with
  | String y1 (String y2 (String y3 (String y4 (String c r)))) =>
      if is_digit y1 && is_digit y2 && is_digit y3 && is_digit y4 && Ascii.eqb c "-" then
        let y := digits_to_N 0 (String y1 (String y2 (String y3 (String y4 "")))) in
        first_match
          (fun '(m, r1) =>
             match r1 with
             | String c' r2 =>
                 if Ascii.eqb c' "-"
                 then first_match (fun '(d, r3) => Some (y, m, d, r3)) (re_d r2)
                 else None
             | EmptyString => None
             end)
          (re_m r)
      else None
  | _ => None
  end.

(** [calendar.isleap] and [calendar.monthrange(year, month)[1]] *)
Definition isleap (y : N) : bool :=
  ((y mod 4 =? 0) && (negb (y mod 100 =? 0) || (y mod 400 =? 0)))%N.

Definition days_in_month (y m : N) : N :=
  match m with
  | 2 => if isleap y then 29 else 28
  | 4 | 6 | 9 | 11 => 30
  | _ => 31
  end%N.

(** [datetime.strptime(date_str, "%Y-%m-%d")]; [date_str] is a string or
    [None].  ValueError when the text does not match, when text remains
    after the match, and when the numbers are no date of the calendar
    (years run from 1 to 9999). *)
Definition strptime (date_str : option string) : result datetime :=
  match date_str with
  | None => Raise TypeError_strptime
  | Some s =>
      match match_Ymd s with
      | None => Raise ValueError_strptime
      | Some (y, m, d, rest) =>
          if truthy rest then Raise ValueError_strptime
          else if ((y =? 0) || (days_in_month y m <? d))%N then Raise ValueError_strptime
          else Ok (mkdatetime y m d)
      end
  end.

(** [dt.strftime("%y%m%d")] and [dt.strftime("%m%d")] *)
Definition strftime_ymd (dt : datetime) : string :=
  pad2 (year dt mod 100) ++ pad2 (month dt) ++ pad2 (day dt).

Definition strftime_md (dt : datetime) : string :=
  pad2 (month dt) ++ pad2 (day dt).

(** [def fmt_yyMMdd(date_str)] and [def fmt_MMDD(date_str)], nested in
    [revolut_to_mt940]. *)
Definition fmt_yyMMdd (date_str : option string) : result string :=
  dt <- strptime date_str ;; Ok (strftime_ymd dt).

Definition fmt_MMDD (date_str : option string) : result string :=
  dt <- strptime date_str ;; Ok (strftime_md dt).

(* ================================================================== *)
(** * csv.reader and csv.DictReader over io.StringIO                  *)
(* ================================================================== *)

(** Iterating over [io.StringIO(text)]: the lines of the text, each with
    its ["\n"]; the line under construction is [cur]. *)
Fixpoint StringIO_lines (cur : string) (text : string) : list string :=
  match text with
  | EmptyString => if truthy cur then [cur] else []
  | String c r =>
      if Ascii.eqb c LF
      then (cur ++ String c EmptyString)%string :: StringIO_lines EmptyString r
      else StringIO_lines (cur ++ String c EmptyString)%string r
  end.

(** The states of the parser in [Modules/_csv.c]; the states of an escape
    character are left out, the excel dialect having none. *)
Inductive ParserState : Type :=
| START_RECORD | START_FIELD | IN_FIELD
| IN_QUOTED_FIELD | QUOTE_IN_QUOTED_FIELD | EAT_CRNL.

Record ReaderObj : Type := mkReader {
  state : ParserState;
  fields : list string;     (* fields of the record read so far *)
  field : string            (* the field under construction *)
}.

Definition field_limit : N := 131072.

Definition delimiter : ascii := ",".
Definition quotechar : ascii := "034"%char.

(** [parse_add_char]: a field longer than the limit is an error.  The
    limit counts characters: it is tested when a character begins. *)
Definition parse_add_char (self : ReaderObj) (st : ParserState) (c : ascii)
  : result ReaderObj :=
  if negb (is_cont c) && (field_limit <=? N.of_nat (len (field self)))%N
  then Raise csv_Error
  else Ok (mkReader st (fields self) (field self ++ String c EmptyString)%string).

(** [parse_save_field] *)
Definition parse_save_field (self : ReaderObj) (st : ParserState) : ReaderObj :=
  mkReader st (fields self ++ [field self]) EmptyString.

Definition set_state (self : ReaderObj) (st : ParserState) : ReaderObj :=
  mkReader st (fields self) (field self).

Definition is_nl (c : ascii) : bool := Ascii.eqb c LF || Ascii.eqb c CR.

(** [parse_process_char] on a character of the line ([Some c]) or on the
    end of the line ([None], the EOL of the C code), for the excel
    dialect: comma delimiter, double-quote quotechar, doublequote on,
    not strict. *)
Definition parse_process_char (self : ReaderObj) (c : option ascii) : result ReaderObj :=
  let start_field (c : option ascii) :=
    match c with
    | None => Ok (parse_save_field self START_RECORD)
    | Some c =>
        if is_nl c then Ok (parse_save_field self EAT_CRNL)
        else if Ascii.eqb c quotechar then Ok (set_state self IN_QUOTED_FIELD)
        else if Ascii.eqb c delimiter then Ok (parse_save_field self START_FIELD)
        else parse_add_char self IN_FIELD c
    end in
  match state self with
  | START_RECORD =>
      match c with
      | None => Ok self
      | Some ch => if is_nl ch then Ok (set_state self EAT_CRNL) else start_field c
      end
  | START_FIELD => start_field c
  | IN_FIELD =>
      match c with
      | None => Ok (parse_save_field self START_RECORD)
      | Some c =>
          if is_nl c then Ok (parse_save_field self EAT_CRNL)
          else if Ascii.eqb c delimiter then Ok (parse_save_field self START_FIELD)
          else parse_add_char self IN_FIELD c
      end
  | IN_QUOTED_FIELD =>
      match c with
      | None => Ok self
      | Some c =>
          if Ascii.eqb c quotechar then Ok (set_state self QUOTE_IN_QUOTED_FIELD)
          else parse_add_char self IN_QUOTED_FIELD c
      end
  | QUOTE_IN_QUOTED_FIELD =>
      match c with
      | None => Ok (parse_save_field self START_RECORD)
      | Some c =>
          if Ascii.eqb c quotechar then parse_add_char self IN_QUOTED_FIELD c
          else if Ascii.eqb c delimiter then Ok (parse_save_field self START_FIELD)
          else if is_nl c then Ok (parse_save_field self EAT_CRNL)
          else parse_add_char self IN_FIELD c
      end
  | EAT_CRNL =>
      match c with
      | None => Ok (set_state self START_RECORD)
      | Some c => if is_nl c then Ok self else Raise csv_Error
      end
  end.

(** The inner loop of [Reader_iternext]: the characters of one line, then
    the end of the line. *)
Fixpoint parse_line (self : ReaderObj) (line : string) : result ReaderObj :=
  match line with
  | EmptyString => parse_process_char self None
  | String c r => self' <- parse_process_char self (Some c) ;; parse_line self' r
  end.

(** [parse_reset] *)
Definition parse_reset : ReaderObj := mkReader START_RECORD [] EmptyString.

Definition is_START_RECORD (st : ParserState) : bool :=
  match st with START_RECORD => true | _ => false end.

Definition is_IN_QUOTED_FIELD (st : ParserState) : bool :=
  match st with IN_QUOTED_FIELD => true | _ => false end.

(** [list(csv.reader(lines))]: [Reader_iternext] again and again.  A
    record ends with the line after which the parser is back in
    START_RECORD; when the lines run out inside a record, the record so far
    is the last one. *)
Fixpoint reader_rows (self : ReaderObj) (lines : list string)
  : result (list (list string)) :=
  match lines with
  | [] =>
      if truthy (field self) || is_IN_QUOTED_FIELD (state self)
      then Ok [fields (parse_save_field self START_RECORD)]
      else Ok []
  | line :: rest =>
      self' <- parse_line self line ;;
      if is_START_RECORD (state self')
      then rows <- reader_rows parse_reset rest ;; Ok (fields self' :: rows)
      else reader_rows self' rest
  end.

Definition csv_reader (text : string) : result (list (list string)) :=
  reader_rows parse_reset (StringIO_lines EmptyString text).

(** ** The rows of csv.DictReader *)

(** A row is a dict from the field names to a string or [None] (the
    [restval] of a missing field), with, under the key [None] (the
    [restkey]), the fields a long row has beyond the field names. *)
Record dict : Type := mkdict {
  items : list (string * option string);   (* the latest assignment first *)
  restkey : option (list string)
}.

Definition dict_set (d : dict) (k : string) (v : option string) : dict :=
  mkdict ((k, v) :: items d) (restkey d).

Fixpoint assoc (k : string) (l : list (string * option string)) : option (option string) :=
  match l with
  | [] => None
  | (k', v) :: r => if k' =? k then Some v else assoc k r
  end.

(** [d.get(k)], [d.get(k, default)] and [d[k]] *)
Definition dict_get (d : dict) (k : string) : option string :=
  match assoc k (items d) with
  | Some v => v
  | None => None
  end.

Definition dict_get_default (d : dict) (k : string) (default : string) : option string :=
  match assoc k (items d) with
  | Some v => v
  | None => Some default
  end.

Definition dict_getitem (d : dict) (k : string) : result (option string) :=
  match assoc k (items d) with
  | Some v => Ok v
  | None => Raise (KeyError k)
  end.

(** [dict(zip(keys, values))]: a later pair overwrites an earlier one of
    the same key. *)
Definition dict_zip (keys values : list string) : dict :=
  fold_left (fun d kv => dict_set d (fst kv) (Some (snd kv)))
            (combine keys values) (mkdict [] None).

(** The dict [DictReader.__next__] makes of a row. *)
Definition DictReader_row (fieldnames row : list string) : dict :=
  let d := dict_zip fieldnames row in
  let lf := List.length fieldnames in
  let lr := List.length row in
  if (lf <? lr)%nat then mkdict (items d) (Some (skipn lf row))
  else if (lr <? lf)%nat
       then fold_left (fun d key => dict_set d key None) (skipn lr fieldnames) d
       else d.

Definition is_blank_row (row : list string) : bool :=
  match row with [] => true | _ => false end.

(** [list(csv.DictReader(f))] from the rows of the reader: the first row
    gives the field names, blank rows are skipped. *)
Definition DictReader (table : list (list string)) : list dict :=
  match table with
  | [] => []
  | fieldnames :: rows =>
      map (DictReader_row fieldnames) (filter (fun r => negb (is_blank_row r)) rows)
  end.

(** ** Truth values: [a or b] on strings and [None] *)

Definition truthy_opt (v : option string) : bool :=
  match v with
  | Some s => truthy s
  | None => false
  end.

Definition py_or (a b : option string) : option string :=
  if truthy_opt a then a else b.

(** [a or "literal"] *)
Definition or_str (a : option string) (b : string) : string :=
  match a with
  | Some s => if truthy s then s else b
  | None => b
  end.

(** [for x in l: body], the body working on the state [s]; an exception
    ends the loop. *)
Fixpoint for_each {A S : Type} (l : list A) (body : A -> S -> result S) (s : S)
  : result S :=
  match l with
  | [] => Ok s
  | a :: r => s' <- body a s ;; for_each r body s'
  end.

(* ================================================================== *)
(** * converter.py: revolut_to_mt940                                  *)
(* ================================================================== *)

Definition DATE_COMPLETED : string := "Date completed (UTC)".
Definition NL : string := String LF EmptyString.

(** The currency of the statement, from the most recent row, else the
    earliest, else EUR. *)
Definition statement_currency (rows_0 rows_last : dict) : string :=
  upper (strip (or_str (py_or (dict_get rows_0 "Payment currency")
                              (dict_get rows_last "Payment currency")) "EUR")).

(** The sub-lines of the description chunks: [~32], [~33] and, for all
    the further chunks together, [~38]. *)
Definition description_lines (lines desc_chunks : list string) : list string :=
  match desc_chunks with
  | [] => lines
  | _ =>
      let lines :=
        if (1 <=? List.length desc_chunks)%nat
        then lines ++ [("~32" ++ nth 0 desc_chunks "")%string] else lines in
      let lines :=
        if (2 <=? List.length desc_chunks)%nat
        then lines ++ [("~33" ++ nth 1 desc_chunks "")%string] else lines in
      if (2 <? List.length desc_chunks)%nat
      then lines ++ [("~38" ++ join0 (skipn 2 desc_chunks))%string] else lines
  end.

(** The body of the loop [for tx in reversed(rows)]: the lines of one
    transaction are appended to [lines]. *)
Definition tx_body (currency : string) (first_row : dict) (tx : dict)
  (lines : list string) : result (list string) :=
  let date_completed :=
    py_or (dict_get tx DATE_COMPLETED) (dict_get tx "Date started (UTC)") in
  date_completed <-
    (if negb (truthy_opt date_completed)
     then dict_getitem first_row DATE_COMPLETED
     else Ok date_completed) ;;
  val_date <- fmt_yyMMdd date_completed ;;
  entry_md <- fmt_MMDD date_completed ;;
  let tx_id := strip (replace "-" "" (or_str (dict_get tx "ID") "")) in
  let amount :=
    parse_decimal
      (Some (or_str (py_or (dict_get tx "Amount") (dict_get tx "Orig amount")) "0")) in
  negative <- lt0 amount ;;
  let direction := if negative then "D" else "C" in
  amount_abs <- Decimal_abs amount ;;
  amount_str <- _fmt_amount amount_abs ;;
  let tx_type := upper (or_str (dict_get tx "Type") "") in
  let code_num := if str_in "FEE" tx_type then "49" else "119" in
  let lines :=
    lines ++ [(":61:" ++ val_date ++ entry_md ++ direction ++ amount_str
                ++ "N" ++ code_num ++ "NONREF//" ++ tx_id)%string] in
  let lines := lines ++ [(code_num ++ " 0")%string] in
  let lines := lines ++ [(":86:020~00" ++ code_num)%string] in
  let reference := strip (or_str (dict_get tx "Reference") "") in
  let lines := if truthy reference then lines ++ [("~20" ++ reference)%string] else lines in
  let description := strip (or_str (dict_get tx "Description") "") in
  desc_chunks <- _split_text_chunks description 35 ;;
  let lines := description_lines lines desc_chunks in
  let ben_iban := strip (or_str (dict_get tx "Beneficiary IBAN") "") in
  let lines :=
    if truthy ben_iban
    then lines ++ [("~38" ++ replace " " "" ben_iban)%string] else lines in
  let symbol := if currency =? "EUR" then "€" else currency in
  let lines := lines ++ [("~60" ++ symbol)%string] in
  let lines := lines ++ [("~63" ++ symbol)%string] in
  Ok lines.

(** The body of [revolut_to_mt940] from [if not rows] on, up to the list
    [lines] that is joined at the end. *)
Definition mt940_lines (rows : list dict) (iban : string) : result (list string) :=
  match rows with
  | [] => Raise ValueError_empty_csv
  | rows_0 :: _ =>
      let iban_norm := replace " " "" iban in
      let currency := statement_currency rows_0 (last rows rows_0) in
      let first_row := last rows rows_0 in
      let last_row := rows_0 in
      date_first <- dict_getitem first_row DATE_COMPLETED ;;
      opening_date <- fmt_yyMMdd date_first ;;
      let opening_balance := parse_decimal (dict_get_default first_row "Balance" "0") in
      date_last <- dict_getitem last_row DATE_COMPLETED ;;
      closing_date <- fmt_yyMMdd date_last ;;
      let closing_balance := parse_decimal (dict_get_default last_row "Balance" "0") in
      od <- strptime date_first ;;
      let last_day := days_in_month (year od) (month od) in
      let available_dt := mkdatetime (year od) (month od) last_day in
      let available_date := strftime_ymd available_dt in
      let lines := [] in
      let lines := lines ++ [":20:MT940"] in
      let lines := lines ++ [(":25:/" ++ iban_norm)%string] in
      let lines := lines ++ [":28C:1"] in
      opening_str <- _fmt_amount opening_balance ;;
      let lines := lines ++ [(":60F:C" ++ opening_date ++ currency ++ opening_str)%string] in
      lines <- for_each (rev rows) (tx_body currency first_row) lines ;;
      closing_str <- _fmt_amount closing_balance ;;
      let lines := lines ++ [(":62F:C" ++ closing_date ++ currency ++ closing_str)%string] in
      closing_str' <- _fmt_amount closing_balance ;;
      let lines := lines ++ [(":64:C" ++ available_date ++ currency ++ closing_str')%string] in
      let lines := lines ++ ["-"] in
      Ok lines
  end.

(** [def revolut_to_mt940(csv_content, iban)] *)
Definition revolut_to_mt940 (csv_content iban : string) : result string :=
  table <- csv_reader csv_content ;;
  let rows := DictReader table in
  lines <- mt940_lines rows iban ;;
  Ok (join NL lines).

(* ================================================================== *)
(** * Vocabulary of the statements                                    *)
(* ================================================================== *)

(** [s.endswith(suffix)] *)
Definition endswith (suffix s : string) : bool :=
  (length suffix <=? length s)%nat && (drop (length s - length suffix) s =? suffix).

(** The characters of [s] that satisfy [p], in their order. *)
Fixpoint str_filter (p : ascii -> bool) (s : string) : string :=
  match s with
  | EmptyString => EmptyString
  | String c r => if p c then String c (str_filter p r) else str_filter p r
  end.

(** Every character of [s] satisfies [p]. *)
Fixpoint str_forall (p : ascii -> bool) (s : string) : bool :=
  match s with
  | EmptyString => true
  | String c r => p c && str_forall p r
  end.

(** A character: a byte and continuation bytes. *)
Definition is_char (g : string) : bool :=
  match g with
  | String _ t => str_forall is_cont t
  | EmptyString => false
  end.

(** A list of characters as [chars] cuts them: every one after the first
    begins with a byte that is no continuation byte. *)
Definition segmented (l : list string) : Prop :=
  Forall (fun g => is_char g = true) l /\
  Forall (fun g => starts_cont g = false) (tl l).

(** A byte that is neither a continuation byte nor ASCII white space. *)
Definition is_plain (c : ascii) : bool := negb (is_cont c) && negb (is_space c).


(** Removal of all white space, of any kind: the normalisation of the
    account identifier as the specification words it. *)
Definition remove_whitespace (s : string) : string :=
  str_filter (fun c => negb (is_space c)) s.

(** A currency code: exactly three upper-case letters. *)
Definition is_currency_code (s : string) : bool :=
  (length s =? 3)%nat && str_forall is_upper s.

(** The amount of a row as [tx_body] resolves it: the field Amount, else
    Orig amount, else zero. *)
Definition tx_amount (tx : dict) : Decimal :=
  parse_decimal
    (Some (or_str (py_or (dict_get tx "Amount") (dict_get tx "Orig amount")) "0")).

(** The description of a row as [tx_body] hands it to the chunking, and
    its beneficiary IBAN as tested before the sub-line is written. *)
Definition tx_description (tx : dict) : string :=
  strip (or_str (dict_get tx "Description") "").

Definition tx_ben_iban (tx : dict) : string :=
  strip (or_str (dict_get tx "Beneficiary IBAN") "").

(** The number [c * 10^e] is below [10^k]. *)
Definition below_pow10 (c : N) (e k : Z) : Prop :=
  (Z.of_N c * 10 ^ Z.max e 0 < 10 ^ (k + Z.max (- e) 0))%Z.

(** [cents] is [c * 10^e * 100] rounded to the nearest integer, a tie
    going to the even one. *)
Definition rounds_half_even_to (c : N) (e : Z) (cents : N) : Prop :=
  if (-2 <=? e)%Z then Z.of_N cents = (Z.of_N c * 10 ^ (e + 2))%Z
  else
    let m := (10 ^ (- 2 - e))%Z in
    let err := Z.abs (Z.of_N c - Z.of_N cents * m) in
    (2 * err <= m)%Z /\ ((2 * err = m)%Z -> N.even cents = true).

(** An amount printed without a sign: digits, a comma, two digits. *)
Definition unsigned_amount (cents : N) : string :=
  (N_to_str (cents / 100) ++ "," ++ pad2 (cents mod 100))%string.

(** The symbol of the statement's currency in the tags 60 and 63. *)
Definition currency_symbol (currency : string) : string :=
  if currency =? "EUR" then "€" else currency.

(** The currency field the statement goes by: the first record's if it
    is there and not empty, else the last record's, else EUR. *)
Definition chosen_currency_field (first_record last_record : dict) : string :=
  match dict_get first_record "Payment currency" with
  | Some (String c s) => String c s
  | _ =>
      match dict_get last_record "Payment currency" with
      | Some (String c s) => String c s
      | _ => "EUR"
      end
  end.

Definition is_letter (c : ascii) : bool := is_lower c || is_upper c.

(** An ASCII character: one byte below 128. *)
Definition is_ascii7 (c : ascii) : bool := (nat_of_ascii c <? 128)%nat.

(** The columns that [revolut_to_mt940] looks up in the rows. *)
Definition used_columns : list string :=
  ["Date completed (UTC)"; "Date started (UTC)"; "ID"; "Amount"; "Orig amount";
   "Type"; "Reference"; "Description"; "Beneficiary IBAN"; "Payment currency";
   "Balance"].

(** Two dicts with the same entries under the used columns. *)
Definition cols_agree (d d' : dict) : Prop :=
  forall k : string, In k used_columns -> assoc k (items d) = assoc k (items d').

(** A character of a plain number: a digit or the point. *)
Definition is_num_char (c : ascii) : bool := is_digit c || Ascii.eqb c ".".

(** The parts of a transaction block, named as in [tx_body]. *)
Definition tx_date (first_row tx : dict) : result (option string) :=
  let date_completed :=
    py_or (dict_get tx DATE_COMPLETED) (dict_get tx "Date started (UTC)") in
  if negb (truthy_opt date_completed)
  then dict_getitem first_row DATE_COMPLETED
  else Ok date_completed.

Definition tx_id (tx : dict) : string :=
  strip (replace "-" "" (or_str (dict_get tx "ID") "")).

Definition tx_code_num (tx : dict) : string :=
  if str_in "FEE" (upper (or_str (dict_get tx "Type") "")) then "49" else "119".

Definition tx_reference (tx : dict) : string :=
  strip (or_str (dict_get tx "Reference") "").

(** The sub-lines of a block after its three leading lines: reference,
    description chunks, beneficiary, currency symbol twice. *)
Definition tx_sub_lines (currency : string) (tx : dict) (desc_chunks : list string)
  : list string :=
  (if truthy (tx_reference tx) then [("~20" ++ tx_reference tx)%string] else []) ++
  description_lines [] desc_chunks ++
  (if truthy (tx_ben_iban tx)
   then [("~38" ++ replace " " "" (tx_ben_iban tx))%string] else []) ++
  [("~60" ++ currency_symbol currency)%string;
   ("~63" ++ currency_symbol currency)%string].

(** The block of one transaction: what [tx_body] appends. *)
Definition tx_block (currency : string) (first_row tx : dict) : result (list string) :=
  tx_body currency first_row tx [].

(* ================================================================== *)
(** * Sample inputs                                                   *)
(* ================================================================== *)

Definition TAB : ascii := "009"%char.

(** Three rows, the most recent first: a card payment, a fee with a long
    description and a beneficiary, and a top-up whose row has one field
    more than the header. *)
Definition sample_csv : string :=
  ("Date completed (UTC),Amount,Balance,Payment currency,Type,ID,Description,Beneficiary IBAN,Reference" ++ NL ++
   "2024-01-20,-12.50,987.50,EUR,CARD_PAYMENT,abc-123,Coffee,,ref1" ++ NL ++
   "2024-01-10,100,1000.00,EUR,card_fee,def-456,aaaaaaaaaaaaaaaaaaaaaaaaaaaaaaaaaaabbbbbbbbbbbbbbbbbbbbbbbbbbbbbbbbbbbccccccccccdddddddddddddddddddddddddddddddddddeeee,DE12 3456 78," ++ NL ++
   "2024-01-01,5,900.00,EUR,TOPUP,x,,,,extra" ++ NL)%string.

Definition sample_iban : string := "DE 12 34".

Definition rows_of_csv (text : string) : list dict :=
  match csv_reader text with
  | Ok table => DictReader table
  | Raise _ => []
  end.

Definition sample_rows : list dict := Eval vm_compute in rows_of_csv sample_csv.

Definition sample_lines : list string :=
  [":20:MT940"; ":25:/DE1234"; ":28C:1"; ":60F:C240101EUR900,00";
   ":61:2401010101C5,00N119NONREF//x"; "119 0"; ":86:020~00119";
   "~60€"; "~63€";
   ":61:2401100110C100,00N49NONREF//def456"; "49 0"; ":86:020~0049";
   "~32aaaaaaaaaaaaaaaaaaaaaaaaaaaaaaaaaaa";
   "~33bbbbbbbbbbbbbbbbbbbbbbbbbbbbbbbbbbb";
   "~38ccccccccccdddddddddddddddddddddddddddddddddddeeee";
   "~38DE12345678"; "~60€"; "~63€";
   ":61:2401200120D12,50N119NONREF//abc123"; "119 0"; ":86:020~00119";
   "~20ref1"; "~32Coffee"; "~60€"; "~63€";
   ":62F:C240120EUR987,50"; ":64:C240131EUR987,50"; "-"].

(** Three rows, the most recent first: a transfer that leaves the
    account overdrawn, a row without dates whose type spells fee in
    mixed case, and the earliest row. *)
Definition overdrawn_csv : string :=
  ("Date completed (UTC),Date started (UTC),Amount,Balance,Type,ID,Beneficiary IBAN" ++ NL ++
   "2024-02-10,2024-02-09,-20,-12.50,TRANSFER,a-b-c,GB 12 3" ++ NL ++
   ",,4,7.50,Card Fee refund,," ++ NL ++
   "2024-01-05,2024-01-05,3.5,3.50,TOPUP,," ++ NL)%string.

Definition overdrawn_rows : list dict := Eval vm_compute in rows_of_csv overdrawn_csv.

Definition overdrawn_lines : list string :=
  [":20:MT940"; ":25:/DE1234"; ":28C:1"; ":60F:C240105EUR3,50";
   ":61:2401050105C3,50N119NONREF//"; "119 0"; ":86:020~00119"; "~60€"; "~63€";
   ":61:2401050105C4,00N49NONREF//"; "49 0"; ":86:020~0049"; "~60€"; "~63€";
   ":61:2402100210D20,00N119NONREF//abc"; "119 0"; ":86:020~00119";
   "~38GB123"; "~60€"; "~63€";
   ":62F:C240210EUR-12,50"; ":64:C240131EUR-12,50"; "-"].

(** A text of [n] times the letter e with an acute accent, two bytes
    each. *)
Definition accents (n : nat) : string := join0 (repeat (bytes [195; 169]) n).



(** A header and nothing else. *)
Definition header_only_csv : string :=
  ("Date completed (UTC),Amount,Balance,Payment currency" ++ NL)%string.

(** One row in a currency whose code has four letters. *)
Definition usdt_csv : string :=
  ("Date completed (UTC),Amount,Balance,Payment currency" ++ NL ++
   "2024-01-15,-12.50,987.50,usdt" ++ NL)%string.

Definition usdt_rows : list dict := Eval vm_compute in rows_of_csv usdt_csv.

(** An account identifier with a tabulation inside. *)
Definition tab_iban : string := ("DE12" ++ String TAB "3456 78")%string.

(* ================================================================== *)
(** * Strings: basic facts                                            *)
(* ================================================================== *)

Section StringFacts.

Local Open Scope string_scope.

Lemma str_app_nil_r (s : string) : s ++ "" = s.
Proof. induction s as [|c s IH]; simpl; [reflexivity | now rewrite IH]. Qed.

Lemma str_app_assoc (a b c : string) : (a ++ b) ++ c = a ++ (b ++ c).
Proof. induction a as [|x a IH]; simpl; [reflexivity | now rewrite IH]. Qed.

Lemma str_length_app (a b : string) : length (a ++ b) = (length a + length b)%nat.
Proof. induction a as [|x a IH]; simpl; [reflexivity | now rewrite IH]. Qed.

Lemma length_zero_empty (s : string) : length s = 0%nat -> s = "".
Proof. destruct s; simpl; [reflexivity | discriminate]. Qed.

Lemma truthy_false_iff (s : string) : truthy s = false <-> s = "".
Proof.
  unfold truthy. destruct (String.eqb_spec s ""); simpl; split; congruence.
Qed.

Lemma truthy_true_iff (s : string) : truthy s = true <-> s <> "".
Proof.
  unfold truthy. destruct (String.eqb_spec s ""); simpl; split; congruence.
Qed.

Lemma drop_length (n : nat) (s : string) : length (drop n s) = (length s - n)%nat.
Proof.
  revert s; induction n as [|n IH]; intros [|c s]; simpl; auto.
Qed.

Lemma drop_all (n : nat) (s : string) : (length s <= n)%nat -> drop n s = "".
Proof.
  intro H. apply length_zero_empty. rewrite drop_length. lia.
Qed.

Lemma drop_drop (n m : nat) (s : string) : drop n (drop m s) = drop (m + n) s.
Proof.
  revert s; induction m as [|m IH]; intros s; simpl; [reflexivity|].
  destruct s as [|c s]; simpl; [now destruct n | apply IH].
Qed.

Lemma join0_cons (x : string) (xs : list string) : join0 (x :: xs) = x ++ join0 xs.
Proof.
  unfold join0; simpl. destruct xs; [now rewrite str_app_nil_r | reflexivity].
Qed.

Lemma str_forall_app (p : ascii -> bool) (a b : string) :
  str_forall p (a ++ b) = str_forall p a && str_forall p b.
Proof.
  induction a as [|x a IH]; simpl; [reflexivity|].
  now rewrite IH, andb_assoc.
Qed.

End StringFacts.

(* ================================================================== *)
(** * Characters                                                      *)
(* ================================================================== *)

Section Characters.

Local Open Scope string_scope.

Lemma chars_not_nil (c : ascii) (r : string) : chars (String c r) <> [].
Proof. cbn [chars]. destruct (chars r); [|destruct (starts_cont r)]; discriminate. Qed.

Lemma chars_nil (s : string) : chars s = [] -> s = "".
Proof. destruct s as [|c r]; [reflexivity|]. intro H. now apply chars_not_nil in H. Qed.

Lemma len_zero_empty (s : string) : len s = 0%nat -> s = "".
Proof. unfold len. intro H. apply chars_nil. now apply length_zero_iff_nil. Qed.

Lemma join0_chars (s : string) : join0 (chars s) = s.
Proof.
  induction s as [|c r IH]; [reflexivity|].
  cbn [chars]. destruct (chars r) as [|ch rest] eqn:E.
  - apply chars_nil in E. now subst r.
  - rewrite join0_cons in IH. subst r.
    destruct (starts_cont (ch ++ join0 rest)); now rewrite !join0_cons.
Qed.

Lemma join0_app (a b : list string) : join0 (a ++ b) = join0 a ++ join0 b.
Proof.
  induction a as [|x a IH]; [reflexivity|].
  cbn [app]. now rewrite !join0_cons, IH, str_app_assoc.
Qed.

Lemma join0_concat (ll : list (list string)) :
  join0 (List.concat ll) = join0 (map join0 ll).
Proof.
  induction ll as [|l ll IH]; [reflexivity|].
  cbn [List.concat map]. now rewrite join0_app, join0_cons, IH.
Qed.

(** The first character begins with the first byte. *)
Lemma chars_head (c : ascii) (r : string) :
  exists t rest, chars (String c r) = String c t :: rest.
Proof.
  cbn [chars]. destruct (chars r) as [|ch rest]; [now exists "", []|].
  destruct (starts_cont r); [now exists ch, rest | now exists "", (ch :: rest)].
Qed.

Lemma chars_segmented (s : string) : segmented (chars s).
Proof.
  unfold segmented. induction s as [|c r [IH1 IH2]]; [split; constructor|].
  cbn [chars]. destruct (chars r) as [|ch rest] eqn:E; [split; repeat constructor|].
  destruct r as [|d r']; [discriminate|].
  destruct (chars_head d r') as (t & rest' & E'). rewrite E in E'.
  injection E' as -> ->.
  inversion IH1 as [|? ? Hch Hrest]; subst.
  cbn [starts_cont]. destruct (is_cont d) eqn:Hd.
  - split; [constructor; [|exact Hrest] | exact IH2].
    cbn [is_char str_forall] in *. now rewrite Hd, Hch.
  - split; [constructor; [reflexivity | exact IH1]|].
    cbn [tl] in *. constructor; [exact Hd | exact IH2].
Qed.

(** A character put before a text that begins a new character. *)
Lemma chars_char_app (t : string) : forall (c : ascii) (rest : string),
  str_forall is_cont t = true -> starts_cont rest = false ->
  chars (String c (t ++ rest)) = String c t :: chars rest.
Proof.
  induction t as [|d t IH]; intros c rest Ht Hr.
  - cbn [append chars]. rewrite Hr.
    destruct (chars rest) eqn:E; reflexivity.
  - cbn [str_forall] in Ht. apply andb_true_iff in Ht. destruct Ht as [Hd Ht].
    cbn [append]. change (chars (String c (String d (t ++ rest))))
      with (match chars (String d (t ++ rest)) with
            | ch :: rs => if starts_cont (String d (t ++ rest)) then String c ch :: rs
                          else String c EmptyString :: ch :: rs
            | [] => [String c EmptyString]
            end).
    rewrite (IH d rest Ht Hr). cbn [starts_cont]. now rewrite Hd.
Qed.

Lemma segmented_tail (g : string) (l : list string) :
  segmented (g :: l) -> segmented l /\ starts_cont (join0 l) = false.
Proof.
  unfold segmented. intros [H1 H2]. inversion H1 as [|? ? Hg Hl]; subst.
  cbn [tl] in H2. split.
  - split; [exact Hl|]. destruct l; [constructor|]. now inversion H2.
  - destruct l as [|g' l']; [reflexivity|].
    inversion H2 as [|? ? Hs _]; subst. rewrite join0_cons.
    destruct g'; [inversion Hl; discriminate | exact Hs].
Qed.

(** Cutting into characters undoes joining them. *)
Lemma chars_join0 (l : list string) : segmented l -> chars (join0 l) = l.
Proof.
  induction l as [|g l IH]; intros H; [reflexivity|].
  destruct (segmented_tail H) as [Hl Hs].
  destruct H as [H1 _]. inversion H1 as [|? ? Hg _]; subst.
  destruct g as [|c t]; [discriminate|]. cbn [is_char] in Hg.
  rewrite join0_cons. cbn [append].
  rewrite chars_char_app by assumption. now rewrite IH.
Qed.

Lemma segmented_skipn (i : nat) (l : list string) : segmented l -> segmented (skipn i l).
Proof.
  revert l. induction i as [|i IH]; intros l H; [exact H|].
  destruct l as [|g l]; [exact H|]. cbn [skipn]. apply IH.
  now apply segmented_tail in H.
Qed.

Lemma Forall_take {A : Type} (P : A -> Prop) (n : nat) (l : list A) :
  Forall P l -> Forall P (firstn n l).
Proof.
  intro H. revert n. induction H as [|a l Ha _ IH]; intros [|n]; try constructor;
    [exact Ha | apply IH].
Qed.

Lemma segmented_firstn (n : nat) (l : list string) : segmented l -> segmented (firstn n l).
Proof.
  unfold segmented. intros [H1 H2]. split; [now apply Forall_take|].
  destruct n as [|n]; [constructor|]. destruct l as [|g l]; [constructor|].
  cbn [firstn tl] in *. now apply Forall_take.
Qed.

Lemma chars_slice (i n : nat) (s : string) :
  chars (slice i n s) = firstn n (skipn i (chars s)).
Proof.
  unfold slice. apply chars_join0, segmented_firstn, segmented_skipn, chars_segmented.
Qed.

(** [len(s[i:i+n])] *)
Lemma len_slice (i n : nat) (s : string) : len (slice i n s) = Nat.min n (len s - i).
Proof.
  unfold len. rewrite chars_slice, length_firstn, length_skipn. reflexivity.
Qed.

Lemma str_forall_concat (p : ascii -> bool) (l : list string) :
  str_forall p (join0 l) = forallb (str_forall p) l.
Proof.
  induction l as [|x l IH]; [reflexivity|].
  rewrite join0_cons, str_forall_app, IH. reflexivity.
Qed.

Lemma str_forall_chars (p : ascii -> bool) (s : string) :
  forallb (str_forall p) (chars s) = str_forall p s.
Proof. now rewrite <- str_forall_concat, join0_chars. Qed.

Lemma forallb_skipn {A : Type} (f : A -> bool) (i : nat) (l : list A) :
  forallb f l = true -> forallb f (skipn i l) = true.
Proof.
  revert l. induction i as [|i IH]; intros [|a l] H; try exact H.
  cbn [skipn]. apply IH. cbn [forallb] in H. now apply andb_true_iff in H.
Qed.

Lemma forallb_firstn {A : Type} (f : A -> bool) (n : nat) (l : list A) :
  forallb f l = true -> forallb f (firstn n l) = true.
Proof.
  revert l. induction n as [|n IH]; intros [|a l] H; try reflexivity.
  cbn [firstn forallb] in *. apply andb_true_iff in H. destruct H as [Ha Hl].
  now rewrite Ha, IH.
Qed.

Lemma forallb_rev {A : Type} (f : A -> bool) (l : list A) :
  forallb f (rev l) = forallb f l.
Proof.
  induction l as [|a l IH]; [reflexivity|].
  cbn [rev forallb]. rewrite forallb_app, IH. cbn [forallb].
  rewrite andb_true_r. apply andb_comm.
Qed.

Lemma forallb_lstrip_chars (f : string -> bool) (l : list string) :
  forallb f l = true -> forallb f (lstrip_chars l) = true.
Proof.
  induction l as [|g l IH]; intro H; [reflexivity|].
  cbn [lstrip_chars]. destruct (is_space_char g); [|exact H].
  apply IH. cbn [forallb] in H. now apply andb_true_iff in H.
Qed.

Section Forall_p.

Variable p : ascii -> bool.

Lemma str_forall_slice (i n : nat) (s : string) :
  str_forall p s = true -> str_forall p (slice i n s) = true.
Proof.
  intro H. unfold slice. rewrite str_forall_concat.
  apply forallb_firstn, forallb_skipn. now rewrite str_forall_chars.
Qed.

Lemma str_forall_strip (s : string) :
  str_forall p s = true -> str_forall p (strip s) = true.
Proof.
  intro H. unfold strip, rstrip_chars. rewrite str_forall_concat, forallb_rev.
  apply forallb_lstrip_chars. rewrite forallb_rev.
  apply forallb_lstrip_chars. now rewrite str_forall_chars.
Qed.

End Forall_p.

(** A text without continuation bytes has one character for each byte. *)
Lemma chars_plain (s : string) :
  str_forall (fun c => negb (is_cont c)) s = true ->
  chars s = map (fun c => String c EmptyString) (list_ascii_of_string s).
Proof.
  induction s as [|c r IH]; [reflexivity|].
  cbn [str_forall]. intro H. apply andb_true_iff in H. destruct H as [_ Hr].
  cbn [chars list_ascii_of_string map]. rewrite (IH Hr).
  destruct r as [|d r']; [reflexivity|].
  cbn [str_forall] in Hr. apply andb_true_iff in Hr. destruct Hr as [Hd _].
  cbn [list_ascii_of_string map starts_cont].
  apply negb_true_iff in Hd. now rewrite Hd.
Qed.

Lemma length_list_ascii (s : string) :
  List.length (list_ascii_of_string s) = length s.
Proof. induction s as [|c r IH]; [reflexivity|]. simpl. now rewrite IH. Qed.

Lemma len_plain (s : string) :
  str_forall (fun c => negb (is_cont c)) s = true -> len s = length s.
Proof.
  intro H. unfold len. now rewrite (chars_plain _ H), length_map, length_list_ascii.
Qed.

Lemma len_le_length (s : string) : (len s <= length s)%nat.
Proof.
  unfold len. induction s as [|c r IH]; [simpl; lia|].
  cbn [chars]. destruct (chars r) as [|ch rest]; [simpl; lia|].
  destruct (starts_cont r); simpl in *; lia.
Qed.

(** White space is not dropped from a text that begins and ends with
    other characters. *)
Lemma lstrip_chars_id (g : string) (l : list string) :
  is_space_char g = false -> lstrip_chars (g :: l) = g :: l.
Proof. intro H. cbn [lstrip_chars]. now rewrite H. Qed.

Lemma lstrip_chars_snoc (l : list string) (g : string) :
  is_space_char g = false -> lstrip_chars (l ++ [g]) = (lstrip_chars l ++ [g])%list.
Proof.
  intro H. induction l as [|x l IH]; [cbn [app lstrip_chars]; now rewrite H|].
  cbn [app lstrip_chars]. destruct (is_space_char x); [exact IH | reflexivity].
Qed.

(** Trimming the end keeps a first character that is no white space. *)
Lemma rstrip_chars_cons (g : string) (l : list string) :
  is_space_char g = false -> rstrip_chars (g :: l) = g :: rstrip_chars l.
Proof.
  intro H. unfold rstrip_chars. cbn [rev].
  rewrite lstrip_chars_snoc by exact H. rewrite rev_app_distr. reflexivity.
Qed.

Lemma rstrip_chars_id (l : list string) :
  Forall (fun g => is_space_char g = false) l -> rstrip_chars l = l.
Proof.
  induction 1 as [|g l Hg _ IH]; [reflexivity|].
  now rewrite rstrip_chars_cons, IH.
Qed.

Lemma plain_not_space (s : string) :
  str_forall is_plain s = true ->
  Forall (fun g => is_space_char g = false) (chars s).
Proof.
  intro H.
  assert (Hc : str_forall (fun c => negb (is_cont c)) s = true).
  { revert H. induction s as [|c r IH]; [reflexivity|]. cbn [str_forall].
    intro H. apply andb_true_iff in H. destruct H as [Hc Hr].
    unfold is_plain in Hc. apply andb_true_iff in Hc. destruct Hc as [Hc _].
    now rewrite Hc, IH. }
  rewrite (chars_plain _ Hc). clear Hc.
  induction s as [|c r IH]; [constructor|].
  cbn [str_forall] in H. apply andb_true_iff in H. destruct H as [Hc Hr].
  cbn [list_ascii_of_string map]. constructor; [|now apply IH].
  cbn [is_space_char]. unfold is_plain in Hc.
  apply andb_true_iff in Hc. destruct Hc as [_ Hc]. now apply negb_true_iff in Hc.
Qed.

Lemma strip_id (s : string) : str_forall is_plain s = true -> strip s = s.
Proof.
  intro H. apply plain_not_space in H. unfold strip.
  assert (E : lstrip_chars (chars s) = chars s).
  { destruct H as [|g l Hg _]; [reflexivity | now apply lstrip_chars_id]. }
  rewrite E, rstrip_chars_id by exact H. apply join0_chars.
Qed.

(** What [strip] leaves begins with a character that is no white space. *)
Lemma lstrip_chars_head (l : list string) (g : string) (r : list string) :
  lstrip_chars l = g :: r -> is_space_char g = false.
Proof.
  induction l as [|x l IH]; [discriminate|].
  cbn [lstrip_chars]. destruct (is_space_char x) eqn:E; [exact IH|].
  intro H. injection H as <- _. exact E.
Qed.

Lemma lstrip_chars_chars (l : list string) :
  Forall (fun g => is_char g = true) l ->
  Forall (fun g => is_char g = true) (lstrip_chars l).
Proof.
  induction 1 as [|g l Hg Hl IH]; [constructor|].
  cbn [lstrip_chars]. destruct (is_space_char g); [exact IH | now constructor].
Qed.

Lemma strip_head (s : string) :
  strip s <> "" ->
  exists (g rest : string),
    strip s = g ++ rest /\ is_char g = true /\ is_space_char g = false.
Proof.
  unfold strip. intro H.
  destruct (lstrip_chars (chars s)) as [|g r] eqn:E; [now contradiction H|].
  pose proof (lstrip_chars_head _ E) as Hg.
  assert (Hc : is_char g = true).
  { pose proof (lstrip_chars_chars (proj1 (chars_segmented s))) as F.
    rewrite E in F. now inversion F. }
  rewrite rstrip_chars_cons by exact Hg.
  exists g, (join0 (rstrip_chars r)). now rewrite join0_cons.
Qed.

(** Removing the spaces of a trimmed text that is not empty leaves
    something. *)
Lemma strip_replace_space (s : string) :
  strip s <> "" -> replace " " "" (strip s) <> "".
Proof.
  intro H. destruct (@strip_head s H) as (g & rest & E & Hc & Hs). rewrite E.
  destruct g as [|c t]; [discriminate|]. cbn [is_char] in Hc.
  cbn [append replace]. destruct (Ascii.eqb_spec c " ") as [->|_]; [|discriminate].
  destruct t as [|d t]; [discriminate|].
  cbn [str_forall] in Hc. apply andb_true_iff in Hc. destruct Hc as [Hd _].
  cbn [append replace]. destruct (Ascii.eqb_spec d " ") as [->|_]; [discriminate|].
  discriminate.
Qed.

End Characters.

(* ================================================================== *)
(** * Chunking                                                        *)
(* ================================================================== *)

Section Chunking.

Variable n : nat.
Hypothesis n_pos : (0 < n)%nat.

Lemma range0_count (len : nat) : (len <= (len + n - 1) / n * n)%nat.
Proof.
  pose proof (Nat.div_mod_eq (len + n - 1) n) as E.
  pose proof (Nat.mod_upper_bound (len + n - 1) n) as B.
  nia.
Qed.

Lemma range0_count_tight (len : nat) : ((len + n - 1) / n * n < len + n)%nat.
Proof.
  pose proof (Nat.div_mod_eq (len + n - 1) n) as E.
  nia.
Qed.

(** Consecutive pieces of [n] elements make up the list. *)
Lemma pieces_concat {A : Type} (k : nat) : forall l : list A,
  (List.length l <= k * n)%nat ->
  List.concat (map (fun i => firstn n (skipn i l)) (map (fun j => j * n)%nat (seq 0 k))) = l.
Proof.
  induction k as [|k IH]; intros l Hlen.
  - simpl in *. symmetry. apply length_zero_iff_nil. lia.
  - rewrite <- cons_seq, <- seq_shift. cbn [map List.concat].
    rewrite !map_map.
    rewrite (map_ext _ (fun j => firstn n (skipn (j * n) (skipn n l)))).
    + rewrite <- map_map with (f := fun j => (j * n)%nat)
                              (g := fun i => firstn n (skipn i (skipn n l))).
      rewrite IH; [apply firstn_skipn|].
      rewrite length_skipn. lia.
    + intros j. rewrite skipn_skipn. f_equal. f_equal. lia.
Qed.

Lemma slices_join (k : nat) (s : string) :
  (len s <= k * n)%nat ->
  join0 (map (fun i => slice i n s) (map (fun j => j * n)%nat (seq 0 k))) = s.
Proof.
  intro H. unfold slice.
  rewrite <- map_map with (f := fun i => firstn n (skipn i (chars s))) (g := join0).
  rewrite <- join0_concat, pieces_concat by exact H. apply join0_chars.
Qed.

Lemma slices_nth (stop : nat) (s : string) (i : nat) :
  (i < (stop + n - 1) / n)%nat ->
  nth i (map (fun i => slice i n s) (range0 stop n)) "" = slice (i * n) n s.
Proof.
  intro Hi. unfold range0.
  rewrite map_map.
  rewrite nth_indep with (d' := slice (0 * n) n s)
    by (rewrite length_map, length_seq; exact Hi).
  rewrite (map_nth (fun j => slice (j * n) n s)).
  now rewrite seq_nth by exact Hi.
Qed.

End Chunking.

Lemma split_text_chunks_35 (s : string) :
  _split_text_chunks s 35 =
  Ok (if truthy (normalize_text s)
      then map (fun i => slice i 35 (normalize_text s))
               (range0 (len (normalize_text s)) 35)
      else []).
Proof.
  unfold _split_text_chunks. now destruct (truthy (normalize_text s)).
Qed.

(** C5.  For every string, the chunks of width 35 put together give the
    normalised string back; every chunk but possibly the last is exactly
    35 characters long, no chunk is empty or longer than 35; the empty
    string has no chunks.  The lengths are those of [len]: characters,
    whatever the number of bytes that encode them. *)
Theorem chunks_concat_and_width (s : string) :
  exists chunks : list string,
    _split_text_chunks s 35 = Ok chunks /\
    join0 chunks = normalize_text s /\
    (forall i, (S i < List.length chunks)%nat -> len (nth i chunks "") = 35%nat) /\
    (forall i, (i < List.length chunks)%nat ->
               (1 <= len (nth i chunks "") <= 35)%nat) /\
    _split_text_chunks "" 35 = Ok [].
Proof.
  rewrite split_text_chunks_35.
  set (t := normalize_text s).
  eexists; split; [reflexivity|].
  destruct (truthy t) eqn:Ht.
  - assert (P35 : (0 < 35)%nat) by lia.
    pose proof (range0_count P35 (len t)) as Hc.
    pose proof (range0_count_tight P35 (len t)) as Hd.
    assert (L : List.length (map (fun i => slice i 35 t) (range0 (len t) 35))
                = ((len t + 35 - 1) / 35)%nat)
      by (unfold range0; now rewrite !length_map, length_seq).
    split; [unfold range0; apply slices_join; [lia | exact Hc]|].
    split; [|split; [|reflexivity]]; intros i Hi; rewrite L in Hi;
      rewrite slices_nth by lia; rewrite len_slice; lia.
  - apply truthy_false_iff in Ht. rewrite Ht.
    simpl. repeat split; intros; simpl in *; lia.
Qed.

(** Chunks are cut between characters, not between bytes: of 36 letters
    of two bytes each, the first chunk holds 35, in 70 bytes, and the
    second chunk the last one. *)
Example chunks_of_accented_text :
  _split_text_chunks (accents 36) 35 = Ok [accents 35; accents 1] /\
  len (accents 35) = 35%nat /\ length (accents 35) = 70%nat.
Proof. vm_compute. repeat split. Qed.

(* ================================================================== *)
(** * Digits                                                          *)
(* ================================================================== *)

Section Digits.

Local Open Scope string_scope.

Lemma str_forall_impl (p q : ascii -> bool) (s : string) :
  (forall c, p c = true -> q c = true) ->
  str_forall p s = true -> str_forall q s = true.
Proof.
  intros Hpq. induction s as [|x s IH]; simpl; [reflexivity|].
  rewrite !andb_true_iff. intros [Hx Hs]. auto.
Qed.

Lemma digit_char_is_digit (d : N) : (d < 10)%N -> is_digit (digit_char d) = true.
Proof.
  intro H.
  assert (E : (d = 0 \/ d = 1 \/ d = 2 \/ d = 3 \/ d = 4 \/ d = 5 \/ d = 6
              \/ d = 7 \/ d = 8 \/ d = 9)%N) by lia.
  repeat (destruct E as [E|E]; [subst d; reflexivity|]).
  subst d; reflexivity.
Qed.

Lemma digits_of_are_digits (fuel : nat) : forall n : N,
  str_forall is_digit (digits_of fuel n) = true.
Proof.
  induction fuel as [|fuel IH]; intros n; simpl; [reflexivity|].
  destruct (N.ltb_spec n 10) as [Hlt|Hge]; simpl.
  - now rewrite digit_char_is_digit.
  - rewrite str_forall_app, IH. simpl.
    rewrite digit_char_is_digit; [reflexivity|].
    apply N.mod_lt; lia.
Qed.

Lemma N_to_str_digits (n : N) : str_forall is_digit (N_to_str n) = true.
Proof. apply digits_of_are_digits. Qed.

Lemma digits_of_nonempty (fuel : nat) (n : N) :
  (n < 2 ^ N.of_nat fuel)%N -> (1 <= n)%N -> (1 <= length (digits_of fuel n))%nat.
Proof.
  destruct fuel as [|fuel]; intros Hb Hn.
  - simpl in Hb. lia.
  - simpl. destruct (n <? 10)%N; simpl; [lia|].
    rewrite str_length_app. simpl. lia.
Qed.

Lemma digits_of_length (fuel : nat) : forall (n : N) (k : nat),
  (n < 2 ^ N.of_nat fuel)%N -> (1 <= k)%nat ->
  (length (digits_of fuel n) <= k)%nat <-> (n < 10 ^ N.of_nat k)%N.
Proof.
  induction fuel as [|fuel IH]; intros n k Hb Hk.
  - simpl in *. assert (n = 0%N) by lia. subst n.
    split; intros _; [|lia]. apply N.neq_0_lt_0, N.pow_nonzero. lia.
  - simpl. destruct (N.ltb_spec n 10) as [Hlt|Hge].
    + simpl. split; intros _; [|lia].
      apply N.lt_le_trans with (10 ^ 1)%N; [simpl; lia|].
      apply N.pow_le_mono_r; lia.
    + rewrite str_length_app. simpl.
      assert (Hb' : (n / 10 < 2 ^ N.of_nat fuel)%N).
      { apply N.Div0.div_lt_upper_bound.
        rewrite Nat2N.inj_succ, N.pow_succ_r' in Hb. lia. }
      assert (Hq : (1 <= n / 10)%N).
      { apply N.div_le_lower_bound; lia. }
      pose proof (@digits_of_nonempty fuel _ Hb' Hq) as Hne.
      destruct k as [|[|k]]; [lia| |].
      * split; [lia|]. simpl. lia.
      * specialize (IH (n / 10)%N (S k) Hb' ltac:(lia)).
        replace (N.of_nat (S (S k))) with (N.succ (N.of_nat (S k))) by lia.
        rewrite N.pow_succ_r'.
        split; intro H.
        -- assert (H1 : (n / 10 < 10 ^ N.of_nat (S k))%N) by (apply IH; lia).
           pose proof (N.div_mod n 10 ltac:(lia)).
           pose proof (N.mod_lt n 10 ltac:(lia)). lia.
        -- assert (H1 : (n / 10 < 10 ^ N.of_nat (S k))%N).
           { apply N.Div0.div_lt_upper_bound; lia. }
           apply IH in H1. lia.
Qed.

Lemma log2_fuel (n : N) : (n < 2 ^ N.of_nat (S (N.to_nat (N.log2 n))))%N.
Proof.
  rewrite Nat2N.inj_succ, N2Nat.id.
  destruct n as [|p]; [reflexivity|].
  apply N.log2_spec. lia.
Qed.

Lemma ndigits_le (n : N) (k : Z) :
  (1 <= k)%Z -> (ndigits n <= k)%Z <-> (Z.of_N n < 10 ^ k)%Z.
Proof.
  intro Hk. unfold ndigits, N_to_str.
  pose proof (@digits_of_length _ n (Z.to_nat k) (log2_fuel n) ltac:(lia)) as H.
  assert (E : (10 ^ k)%Z = Z.of_N (10 ^ N.of_nat (Z.to_nat k))).
  { rewrite N2Z.inj_pow. f_equal. lia. }
  rewrite E. split; intro H1.
  - apply N2Z.inj_lt, H. lia.
  - apply N2Z.inj_lt in H1. apply H in H1. lia.
Qed.

Lemma ndigits_pos (n : N) : (1 <= ndigits n)%Z.
Proof.
  unfold ndigits, N_to_str. simpl.
  destruct (n <? 10)%N; simpl; [lia|].
  rewrite str_length_app. simpl. lia.
Qed.

Lemma pad2_digits (n : N) : str_forall is_digit (pad2 n) = true.
Proof.
  unfold pad2. destruct (n <? 10)%N; simpl; apply N_to_str_digits.
Qed.

Lemma pad2_length (n : N) : (n < 100)%N -> length (pad2 n) = 2%nat.
Proof.
  intro H. unfold pad2.
  pose proof (@ndigits_le n 1 ltac:(lia)) as H1.
  pose proof (@ndigits_le n 2 ltac:(lia)) as H2.
  pose proof (ndigits_pos n) as H0.
  unfold ndigits in *.
  destruct (N.ltb_spec n 10) as [Hlt|Hge].
  - rewrite str_length_app. simpl.
    assert (Z.of_nat (length (N_to_str n)) <= 1)%Z by (apply H1; simpl; lia). lia.
  - assert (Z.of_nat (length (N_to_str n)) <= 2)%Z by (apply H2; simpl; lia).
    assert (~ (Z.of_nat (length (N_to_str n)) <= 1)%Z).
    { intro A. apply H1 in A. simpl in A. lia. }
    lia.
Qed.

End Digits.

(* ================================================================== *)
(** * _fmt_amount                                                     *)
(* ================================================================== *)

Section Replace.

Local Open Scope string_scope.

Lemma replace_app (old : ascii) (new a b : string) :
  replace old new (a ++ b) = replace old new a ++ replace old new b.
Proof.
  induction a as [|x a IH]; simpl; [reflexivity|].
  destruct (Ascii.eqb x old); rewrite IH; simpl;
    [now rewrite str_app_assoc | reflexivity].
Qed.

Lemma replace_absent (old : ascii) (new s : string) :
  str_forall (fun c => negb (Ascii.eqb c old)) s = true -> replace old new s = s.
Proof.
  induction s as [|x s IH]; simpl; [reflexivity|].
  rewrite andb_true_iff. intros [Hx Hs].
  apply negb_true_iff in Hx. rewrite Hx. now rewrite IH.
Qed.

Lemma digit_not (c old : ascii) :
  is_digit old = false -> is_digit c = true -> negb (Ascii.eqb c old) = true.
Proof.
  intros Ho Hc. apply negb_true_iff, Ascii.eqb_neq. congruence.
Qed.

Lemma replace_digits (old : ascii) (new s : string) :
  is_digit old = false -> str_forall is_digit s = true -> replace old new s = s.
Proof.
  intros Ho Hs. apply replace_absent.
  revert Hs. apply str_forall_impl. intros c. now apply digit_not.
Qed.

Lemma replace_filter (old : ascii) (s : string) :
  replace old "" s = str_filter (fun c => negb (Ascii.eqb c old)) s.
Proof.
  induction s as [|x s IH]; simpl; [reflexivity|].
  destruct (Ascii.eqb x old); simpl; now rewrite IH.
Qed.

End Replace.

Section Rounding.

Lemma pow10_pos (k : Z) : (0 <= k)%Z -> (0 < pow10 k)%N.
Proof.
  intro H. unfold pow10.
  assert (0 < 10 ^ k)%Z by (apply Z.pow_pos_nonneg; lia). lia.
Qed.

Lemma pow10_Z (k : Z) : (0 <= k)%Z -> Z.of_N (pow10 k) = (10 ^ k)%Z.
Proof.
  intro H. unfold pow10.
  assert (0 < 10 ^ k)%Z by (apply Z.pow_pos_nonneg; lia). lia.
Qed.

(** Rounding to nearest, ties to even: the error is at most half a unit,
    and exactly half a unit only next to an even result. *)
Lemma div_half_even_spec (c m : N) : (0 < m)%N ->
  let q := div_half_even c m in
  let err := Z.abs (Z.of_N c - Z.of_N q * Z.of_N m) in
  (2 * err <= Z.of_N m)%Z /\ ((2 * err = Z.of_N m)%Z -> N.even q = true).
Proof.
  intro Hm. unfold div_half_even.
  pose proof (N.div_mod c m ltac:(lia)) as E.
  pose proof (N.mod_lt c m ltac:(lia)) as B.
  set (q := (c / m)%N) in *. set (r := (c mod m)%N) in *.
  assert (EZ : Z.of_N c = (Z.of_N m * Z.of_N q + Z.of_N r)%Z) by lia.
  rewrite EZ.
  assert (Up : (Z.of_N m * Z.of_N q + Z.of_N r - Z.of_N (q + 1) * Z.of_N m
                = Z.of_N r - Z.of_N m)%Z) by (rewrite N2Z.inj_add; simpl; ring).
  assert (Dn : (Z.of_N m * Z.of_N q + Z.of_N r - Z.of_N q * Z.of_N m
                = Z.of_N r)%Z) by ring.
  destruct (N.ltb_spec m (2 * r)) as [H1|H1]; cbn [orb andb]; cbv zeta.
  - rewrite Up. split; [lia|]. intro A. exfalso. lia.
  - destruct (N.eqb_spec (2 * r) m) as [H2|H2]; cbn [orb andb].
    + destruct (N.odd q) eqn:Ho; cbn [orb andb].
      * rewrite Up. split; [lia|]. intros _.
        rewrite N.add_1_r, N.even_succ. exact Ho.
      * rewrite Dn. split; [lia|]. intros _.
        rewrite <- N.negb_odd, Ho. reflexivity.
    + rewrite Dn. split; [lia|]. intro A. exfalso. lia.
Qed.

Lemma div_half_even_le (c m : N) : (0 < m)%N ->
  (div_half_even c m <= c / m + 1)%N.
Proof.
  intros _. unfold div_half_even.
  destruct ((m <? 2 * (c mod m))%N || ((2 * (c mod m) =? m)%N && N.odd (c / m))); lia.
Qed.

Lemma rescale_spec (c : N) (e : Z) : rounds_half_even_to c e (rescale c e (-2)).
Proof.
  unfold rounds_half_even_to, rescale.
  destruct (Z.leb_spec (-2) e) as [He|He].
  - destruct (N.eqb_spec c 0) as [Hc|Hc]; [subst c; simpl; lia|].
    rewrite N2Z.inj_mul, pow10_Z by lia. reflexivity.
  - destruct (N.eqb_spec c 0) as [Hc|Hc].
    + subst c. simpl.
      assert (0 < 10 ^ (-2 - e))%Z by (apply Z.pow_pos_nonneg; lia).
      split; [lia|]. intros A. lia.
    + pose proof (@div_half_even_spec c (pow10 (-2 - e)) (@pow10_pos (-2 - e) ltac:(lia))) as H.
      cbv zeta in H. rewrite pow10_Z in H by lia. exact H.
Qed.

Lemma rescale_same (a : N) (e : Z) : rescale a e e = a.
Proof.
  unfold rescale. destruct (N.eqb_spec a 0); [congruence|].
  rewrite Z.leb_refl, Z.sub_diag. unfold pow10. simpl. lia.
Qed.

End Rounding.

(* ================================================================== *)
(** * _fmt_amount on finite decimals                                  *)
(* ================================================================== *)

Section FmtAmount.

Local Open Scope string_scope.

Lemma Decimal_fix_cents (s : bool) (a : N) :
  (ndigits a <= prec)%Z -> Decimal_fix (Finite s a (-2)) = Ok (Finite s a (-2)).
Proof.
  intro H. unfold Decimal_fix.
  destruct (N.eqb_spec a 0) as [Ha|Ha]; [subst a; reflexivity|].
  unfold Etop, Etiny, Emax, Emin, prec in *.
  destruct (Z.ltb_spec (999999 - 28 + 1) (ndigits a + -2 - 28)) as [A|A]; [lia|].
  destruct (Z.ltb_spec (-2) (Z.max (ndigits a + -2 - 28) (-999999 - 28 + 1))) as [B|B];
    [lia | reflexivity].
Qed.

Lemma format_2f_cents (s : bool) (a : N) :
  replace "." "," (format_2f (Finite s a (-2))) = sign_str s ++ unsigned_amount a.
Proof.
  unfold format_2f, unsigned_amount. rewrite rescale_same.
  rewrite !replace_app.
  rewrite (@replace_digits "." "," (N_to_str (a / 100))) by
    (reflexivity || apply N_to_str_digits).
  rewrite (@replace_digits "." "," (pad2 (a mod 100))) by
    (reflexivity || apply pad2_digits).
  now destruct s.
Qed.

(** What [_fmt_amount] returns on a finite decimal, when it returns. *)
Lemma fmt_amount_finite (s : bool) (c : N) (e : Z) (out : string) :
  _fmt_amount (Finite s c e) = Ok out ->
  out = sign_str s ++ unsigned_amount (rescale c e (-2)).
Proof.
  unfold _fmt_amount, quantize, Decimal_0_01.
  replace (negb ((Etiny <=? -2)%Z && (-2 <=? Emax)%Z)) with false by reflexivity.
  destruct (N.eqb_spec c 0) as [Hc|Hc].
  - subst c. rewrite Decimal_fix_cents by (vm_compute; discriminate).
    cbn [bind]. rewrite format_2f_cents. intro H; injection H as <-. reflexivity.
  - destruct (Emax <? e + ndigits c - 1)%Z; [discriminate|].
    destruct (prec <? e + ndigits c - 1 - -2 + 1)%Z; [discriminate|].
    destruct (Emax <? -2 + ndigits (rescale c e (-2)) - 1)%Z; [discriminate|].
    destruct (Z.ltb_spec prec (ndigits (rescale c e (-2)))) as [A|A]; [discriminate|].
    rewrite Decimal_fix_cents by exact A.
    cbn [bind]. rewrite format_2f_cents. intro H; injection H as <-. reflexivity.
Qed.

Lemma pow10_split (a b : Z) : (0 <= a)%Z -> (0 <= b)%Z ->
  (10 ^ (a + b) = 10 ^ a * 10 ^ b)%Z.
Proof. intros. now apply Z.pow_add_r. Qed.

Lemma below_pow10_coef (c : N) (e : Z) :
  c <> 0%N -> below_pow10 c e 25 ->
  (e <= 24)%Z /\ (Z.of_N c < 10 ^ (25 - e))%Z.
Proof.
  unfold below_pow10. intros Hc H.
  destruct (Z.le_gt_cases 0 e) as [He|He].
  - rewrite Z.max_l in H by lia. rewrite Z.max_r in H by lia.
    rewrite Z.add_0_r in H.
    assert (P : (0 < 10 ^ e)%Z) by (apply Z.pow_pos_nonneg; lia).
    assert (E24 : (e <= 24)%Z).
    { destruct (Z.le_gt_cases e 24) as [|G]; [assumption|exfalso].
      assert (10 ^ 25 <= 10 ^ e)%Z by (apply Z.pow_le_mono_r; lia).
      nia. }
    split; [exact E24|].
    replace 25%Z with (e + (25 - e))%Z in H at 1 by lia.
    rewrite pow10_split in H by lia.
    nia.
  - rewrite Z.max_r in H by lia. rewrite Z.max_l in H by lia.
    rewrite Z.pow_0_r, Z.mul_1_r in H.
    split; [lia|]. replace (25 - e)%Z with (25 + - e)%Z by lia. exact H.
Qed.

Lemma below_pow10_rescale (c : N) (e : Z) :
  c <> 0%N -> below_pow10 c e 25 -> (Z.of_N (rescale c e (-2)) < 10 ^ 28)%Z.
Proof.
  intros Hc H. destruct (below_pow10_coef Hc H) as [E24 Hlt].
  unfold rescale. destruct (N.eqb_spec c 0) as [|_]; [contradiction|].
  destruct (Z.leb_spec (-2) e) as [He|He].
  - rewrite N2Z.inj_mul, pow10_Z by lia.
    assert (P : (0 < 10 ^ (e - -2))%Z) by (apply Z.pow_pos_nonneg; lia).
    assert (Q : (10 ^ (25 - e) * 10 ^ (e - -2) = 10 ^ 27)%Z).
    { rewrite <- pow10_split by lia. f_equal. lia. }
    assert (Z.of_N c * 10 ^ (e - -2) < 10 ^ 27)%Z.
    { rewrite <- Q. apply Z.mul_lt_mono_pos_r; assumption. }
    assert (10 ^ 27 < 10 ^ 28)%Z by (vm_compute; reflexivity). lia.
  - pose proof (@pow10_pos (-2 - e) ltac:(lia)) as Pm.
    pose proof (@div_half_even_le c (pow10 (-2 - e)) Pm) as Hle.
    assert (Hq : (c / pow10 (-2 - e) < 10 ^ 27)%N).
    { apply N.Div0.div_lt_upper_bound.
      apply N2Z.inj_lt. rewrite N2Z.inj_mul, pow10_Z by lia.
      replace (Z.of_N (10 ^ 27)) with (10 ^ 27)%Z by (vm_compute; reflexivity).
      rewrite <- pow10_split by lia.
      replace (-2 - e + 27)%Z with (25 - e)%Z by lia. exact Hlt. }
    assert (Hr : (div_half_even c (pow10 (-2 - e)) <= 10 ^ 27)%N).
    { eapply N.le_trans; [exact Hle|].
      rewrite N.add_1_r. apply N.le_succ_l. exact Hq. }
    apply N2Z.inj_le in Hr.
    replace (Z.of_N (10 ^ 27)) with (10 ^ 27)%Z in Hr by (vm_compute; reflexivity).
    assert (10 ^ 27 < 10 ^ 28)%Z by (vm_compute; reflexivity).
    eapply Z.le_lt_trans; eassumption.
Qed.

(** [_fmt_amount] returns on every finite decimal below [10^25]. *)
Lemma fmt_amount_total (s : bool) (c : N) (e : Z) :
  below_pow10 c e 25 ->
  _fmt_amount (Finite s c e) = Ok (sign_str s ++ unsigned_amount (rescale c e (-2))).
Proof.
  intro H.
  unfold _fmt_amount, quantize, Decimal_0_01.
  replace (negb ((Etiny <=? -2)%Z && (-2 <=? Emax)%Z)) with false by reflexivity.
  destruct (N.eqb_spec c 0) as [Hc|Hc].
  - subst c. rewrite Decimal_fix_cents by (vm_compute; discriminate).
    cbn [bind]. now rewrite format_2f_cents.
  - destruct (below_pow10_coef Hc H) as [E24 Hlt].
    pose proof (below_pow10_rescale Hc H) as Hr.
    apply ndigits_le in Hlt; [|lia]. apply ndigits_le in Hr; [|lia].
    pose proof (ndigits_pos (rescale c e (-2))) as Hp.
    unfold prec, Emax in *.
    destruct (Z.ltb_spec 999999 (e + ndigits c - 1)); [lia|].
    destruct (Z.ltb_spec 28 (e + ndigits c - 1 - -2 + 1)); [lia|].
    destruct (Z.ltb_spec 999999 (-2 + ndigits (rescale c e (-2)) - 1)); [lia|].
    destruct (Z.ltb_spec 28 (ndigits (rescale c e (-2)))); [lia|].
    rewrite Decimal_fix_cents by (unfold prec; lia).
    cbn [bind]. now rewrite format_2f_cents.
Qed.

Lemma div_half_even_ge (c m : N) : (c / m <= div_half_even c m)%N.
Proof.
  unfold div_half_even.
  destruct ((m <? 2 * (c mod m))%N || ((2 * (c mod m) =? m)%N && N.odd (c / m))); lia.
Qed.

(** A coefficient of [n] digits is at least [10^(n-1)]: a decimal whose
    digits reach the 27th place before the point has [10^28] hundredths
    or more. *)
Lemma rescale_large (c : N) (e : Z) :
  c <> 0%N -> (27 <= ndigits c + e)%Z -> (10 ^ 28 <= Z.of_N (rescale c e (-2)))%Z.
Proof.
  intros Hc Hn. unfold rescale.
  destruct (N.eqb_spec c 0) as [|_]; [contradiction|].
  destruct (Z.le_gt_cases 26 e) as [He|He].
  - destruct (Z.leb_spec (-2) e) as [_|]; [|lia].
    rewrite N2Z.inj_mul, pow10_Z by lia.
    assert (10 ^ 28 <= 10 ^ (e - -2))%Z by (apply Z.pow_le_mono_r; lia).
    assert (1 <= Z.of_N c)%Z by lia.
    assert (0 < 10 ^ 28)%Z by (vm_compute; reflexivity).
    nia.
  - assert (Hk : (10 ^ (26 - e) <= Z.of_N c)%Z).
    { destruct (Z.le_gt_cases (10 ^ (26 - e)) (Z.of_N c)) as [|G]; [assumption|exfalso].
      apply ndigits_le in G; lia. }
    destruct (Z.leb_spec (-2) e) as [He2|He2].
    + rewrite N2Z.inj_mul, pow10_Z by lia.
      assert (Q : (10 ^ (26 - e) * 10 ^ (e - -2) = 10 ^ 28)%Z).
      { rewrite <- pow10_split by lia. f_equal. lia. }
      rewrite <- Q. apply Z.mul_le_mono_nonneg_r; [|exact Hk].
      apply Z.pow_nonneg. lia.
    + pose proof (div_half_even_ge c (pow10 (-2 - e))) as Hge.
      apply N2Z.inj_le in Hge. rewrite N2Z.inj_div, pow10_Z in Hge by lia.
      eapply Z.le_trans; [|exact Hge].
      assert (P : (0 < 10 ^ (-2 - e))%Z) by (apply Z.pow_pos_nonneg; lia).
      apply Z.div_le_lower_bound; [exact P|].
      rewrite <- pow10_split by lia.
      replace (-2 - e + 28)%Z with (26 - e)%Z by lia. exact Hk.
Qed.

Lemma fmt_amount_in_range (s : bool) (c : N) (e : Z) :
  (Z.of_N (rescale c e (-2)) < 10 ^ 28)%Z ->
  _fmt_amount (Finite s c e) = Ok (sign_str s ++ unsigned_amount (rescale c e (-2)))%string.
Proof.
  intro Hr.
  unfold _fmt_amount, quantize, Decimal_0_01.
  replace (negb ((Etiny <=? -2)%Z && (-2 <=? Emax)%Z)) with false by reflexivity.
  destruct (N.eqb_spec c 0) as [Hc|Hc].
  - subst c. rewrite Decimal_fix_cents by (vm_compute; discriminate).
    cbn [bind]. now rewrite format_2f_cents.
  - assert (Hn : (ndigits c + e <= 26)%Z).
    { destruct (Z.le_gt_cases (ndigits c + e) 26) as [|G]; [assumption|exfalso].
      pose proof (@rescale_large c e Hc ltac:(lia)). lia. }
    apply ndigits_le in Hr; [|lia].
    pose proof (ndigits_pos (rescale c e (-2))) as Hp.
    unfold prec, Emax in *.
    destruct (Z.ltb_spec 999999 (e + ndigits c - 1)); [lia|].
    destruct (Z.ltb_spec 28 (e + ndigits c - 1 - -2 + 1)); [lia|].
    destruct (Z.ltb_spec 999999 (-2 + ndigits (rescale c e (-2)) - 1)); [lia|].
    destruct (Z.ltb_spec 28 (ndigits (rescale c e (-2)))); [lia|].
    rewrite Decimal_fix_cents by (unfold prec; lia).
    cbn [bind]. now rewrite format_2f_cents.
Qed.

Lemma fmt_amount_out_of_range (s : bool) (c : N) (e : Z) :
  (10 ^ 28 <= Z.of_N (rescale c e (-2)))%Z ->
  _fmt_amount (Finite s c e) = Raise InvalidOperation.
Proof.
  intro Hr.
  unfold _fmt_amount, quantize, Decimal_0_01.
  replace (negb ((Etiny <=? -2)%Z && (-2 <=? Emax)%Z)) with false by reflexivity.
  destruct (N.eqb_spec c 0) as [Hc|Hc].
  - exfalso. subst c. unfold rescale in Hr. simpl in Hr.
    assert (0 < 10 ^ 28)%Z by (vm_compute; reflexivity). lia.
  - destruct (Emax <? e + ndigits c - 1)%Z; [reflexivity|].
    destruct (prec <? e + ndigits c - 1 - -2 + 1)%Z; [reflexivity|].
    destruct (Emax <? -2 + ndigits (rescale c e (-2)) - 1)%Z; [reflexivity|].
    destruct (Z.ltb_spec prec (ndigits (rescale c e (-2)))) as [A|A]; [reflexivity|].
    exfalso. unfold prec in A. apply ndigits_le in A; lia.
Qed.

End FmtAmount.

(** C3, as the code has it.  A finite decimal below [10^25] is always
    formatted; and whatever finite decimal is formatted, the text is the
    sign ([-] for a negative decimal, even a negative zero), the integer
    part, a comma and exactly two digits, of the value rounded to two
    places to the nearest, a tie going to the even neighbour. *)
Theorem fmt_amount_rounds_half_even (s : bool) (c : N) (e : Z) :
  (below_pow10 c e 25 -> exists out, _fmt_amount (Finite s c e) = Ok out) /\
  (forall out, _fmt_amount (Finite s c e) = Ok out ->
     exists cents : N,
       rounds_half_even_to c e cents /\
       out = (sign_str s ++ N_to_str (cents / 100) ++ ","
                ++ pad2 (cents mod 100))%string /\
       length (pad2 (cents mod 100)) = 2%nat /\
       str_forall is_digit (N_to_str (cents / 100)) = true /\
       str_forall is_digit (pad2 (cents mod 100)) = true).
Proof.
  split.
  - intro H. eexists. apply fmt_amount_total, H.
  - intros out H. exists (rescale c e (-2)).
    split; [apply rescale_spec|].
    split; [apply fmt_amount_finite, H|].
    split; [apply pad2_length, N.mod_lt; lia|].
    split; [apply N_to_str_digits | apply pad2_digits].
Qed.

(** C3 as the specification words it fails: 0.125 lies half way between
    0.12 and 0.13 and is printed as 0,12, not as the 0,13 of rounding
    half up. *)
Lemma fmt_amount_not_half_up :
  _fmt_amount (Finite false 125 (-3)) = Ok "0,12" /\
  _fmt_amount (Finite false 125 (-3)) <> Ok "0,13".
Proof.
  assert (E : _fmt_amount (Finite false 125 (-3)) = Ok "0,12") by reflexivity.
  split; [exact E|]. rewrite E. discriminate.
Qed.

Lemma fmt_amount_rounds_half_even_witness :
  (exists out, _fmt_amount (Finite false 12345 (-1)) = Ok out) /\
  (exists cents : N,
     rounds_half_even_to 12345 (-1) cents /\
     "1234,50" = (sign_str false ++ N_to_str (cents / 100) ++ ","
                    ++ pad2 (cents mod 100))%string /\
     length (pad2 (cents mod 100)) = 2%nat /\
     str_forall is_digit (N_to_str (cents / 100)) = true /\
     str_forall is_digit (pad2 (cents mod 100)) = true).
Proof.
  destruct (fmt_amount_rounds_half_even false 12345 (-1)) as [T P].
  split.
  - apply T. unfold below_pow10. simpl. lia.
  - apply P. reflexivity.
Defined.

(* ================================================================== *)
(** * The shape of a transaction block and of the statement           *)
(* ================================================================== *)

(** A bind that returned: its first computation returned. *)
Ltac inv_bind H :=
  match type of H with
  | bind ?r _ = Ok _ =>
      let x := fresh "x" in
      let E := fresh "E" in
      destruct r as [x|] eqn:E; [cbn [bind] in H | discriminate H]
  end.

Lemma bind_Ok_inv {A B : Type} (r : result A) (k : A -> result B) (b : B) :
  bind r k = Ok b -> exists a, r = Ok a /\ k a = Ok b.
Proof. destruct r as [a|]; simpl; [eauto | discriminate]. Qed.

Lemma description_lines_app (lines chunks : list string) :
  description_lines lines chunks = lines ++ description_lines [] chunks.
Proof.
  destruct chunks as [|c1 [|c2 [|c3 r]]]; simpl;
    rewrite ?app_nil_r, <- ?app_assoc; reflexivity.
Qed.

(** [tx_body] decomposed: the date, the sign, the absolute amount and
    the chunks it computes, and the lines it appends. *)
Lemma tx_body_inv (currency : string) (first_row tx : dict) (lines out : list string) :
  tx_body currency first_row tx lines = Ok out ->
  exists date dt negative amount_abs amount_str desc_chunks,
    tx_date first_row tx = Ok date /\
    strptime date = Ok dt /\
    lt0 (tx_amount tx) = Ok negative /\
    Decimal_abs (tx_amount tx) = Ok amount_abs /\
    _fmt_amount amount_abs = Ok amount_str /\
    _split_text_chunks (tx_description tx) 35 = Ok desc_chunks /\
    out = lines ++
          (":61:" ++ strftime_ymd dt ++ strftime_md dt
             ++ (if negative then "D" else "C") ++ amount_str
             ++ "N" ++ tx_code_num tx ++ "NONREF//" ++ tx_id tx)%string
          :: (tx_code_num tx ++ " 0")%string
          :: (":86:020~00" ++ tx_code_num tx)%string
          :: tx_sub_lines currency tx desc_chunks.
Proof.
  unfold tx_body. intro H.
  fold (tx_date first_row tx) in H. fold (tx_amount tx) in H.
  fold (tx_description tx) in H. fold (tx_ben_iban tx) in H.
  fold (tx_reference tx) in H. fold (tx_code_num tx) in H. fold (tx_id tx) in H.
  fold (currency_symbol currency) in H.
  inv_bind H. rename x into date.
  unfold fmt_yyMMdd, fmt_MMDD in H.
  destruct (strptime date) as [dt|] eqn:Edt; [cbn [bind] in H | discriminate H].
  inv_bind H. rename x into negative.
  inv_bind H. rename x into amount_abs.
  inv_bind H. rename x into amount_str.
  inv_bind H. rename x into desc_chunks.
  injection H as <-.
  exists date, dt, negative, amount_abs, amount_str, desc_chunks.
  repeat (split; [assumption || reflexivity|]).
  unfold tx_sub_lines.
  rewrite description_lines_app.
  destruct (truthy (tx_reference tx)), (truthy (tx_ben_iban tx));
    repeat (rewrite <- app_assoc; simpl); reflexivity.
Qed.

(** [tx_body] only appends: its lines are those of [tx_block] after the
    lines it was given. *)
Lemma tx_body_appends (currency : string) (first_row tx : dict) (lines : list string) :
  tx_body currency first_row tx lines =
  block <- tx_block currency first_row tx ;; Ok (lines ++ block).
Proof.
  unfold tx_block, tx_body.
  repeat match goal with
  | |- bind ?r _ = bind (bind ?r _) _ => destruct r; cbn [bind]; [|reflexivity]
  end.
  f_equal.
  destruct (truthy (strip (or_str (dict_get tx "Reference") ""))),
           (truthy (strip (or_str (dict_get tx "Beneficiary IBAN") "")));
    rewrite !(description_lines_app (_ ++ _));
    repeat (rewrite <- app_assoc; simpl); reflexivity.
Qed.

Lemma for_each_blocks (currency : string) (first_row : dict) (txs : list dict) :
  forall lines out : list string,
  for_each txs (tx_body currency first_row) lines = Ok out ->
  exists blocks : list (list string),
    Forall2 (fun tx block => tx_block currency first_row tx = Ok block) txs blocks /\
    out = lines ++ List.concat blocks.
Proof.
  induction txs as [|tx txs IH]; intros lines out H; simpl in H.
  - injection H as <-. exists []. split; [constructor | now rewrite app_nil_r].
  - rewrite tx_body_appends in H.
    destruct (tx_block currency first_row tx) as [block|] eqn:Eb; [|discriminate H].
    cbn [bind] in H. destruct (IH _ _ H) as (blocks & HF & ->).
    exists (block :: blocks). split; [now constructor|].
    simpl. now rewrite app_assoc.
Qed.

Lemma for_each_blocks_conv (currency : string) (first_row : dict) (txs : list dict) :
  forall (lines : list string) (blocks : list (list string)),
  Forall2 (fun tx block => tx_block currency first_row tx = Ok block) txs blocks ->
  for_each txs (tx_body currency first_row) lines = Ok (lines ++ List.concat blocks).
Proof.
  induction txs as [|tx txs IH]; intros lines blocks HF; inversion HF; subst; simpl.
  - now rewrite app_nil_r.
  - rewrite tx_body_appends. rewrite H1. cbn [bind].
    rewrite (IH _ _ H3). now rewrite app_assoc.
Qed.

(* ================================================================== *)
(** * The statement as a whole                                        *)
(* ================================================================== *)

Lemma app3_assoc {A : Type} (h c : list A) (x y z : A) :
  (((h ++ c) ++ [x]) ++ [y]) ++ [z] = h ++ c ++ [x; y; z].
Proof. rewrite <- !app_assoc. reflexivity. Qed.

Ltac inv_bind_as H x E :=
  match type of H with
  | bind ?r _ = Ok _ => destruct r as [x|] eqn:E; [cbn [bind] in H | discriminate H]
  end.

(** [mt940_lines] decomposed: the dates and balances it reads, from which
    rows, and the list it returns. *)
Lemma mt940_lines_inv (rows : list dict) (iban : string) (lines : list string) :
  mt940_lines rows iban = Ok lines ->
  exists rows_0 rest date_first dt_first date_last dt_last opening_str closing_str blocks,
    rows = rows_0 :: rest /\
    dict_getitem (last rows rows_0) DATE_COMPLETED = Ok date_first /\
    strptime date_first = Ok dt_first /\
    dict_getitem rows_0 DATE_COMPLETED = Ok date_last /\
    strptime date_last = Ok dt_last /\
    _fmt_amount (parse_decimal (dict_get_default (last rows rows_0) "Balance" "0"))
      = Ok opening_str /\
    _fmt_amount (parse_decimal (dict_get_default rows_0 "Balance" "0"))
      = Ok closing_str /\
    Forall2 (fun tx block =>
               tx_block (statement_currency rows_0 (last rows rows_0))
                        (last rows rows_0) tx = Ok block)
            (rev rows) blocks /\
    lines =
      [":20:MT940";
       (":25:/" ++ replace " " "" iban)%string;
       ":28C:1";
       (":60F:C" ++ strftime_ymd dt_first
          ++ statement_currency rows_0 (last rows rows_0) ++ opening_str)%string]
      ++ List.concat blocks
      ++ [(":62F:C" ++ strftime_ymd dt_last
             ++ statement_currency rows_0 (last rows rows_0) ++ closing_str)%string;
          (":64:C" ++ strftime_ymd
                        (mkdatetime (year dt_first) (month dt_first)
                                    (days_in_month (year dt_first) (month dt_first)))
             ++ statement_currency rows_0 (last rows rows_0) ++ closing_str)%string;
          "-"].
Proof.
  destruct rows as [|rows_0 rest]; [discriminate|].
  unfold mt940_lines. set (rows := rows_0 :: rest).
  set (cur := statement_currency rows_0 (last rows rows_0)).
  intro H.
  inv_bind_as H date_first Hd1.
  unfold fmt_yyMMdd in H.
  destruct (strptime date_first) as [dt_first|] eqn:E1; [cbn [bind] in H | discriminate H].
  inv_bind_as H date_last Hd2.
  destruct (strptime date_last) as [dt_last|] eqn:E2; [cbn [bind] in H | discriminate H].
  inv_bind_as H opening_str Ho.
  inv_bind_as H body Hb.
  inv_bind_as H closing_str Hc.
  injection H as <-.
  apply for_each_blocks in Hb. destruct Hb as (blocks & HF & ->).
  exists rows_0, rest, date_first, dt_first, date_last, dt_last,
         opening_str, closing_str, blocks.
  repeat (split; [assumption || reflexivity|]).
  apply app3_assoc.
Qed.

Section Tags.

Local Open Scope string_scope.

Lemma description_lines_tags (chunks : list string) :
  Forall (fun l => exists x, l = "~32" ++ x \/ l = "~33" ++ x \/ l = "~38" ++ x)
         (description_lines [] chunks).
Proof.
  destruct chunks as [|c1 [|c2 [|c3 r]]]; simpl;
    repeat (constructor; [eexists; eauto|]); constructor.
Qed.

Lemma tx_sub_lines_tilde (currency : string) (tx : dict) (chunks : list string) :
  Forall (fun l => exists x, l = String "~" x) (tx_sub_lines currency tx chunks).
Proof.
  unfold tx_sub_lines.
  apply Forall_app; split; [|apply Forall_app; split; [|apply Forall_app; split]].
  - destruct (truthy (tx_reference tx)); repeat constructor. eexists; reflexivity.
  - eapply Forall_impl; [|apply description_lines_tags].
    intros l [x [-> | [-> | ->]]]; eexists; reflexivity.
  - destruct (truthy (tx_ben_iban tx)); repeat constructor. eexists; reflexivity.
  - repeat constructor; eexists; reflexivity.
Qed.

Lemma tx_code_num_cases (tx : dict) : tx_code_num tx = "49" \/ tx_code_num tx = "119".
Proof. unfold tx_code_num. destruct (str_in _ _); auto. Qed.

(** A block holds exactly one line of tag 61, its first. *)
Lemma tx_block_one_61 (currency : string) (first_row tx : dict) (block : list string) :
  tx_block currency first_row tx = Ok block ->
  filter (startswith ":61:") block = firstn 1 block /\ List.length (firstn 1 block) = 1%nat.
Proof.
  intro H. apply tx_body_inv in H.
  destruct H as (date & dt & neg & aa & astr & chunks & _ & _ & _ & _ & _ & _ & ->).
  cbn [app firstn List.length]. split; [|reflexivity].
  assert (C : startswith ":61:" (tx_code_num tx ++ " 0") = false).
  { destruct (tx_code_num_cases tx) as [-> | ->]; reflexivity. }
  cbn [filter]. rewrite C.
  change (startswith ":61:" (":61:" ++ ?x)) with true.
  change (startswith ":61:" (":86:020~00" ++ ?x)) with false.
  cbv iota. f_equal.
  pose proof (tx_sub_lines_tilde currency tx chunks) as F.
  induction F as [|l ls [x ->] _ IH]; [reflexivity|].
  simpl. exact IH.
Qed.

End Tags.

Lemma filter_concat_61 (blocks : list (list string)) :
  Forall (fun b => filter (startswith ":61:") b = firstn 1 b
                   /\ List.length (firstn 1 b) = 1%nat) blocks ->
  List.length (filter (startswith ":61:") (List.concat blocks)) = List.length blocks.
Proof.
  induction 1 as [|b bs [Hb Hl] _ IH]; [reflexivity|].
  cbn [List.concat List.length]. rewrite filter_app, length_app, Hb, Hl, IH. reflexivity.
Qed.

Lemma Forall2_Forall_r {A B : Type} (R : A -> B -> Prop) (P : B -> Prop)
  (l : list A) (l' : list B) :
  (forall a b, R a b -> P b) -> Forall2 R l l' -> Forall P l'.
Proof. intros HRP. induction 1; constructor; eauto. Qed.

(** C1.  The statement that is produced opens with the date and balance
    of the last row and closes with those of the first row; between the
    four header lines and the three footer lines it holds one block per
    row, the blocks in the reverse of the rows' order, each block
    beginning with its line of tag 61 and holding no other. *)
Theorem opening_closing_and_block_order (rows : list dict) (iban : string)
  (lines : list string) :
  rows <> [] ->
  mt940_lines rows iban = Ok lines ->
  exists (first_record : dict) (opening_date opening_balance : string)
         (closing_date closing_balance available_date : string)
         (blocks : list (list string)),
    hd_error rows = Some first_record /\
    let last_record := last rows first_record in
    let currency := statement_currency first_record last_record in
    (exists d, dict_getitem last_record DATE_COMPLETED = Ok d
               /\ fmt_yyMMdd d = Ok opening_date) /\
    _fmt_amount (parse_decimal (dict_get_default last_record "Balance" "0"))
      = Ok opening_balance /\
    (exists d, dict_getitem first_record DATE_COMPLETED = Ok d
               /\ fmt_yyMMdd d = Ok closing_date) /\
    _fmt_amount (parse_decimal (dict_get_default first_record "Balance" "0"))
      = Ok closing_balance /\
    Forall2 (fun tx block => tx_block currency last_record tx = Ok block)
            (rev rows) blocks /\
    List.length blocks = List.length rows /\
    lines =
      [":20:MT940"; (":25:/" ++ replace " " "" iban)%string; ":28C:1";
       (":60F:C" ++ opening_date ++ currency ++ opening_balance)%string]
      ++ List.concat blocks
      ++ [(":62F:C" ++ closing_date ++ currency ++ closing_balance)%string;
          (":64:C" ++ available_date ++ currency ++ closing_balance)%string;
          "-"] /\
    List.length (filter (startswith ":61:") lines) = List.length rows.
Proof.
  intros _ H. apply mt940_lines_inv in H.
  destruct H as (rows_0 & rest & d1 & dt1 & d2 & dt2 & ostr & cstr & blocks
                 & -> & Hd1 & Hs1 & Hd2 & Hs2 & Ho & Hc & HF & ->).
  exists rows_0, (strftime_ymd dt1), ostr, (strftime_ymd dt2), cstr,
         (strftime_ymd (mkdatetime (year dt1) (month dt1)
                                   (days_in_month (year dt1) (month dt1)))),
         blocks.
  assert (HL : List.length blocks = List.length (rows_0 :: rest)).
  { apply Forall2_length in HF. now rewrite length_rev in HF. }
  split; [reflexivity|]. cbv zeta.
  split; [exists d1; split; [exact Hd1 | unfold fmt_yyMMdd; now rewrite Hs1]|].
  split; [exact Ho|].
  split; [exists d2; split; [exact Hd2 | unfold fmt_yyMMdd; now rewrite Hs2]|].
  split; [exact Hc|].
  split; [exact HF|].
  split; [exact HL|].
  split; [reflexivity|].
  rewrite !filter_app. cbn [filter startswith append Ascii.eqb andb Bool.eqb].
  rewrite !length_app. cbn [List.length]. rewrite Nat.add_0_r.
  rewrite filter_concat_61; [exact HL|].
  eapply Forall2_Forall_r; [|exact HF].
  intros tx b Hb. simpl in Hb. eapply tx_block_one_61. exact Hb.
Qed.

(* ================================================================== *)
(** * The joined text, the account line, the currency                 *)
(* ================================================================== *)

Section JoinedText.

Local Open Scope string_scope.

Lemma join_snoc (sep : string) (l : list string) (x : string) :
  l <> [] -> join sep (l ++ [x]) = join sep l ++ sep ++ x.
Proof.
  unfold join. induction l as [|a l IH]; intro Hne; [congruence|].
  destruct l as [|b l]; [reflexivity|].
  change (String.concat sep ((a :: b :: l) ++ [x])%list)
    with (a ++ sep ++ String.concat sep ((b :: l) ++ [x])%list).
  rewrite IH by discriminate.
  change (String.concat sep (a :: b :: l)) with (a ++ sep ++ String.concat sep (b :: l)).
  now rewrite !str_app_assoc.
Qed.

Lemma drop_app_length (a b : string) : drop (length a) (a ++ b) = b.
Proof. induction a as [|c a IH]; simpl; [now destruct b | exact IH]. Qed.

Lemma endswith_app (suffix a : string) : endswith suffix (a ++ suffix) = true.
Proof.
  unfold endswith. rewrite str_length_app.
  replace (length a + length suffix - length suffix)%nat with (length a) by lia.
  rewrite drop_app_length, String.eqb_refl, andb_true_r.
  apply Nat.leb_le. lia.
Qed.

Lemma endswith_other_char (c d : ascii) (a : string) :
  c <> d -> endswith (String c "") (a ++ String d "") = false.
Proof.
  intro Hcd. unfold endswith. rewrite str_length_app. simpl length.
  replace (length a + 1 - 1)%nat with (length a) by lia.
  rewrite drop_app_length.
  apply andb_false_iff. right. apply String.eqb_neq. congruence.
Qed.

End JoinedText.

(** C7, as the code has it.  The text returned is the lines joined by
    newlines; its last line is the marker [-], and the text ends with the
    marker itself: no newline follows it. *)
Theorem statement_ends_with_marker (csv_content iban out : string) :
  revolut_to_mt940 csv_content iban = Ok out ->
  exists lines : list string,
    lines <> [] /\
    out = join NL (lines ++ ["-"]) /\
    out = (join NL lines ++ NL ++ "-")%string /\
    endswith "-" out = true /\
    endswith NL out = false.
Proof.
  unfold revolut_to_mt940. intro H.
  inv_bind_as H table Ht. inv_bind_as H lines Hl. injection H as <-.
  apply mt940_lines_inv in Hl.
  destruct Hl as (rows_0 & rest & d1 & dt1 & d2 & dt2 & ostr & cstr & blocks
                  & _ & _ & _ & _ & _ & _ & _ & _ & ->).
  match goal with
  | |- context [?h ++ List.concat blocks ++ [?a; ?b; "-"]] =>
      exists (h ++ List.concat blocks ++ [a; b]);
      replace (h ++ List.concat blocks ++ [a; b; "-"])
        with ((h ++ List.concat blocks ++ [a; b]) ++ ["-"])
        by (rewrite <- !app_assoc; reflexivity)
  end.
  split; [discriminate|].
  split; [reflexivity|].
  rewrite join_snoc by discriminate.
  split; [reflexivity|].
  split.
  - rewrite <- str_app_assoc. apply endswith_app.
  - rewrite <- str_app_assoc. apply endswith_other_char. discriminate.
Qed.

(** C7 as the specification words it fails: the text of the sample
    statement ends with the marker, no newline after it. *)
Lemma statement_has_no_final_newline :
  exists out : string,
    revolut_to_mt940 sample_csv sample_iban = Ok out /\
    endswith ("-" ++ NL)%string out = false /\
    endswith NL out = false.
Proof.
  eexists. split; [vm_compute; reflexivity|].
  split; vm_compute; reflexivity.
Qed.

Lemma statement_ends_with_marker_witness :
  revolut_to_mt940 sample_csv sample_iban = Ok (join NL sample_lines) /\
  exists lines : list string,
    lines <> [] /\
    join NL sample_lines = join NL (lines ++ ["-"]) /\
    join NL sample_lines = (join NL lines ++ NL ++ "-")%string /\
    endswith "-" (join NL sample_lines) = true /\
    endswith NL (join NL sample_lines) = false.
Proof.
  assert (H : revolut_to_mt940 sample_csv sample_iban = Ok (join NL sample_lines))
    by (vm_compute; reflexivity).
  split; [exact H|].
  exact (statement_ends_with_marker sample_csv sample_iban H).
Defined.

(** C9, as the code has it.  The account line is [:25:/] and the
    identifier without its space characters (U+0020); every other
    character, other white space included, stays, in its place. *)
Theorem account_line_drops_spaces (rows : list dict) (iban : string)
  (lines : list string) :
  mt940_lines rows iban = Ok lines ->
  nth 1 lines "" =
  (":25:/" ++ str_filter (fun c => negb (Ascii.eqb c " ")) iban)%string.
Proof.
  intro H. apply mt940_lines_inv in H.
  destruct H as (rows_0 & rest & d1 & dt1 & d2 & dt2 & ostr & cstr & blocks
                 & _ & _ & _ & _ & _ & _ & _ & _ & ->).
  cbn [nth app]. now rewrite replace_filter.
Qed.

(** C9 as the specification words it fails: a tabulation inside the
    identifier is white space and is kept. *)
Lemma account_line_keeps_tab :
  exists lines : list string,
    mt940_lines sample_rows tab_iban = Ok lines /\
    nth 1 lines "" = (":25:/DE12" ++ String TAB "345678")%string /\
    nth 1 lines "" <> (":25:/" ++ remove_whitespace tab_iban)%string.
Proof.
  eexists. split; [vm_compute; reflexivity|].
  split; [reflexivity|]. vm_compute. discriminate.
Qed.

Lemma account_line_drops_spaces_witness :
  mt940_lines sample_rows tab_iban
    = Ok ([":20:MT940"; (":25:/DE12" ++ String TAB "345678")%string]
            ++ skipn 2 sample_lines) /\
  nth 1 ([":20:MT940"; (":25:/DE12" ++ String TAB "345678")%string]
           ++ skipn 2 sample_lines) "" =
  (":25:/" ++ str_filter (fun c => negb (Ascii.eqb c " ")) tab_iban)%string.
Proof.
  assert (H : mt940_lines sample_rows tab_iban
              = Ok ([":20:MT940"; (":25:/DE12" ++ String TAB "345678")%string]
                      ++ skipn 2 sample_lines))
    by (vm_compute; reflexivity).
  split; [exact H|].
  exact (account_line_drops_spaces sample_rows tab_iban H).
Defined.

(* ================================================================== *)
(** * The currency of the statement, and its dates                    *)
(* ================================================================== *)

Section Currency.

Local Open Scope string_scope.

Lemma statement_currency_chosen (first_record last_record : dict) :
  statement_currency first_record last_record =
  upper (strip (chosen_currency_field first_record last_record)).
Proof.
  unfold statement_currency, chosen_currency_field, py_or, or_str, truthy_opt.
  destruct (dict_get first_record "Payment currency") as [[|c s]|];
    destruct (dict_get last_record "Payment currency") as [[|c' s']|]; reflexivity.
Qed.

Lemma upper_char_letter (c : ascii) : is_letter c = true -> is_upper (upper_char c) = true.
Proof.
  unfold is_letter, upper_char. destruct (is_lower c) eqn:L; simpl; [intros _|auto].
  unfold is_lower in L. unfold is_upper.
  apply andb_true_iff in L. destruct L as [L1 L2].
  apply Nat.leb_le in L1, L2.
  rewrite nat_ascii_embedding by lia.
  apply andb_true_iff; split; apply Nat.leb_le; lia.
Qed.

Lemma upper_length (s : string) : length (upper s) = length s.
Proof. induction s as [|c s IH]; simpl; [reflexivity | now rewrite IH]. Qed.

Lemma upper_letters (s : string) :
  str_forall is_letter s = true -> str_forall is_upper (upper s) = true.
Proof.
  induction s as [|c s IH]; simpl; [reflexivity|].
  rewrite !andb_true_iff. intros [Hc Hs]. split; [now apply upper_char_letter | auto].
Qed.

End Currency.

Lemma app_assoc4 {A : Type} (a b c d : list A) :
  a ++ b ++ c ++ d = (a ++ b ++ c) ++ d.
Proof. now rewrite !app_assoc. Qed.

Lemma tx_block_ends_with_symbol (currency : string) (first_row tx : dict)
  (block : list string) :
  tx_block currency first_row tx = Ok block ->
  exists pre : list string,
    block = pre ++ [("~60" ++ currency_symbol currency)%string;
                    ("~63" ++ currency_symbol currency)%string].
Proof.
  intro H. apply tx_body_inv in H.
  destruct H as (date & dt & neg & aa & astr & chunks & _ & _ & _ & _ & _ & _ & ->).
  unfold tx_sub_lines. rewrite app_assoc4. cbn [app].
  eexists (_ :: _ :: _ :: _). reflexivity.
Qed.

(** ** The dates that [strptime] returns *)

Lemma first_match_In {A B : Type} (k : A -> option B) (alts : list A) (b : B) :
  first_match k alts = Some b -> exists a, In a alts /\ k a = Some b.
Proof.
  induction alts as [|a alts IH]; simpl; [discriminate|].
  destruct (k a) as [b'|] eqn:E.
  - intro H; injection H as <-. exists a; auto.
  - intro H. destruct (IH H) as (a' & Hin & Hk). exists a'; auto.
Qed.

Lemma digit_val_in (lo hi c : ascii) :
  char_in lo hi c = true ->
  (N.of_nat (nat_of_ascii lo - 48) <= digit_val c <= N.of_nat (nat_of_ascii hi - 48))%N.
Proof.
  unfold char_in, digit_val. rewrite andb_true_iff, !Nat.leb_le. lia.
Qed.

Lemma two_chars_In (p1 p2 : ascii -> bool) (s : string) (v : N) (r : string) :
  In (v, r) (two_chars p1 p2 s) ->
  exists a b, p1 a = true /\ p2 b = true /\ v = (10 * digit_val a + digit_val b)%N.
Proof.
  unfold two_chars. destruct s as [|a [|b s]]; simpl; try tauto.
  destruct (p1 a) eqn:E1, (p2 b) eqn:E2; simpl; try tauto.
  intros [H|[]]. injection H as <- _. eauto.
Qed.

Lemma one_char_In (p : ascii -> bool) (s : string) (v : N) (r : string) :
  In (v, r) (one_char p s) -> exists a, p a = true /\ v = digit_val a.
Proof.
  unfold one_char. destruct s as [|a s]; simpl; try tauto.
  destruct (p a) eqn:E1; simpl; try tauto.
  intros [H|[]]. injection H as <- _. eauto.
Qed.

Lemma re_m_bound (s : string) (m : N) (r : string) :
  In (m, r) (re_m s) -> (1 <= m <= 12)%N.
Proof.
  unfold re_m. rewrite !in_app_iff. intros [H|[H|H]].
  - apply two_chars_In in H. destruct H as (a & b & Ha & Hb & ->).
    apply Ascii.eqb_eq in Ha. subst a.
    apply digit_val_in in Hb. simpl in Hb. change (digit_val "1") with 1%N. lia.
  - apply two_chars_In in H. destruct H as (a & b & Ha & Hb & ->).
    apply Ascii.eqb_eq in Ha. subst a.
    apply digit_val_in in Hb. simpl in Hb. change (digit_val "0") with 0%N. lia.
  - apply one_char_In in H. destruct H as (a & Ha & ->).
    apply digit_val_in in Ha. simpl in Ha. lia.
Qed.

Lemma days_in_month_bound (y m : N) : (28 <= days_in_month y m <= 31)%N.
Proof.
  unfold days_in_month.
  destruct m as [|[[[[]|[]|]|[[]|[]|]|]|[[[]|[]|]|[[]|[]|]|]|]]; try lia;
    destruct (isleap y); lia.
Qed.

(** A date that [strptime] returns is a date of the calendar. *)
Lemma strptime_calendar (date_str : option string) (dt : datetime) :
  strptime date_str = Ok dt ->
  (1 <= year dt)%N /\ (1 <= month dt <= 12)%N /\
  (day dt <= days_in_month (year dt) (month dt))%N.
Proof.
  unfold strptime. destruct date_str as [s|]; [|discriminate].
  destruct (match_Ymd s) as [[[[y m] d] rest]|] eqn:E; [|discriminate].
  destruct (truthy rest); [discriminate|].
  destruct (N.eqb_spec y 0) as [|Hy]; [discriminate|]. cbn [orb].
  destruct (N.ltb_spec (days_in_month y m) d) as [|Hd]; [discriminate|].
  intro H; injection H as <-. cbn [year month day].
  split; [lia|]. split; [|exact Hd].
  unfold match_Ymd in E.
  destruct s as [|y1 [|y2 [|y3 [|y4 [|c r]]]]]; try discriminate.
  destruct (is_digit y1 && is_digit y2 && is_digit y3 && is_digit y4 && Ascii.eqb c "-");
    [|discriminate].
  apply first_match_In in E. destruct E as ([m' r1] & Hin & Hk).
  destruct r1 as [|c' r2]; [discriminate|].
  destruct (Ascii.eqb c' "-"); [|discriminate].
  apply first_match_In in Hk. destruct Hk as ([d' r3] & _ & Hk).
  injection Hk as _ <- _ _.
  eapply re_m_bound; eassumption.
Qed.

Lemma strftime_ymd_length (dt : datetime) :
  (month dt <= 12)%N -> (day dt <= 31)%N -> length (strftime_ymd dt) = 6%nat.
Proof.
  intros Hm Hd. unfold strftime_ymd.
  rewrite !str_length_app, !pad2_length; try lia.
  apply N.mod_lt. lia.
Qed.

Lemma strftime_md_length (dt : datetime) :
  (month dt <= 12)%N -> (day dt <= 31)%N -> length (strftime_md dt) = 4%nat.
Proof.
  intros Hm Hd. unfold strftime_md.
  rewrite !str_length_app, !pad2_length; try lia.
Qed.

Lemma strptime_ymd_length (date_str : option string) (dt : datetime) :
  strptime date_str = Ok dt ->
  length (strftime_ymd dt) = 6%nat /\ length (strftime_md dt) = 4%nat.
Proof.
  intro H. apply strptime_calendar in H. destruct H as (_ & Hm & Hd).
  pose proof (days_in_month_bound (year dt) (month dt)).
  split; [apply strftime_ymd_length | apply strftime_md_length]; lia.
Qed.

Lemma upper_letters_inv (s : string) :
  str_forall is_upper (upper s) = true -> str_forall is_letter s = true.
Proof.
  induction s as [|c s IH]; [reflexivity|]. cbn [upper str_forall].
  rewrite !andb_true_iff. intros [Hc Hs]. split; [|exact (IH Hs)].
  unfold upper_char in Hc. unfold is_letter.
  destruct (is_lower c); [reflexivity | exact Hc].
Qed.

(** C8, as the code has it.  The currency of the statement is the chosen
    field (the first record's currency if not empty, else the last
    record's, else EUR) trimmed and put in upper case, whatever its length
    and characters; it stands after the date in the three balance lines,
    and each block ends with the two lines of its symbol.  It is a code
    of three upper-case letters when the trimmed field is three letters;
    for a trimmed field of ASCII characters it is such a code only then;
    and it is EUR when both records leave the field empty. *)
Theorem currency_is_chosen_field_upper (rows : list dict) (iban : string)
  (lines : list string) :
  mt940_lines rows iban = Ok lines ->
  exists (first_record : dict)
         (opening_date opening_balance closing_date closing_balance : string)
         (available_date : string) (blocks : list (list string)),
    hd_error rows = Some first_record /\
    let last_record := last rows first_record in
    let field := chosen_currency_field first_record last_record in
    let currency := upper (strip field) in
    lines =
      [":20:MT940"; (":25:/" ++ replace " " "" iban)%string; ":28C:1";
       (":60F:C" ++ opening_date ++ currency ++ opening_balance)%string]
      ++ List.concat blocks
      ++ [(":62F:C" ++ closing_date ++ currency ++ closing_balance)%string;
          (":64:C" ++ available_date ++ currency ++ closing_balance)%string;
          "-"] /\
    length opening_date = 6%nat /\ length closing_date = 6%nat /\
    length available_date = 6%nat /\
    Forall (fun block => exists pre : list string,
              block = pre ++ [("~60" ++ currency_symbol currency)%string;
                              ("~63" ++ currency_symbol currency)%string]) blocks /\
    (length (strip field) = 3%nat -> str_forall is_letter (strip field) = true ->
     is_currency_code currency = true) /\
    (str_forall is_ascii7 (strip field) = true ->
     is_currency_code currency = true ->
     length (strip field) = 3%nat /\ str_forall is_letter (strip field) = true) /\
    (truthy_opt (dict_get first_record "Payment currency") = false ->
     truthy_opt (dict_get last_record "Payment currency") = false ->
     currency = "EUR").
Proof.
  intro H. apply mt940_lines_inv in H.
  destruct H as (rows_0 & rest & d1 & dt1 & d2 & dt2 & ostr & cstr & blocks
                 & -> & Hd1 & Hs1 & Hd2 & Hs2 & Ho & Hc & HF & ->).
  exists rows_0, (strftime_ymd dt1), ostr, (strftime_ymd dt2), cstr,
         (strftime_ymd (mkdatetime (year dt1) (month dt1)
                                   (days_in_month (year dt1) (month dt1)))),
         blocks.
  split; [reflexivity|]. cbv zeta.
  rewrite statement_currency_chosen in *.
  split; [reflexivity|].
  split; [apply (@strptime_ymd_length _ _ Hs1)|].
  split; [apply (@strptime_ymd_length _ _ Hs2)|].
  split.
  { apply strptime_calendar in Hs1. destruct Hs1 as (_ & Hm & _).
    pose proof (days_in_month_bound (year dt1) (month dt1)).
    apply strftime_ymd_length; cbn [month day]; lia. }
  split.
  { eapply Forall2_Forall_r; [|exact HF].
    intros tx b Hb. simpl in Hb. eapply tx_block_ends_with_symbol. exact Hb. }
  split.
  - intros HL Hletters. unfold is_currency_code.
    rewrite upper_length, HL, upper_letters by exact Hletters. reflexivity.
  - split.
    + intros _ Hcode. unfold is_currency_code in Hcode.
      apply andb_true_iff in Hcode. destruct Hcode as [HL Hu].
      rewrite upper_length in HL. apply Nat.eqb_eq in HL.
      split; [exact HL | now apply upper_letters_inv].
    + unfold chosen_currency_field, truthy_opt.
      destruct (dict_get rows_0 "Payment currency") as [[|c s]|];
        destruct (dict_get (last (rows_0 :: rest) rows_0) "Payment currency")
          as [[|c' s']|];
        try discriminate; reflexivity.
Qed.

(** C8 as the specification words it fails: a row whose currency field
    is [usdt] gives a statement in the currency USDT, four letters. *)
Lemma currency_of_four_letters :
  exists (first_record : dict) (lines : list string),
    hd_error usdt_rows = Some first_record /\
    mt940_lines usdt_rows sample_iban = Ok lines /\
    statement_currency first_record (last usdt_rows first_record) = "USDT" /\
    nth 3 lines "" = ":60F:C240115USDT987,50" /\
    is_currency_code "USDT" = false.
Proof.
  eexists. eexists. split; [reflexivity|].
  split; [vm_compute; reflexivity|].
  repeat split; reflexivity.
Qed.


Lemma currency_is_chosen_field_upper_witness :
  mt940_lines sample_rows sample_iban = Ok sample_lines /\
  exists (first_record : dict)
         (opening_date opening_balance closing_date closing_balance : string)
         (available_date : string) (blocks : list (list string)),
    hd_error sample_rows = Some first_record /\
    let last_record := last sample_rows first_record in
    let field := chosen_currency_field first_record last_record in
    let currency := upper (strip field) in
    sample_lines =
      [":20:MT940"; (":25:/" ++ replace " " "" sample_iban)%string; ":28C:1";
       (":60F:C" ++ opening_date ++ currency ++ opening_balance)%string]
      ++ List.concat blocks
      ++ [(":62F:C" ++ closing_date ++ currency ++ closing_balance)%string;
          (":64:C" ++ available_date ++ currency ++ closing_balance)%string;
          "-"] /\
    length opening_date = 6%nat /\ length closing_date = 6%nat /\
    length available_date = 6%nat /\
    Forall (fun block => exists pre : list string,
              block = pre ++ [("~60" ++ currency_symbol currency)%string;
                              ("~63" ++ currency_symbol currency)%string]) blocks /\
    (length (strip field) = 3%nat -> str_forall is_letter (strip field) = true ->
     is_currency_code currency = true) /\
    (str_forall is_ascii7 (strip field) = true ->
     is_currency_code currency = true ->
     length (strip field) = 3%nat /\ str_forall is_letter (strip field) = true) /\
    (truthy_opt (dict_get first_record "Payment currency") = false ->
     truthy_opt (dict_get last_record "Payment currency") = false ->
     currency = "EUR").
Proof.
  assert (H : mt940_lines sample_rows sample_iban = Ok sample_lines)
    by (vm_compute; reflexivity).
  split; [exact H|].
  exact (currency_is_chosen_field_upper sample_rows sample_iban H).
Defined.

(* ================================================================== *)
(** * Rows: none, and too long                                        *)
(* ================================================================== *)

Lemma opening_closing_and_block_order_witness :
  sample_rows <> [] /\
  mt940_lines sample_rows sample_iban = Ok sample_lines /\
  exists (first_record : dict) (opening_date opening_balance : string)
         (closing_date closing_balance available_date : string)
         (blocks : list (list string)),
    hd_error sample_rows = Some first_record /\
    let last_record := last sample_rows first_record in
    let currency := statement_currency first_record last_record in
    (exists d, dict_getitem last_record DATE_COMPLETED = Ok d
               /\ fmt_yyMMdd d = Ok opening_date) /\
    _fmt_amount (parse_decimal (dict_get_default last_record "Balance" "0"))
      = Ok opening_balance /\
    (exists d, dict_getitem first_record DATE_COMPLETED = Ok d
               /\ fmt_yyMMdd d = Ok closing_date) /\
    _fmt_amount (parse_decimal (dict_get_default first_record "Balance" "0"))
      = Ok closing_balance /\
    Forall2 (fun tx block => tx_block currency last_record tx = Ok block)
            (rev sample_rows) blocks /\
    List.length blocks = List.length sample_rows /\
    sample_lines =
      [":20:MT940"; (":25:/" ++ replace " " "" sample_iban)%string; ":28C:1";
       (":60F:C" ++ opening_date ++ currency ++ opening_balance)%string]
      ++ List.concat blocks
      ++ [(":62F:C" ++ closing_date ++ currency ++ closing_balance)%string;
          (":64:C" ++ available_date ++ currency ++ closing_balance)%string;
          "-"] /\
    List.length (filter (startswith ":61:") sample_lines) = List.length sample_rows.
Proof.
  assert (N : sample_rows <> []) by discriminate.
  assert (H : mt940_lines sample_rows sample_iban = Ok sample_lines)
    by (vm_compute; reflexivity).
  split; [exact N|]. split; [exact H|].
  apply (@opening_closing_and_block_order sample_rows sample_iban sample_lines N H).
Defined.

Lemma filter_blank_rows (blanks : list (list string)) :
  Forall (fun r => r = []) blanks ->
  filter (fun r => negb (is_blank_row r)) blanks = [].
Proof.
  induction 1 as [|r rs Hr _ IH]; [reflexivity|].
  subst r. simpl. exact IH.
Qed.

(** C2.  The empty text, and every text in which the reader finds a
    header row and after it nothing but blank rows, is rejected with the
    ValueError of the empty input, whatever the account identifier. *)
Theorem empty_input_is_rejected (iban : string) :
  revolut_to_mt940 "" iban = Raise ValueError_empty_csv /\
  (forall (text : string) (header : list string) (blanks : list (list string)),
     csv_reader text = Ok (header :: blanks) ->
     Forall (fun r => r = []) blanks ->
     revolut_to_mt940 text iban = Raise ValueError_empty_csv).
Proof.
  split; [reflexivity|].
  intros text header blanks Hr Hb. unfold revolut_to_mt940.
  rewrite Hr. cbn [bind DictReader]. now rewrite (filter_blank_rows Hb).
Qed.

Lemma empty_input_is_rejected_witness :
  csv_reader header_only_csv
    = Ok [["Date completed (UTC)"; "Amount"; "Balance"; "Payment currency"]] /\
  Forall (fun r : list string => r = []) [] /\
  revolut_to_mt940 header_only_csv sample_iban = Raise ValueError_empty_csv.
Proof.
  assert (H : csv_reader header_only_csv
              = Ok [["Date completed (UTC)"; "Amount"; "Balance"; "Payment currency"]])
    by (vm_compute; reflexivity).
  split; [exact H|]. split; [constructor|].
  apply (proj2 (empty_input_is_rejected sample_iban) header_only_csv _ [] H).
  constructor.
Defined.

(** ** Rows longer than the header *)

(** A dict without its rest entry. *)
Lemma tx_body_items (currency : string) (first_row first_row' tx tx' : dict)
  (lines : list string) :
  items first_row = items first_row' -> items tx = items tx' ->
  tx_body currency first_row tx lines = tx_body currency first_row' tx' lines.
Proof.
  destruct first_row as [i1 r1], first_row' as [i1' r1'], tx as [i2 r2], tx' as [i2' r2'].
  cbn [items]. intros -> ->. reflexivity.
Qed.

Lemma for_each_items (currency : string) (first_row first_row' : dict)
  (txs txs' : list dict) :
  items first_row = items first_row' ->
  Forall2 (fun d d' => items d = items d') txs txs' ->
  forall lines,
    for_each txs (tx_body currency first_row) lines
    = for_each txs' (tx_body currency first_row') lines.
Proof.
  intros Hf. induction 1 as [|d d' l l' Hd _ IH]; intro lines; [reflexivity|].
  cbn [for_each].
  rewrite tx_body_items with (first_row' := first_row') (tx' := d') by assumption.
  destruct (tx_body currency first_row' d' lines); cbn [bind]; auto.
Qed.

Lemma Forall2_last {A : Type} (R : A -> A -> Prop) (l l' : list A) (a a' : A) :
  R a a' -> Forall2 R l l' -> R (last l a) (last l' a').
Proof.
  intros Ha. induction 1 as [|x x' l l' Hx HF IH]; [exact Ha|].
  destruct HF; [exact Hx | exact IH].
Qed.

Lemma Forall2_rev {A : Type} (R : A -> A -> Prop) (l l' : list A) :
  Forall2 R l l' -> Forall2 R (rev l) (rev l').
Proof.
  induction 1; simpl; [constructor|]. apply Forall2_app; auto.
Qed.

Lemma bind_ext {A B : Type} (r : result A) (k k' : A -> result B) :
  (forall a, k a = k' a) -> bind r k = bind r k'.
Proof. intro H. destruct r; simpl; auto. Qed.

(** The statement depends on the named fields of the rows only. *)
Lemma mt940_lines_items (rows rows' : list dict) (iban : string) :
  Forall2 (fun d d' => items d = items d') rows rows' ->
  mt940_lines rows iban = mt940_lines rows' iban.
Proof.
  intro HF. destruct HF as [|r0 r0' rest rest' H0 Hrest]; [reflexivity|].
  assert (HF : Forall2 (fun d d' => items d = items d') (r0 :: rest) (r0' :: rest'))
    by now constructor.
  pose proof (@Forall2_last dict (fun d d' => items d = items d') _ _ r0 r0' H0 HF) as HL.
  cbv beta in HL.
  unfold mt940_lines.
  set (fr := last (r0 :: rest) r0) in *. set (fr' := last (r0' :: rest') r0') in *.
  assert (G1 : forall k, dict_getitem fr k = dict_getitem fr' k)
    by (intro k; unfold dict_getitem; now rewrite HL).
  assert (G2 : forall k, dict_getitem r0 k = dict_getitem r0' k)
    by (intro k; unfold dict_getitem; now rewrite H0).
  assert (G3 : forall k v, dict_get_default fr k v = dict_get_default fr' k v)
    by (intros k v; unfold dict_get_default; now rewrite HL).
  assert (G4 : forall k v, dict_get_default r0 k v = dict_get_default r0' k v)
    by (intros k v; unfold dict_get_default; now rewrite H0).
  assert (G5 : statement_currency r0 fr = statement_currency r0' fr')
    by (unfold statement_currency, dict_get; now rewrite HL, H0).
  assert (G6 : forall lines,
             for_each (rev (r0 :: rest)) (tx_body (statement_currency r0' fr') fr) lines
             = for_each (rev (r0' :: rest')) (tx_body (statement_currency r0' fr') fr') lines)
    by (intro lines; apply for_each_items; [exact HL | now apply Forall2_rev]).
  clearbody fr fr'. cbv zeta.
  rewrite G5.
  repeat (rewrite ?G1, ?G2, ?G3, ?G4, ?G6; first [apply bind_ext; intro | reflexivity]).
Qed.

Lemma combine_firstn_len (h r : list string) :
  combine h (firstn (List.length h) r) = combine h r.
Proof.
  revert r; induction h as [|x h IH]; intros [|y r]; simpl; auto.
  now rewrite IH.
Qed.

(** Cutting a row to the header's length changes no named field. *)
Lemma DictReader_row_cut (fieldnames row : list string) :
  items (DictReader_row fieldnames (firstn (List.length fieldnames) row))
  = items (DictReader_row fieldnames row).
Proof.
  unfold DictReader_row, dict_zip.
  rewrite combine_firstn_len, length_firstn.
  destruct (Nat.ltb_spec (List.length fieldnames) (List.length row)) as [Hlt|Hge].
  - rewrite Nat.min_l by lia. rewrite Nat.ltb_irrefl. reflexivity.
  - rewrite Nat.min_r by lia.
    destruct (Nat.ltb_spec (List.length fieldnames) (List.length row)); [lia|].
    reflexivity.
Qed.

Lemma DictReader_cut (fieldnames : list string) (rows : list (list string)) :
  fieldnames <> [] ->
  Forall2 (fun d d' => items d = items d')
          (DictReader (fieldnames :: rows))
          (DictReader (fieldnames :: map (firstn (List.length fieldnames)) rows)).
Proof.
  intro Hne. cbn [DictReader].
  induction rows as [|r rows IH]; [constructor|].
  cbn [map filter].
  assert (B : is_blank_row (firstn (List.length fieldnames) r) = is_blank_row r).
  { destruct fieldnames; [congruence|]. now destruct r. }
  rewrite B. destruct (is_blank_row r); cbn [negb map]; [exact IH|].
  constructor; [symmetry; apply DictReader_row_cut | exact IH].
Qed.

(** C4, as the code has it.  A row with more fields than the header is
    not rejected: the fields beyond the header go under the rest key, the
    named fields are the same as in the row cut to the header's length,
    and so is the whole statement. *)
Theorem long_rows_are_cut_not_rejected (fieldnames : list string)
  (rows : list (list string)) (iban : string) :
  fieldnames <> [] ->
  (forall (row : list string) (key : string),
     dict_get (DictReader_row fieldnames row) key
     = dict_get (DictReader_row fieldnames (firstn (List.length fieldnames) row)) key) /\
  (forall row : list string,
     (List.length fieldnames < List.length row)%nat ->
     restkey (DictReader_row fieldnames row)
     = Some (skipn (List.length fieldnames) row)) /\
  mt940_lines (DictReader (fieldnames :: rows)) iban
  = mt940_lines
      (DictReader (fieldnames :: map (firstn (List.length fieldnames)) rows)) iban.
Proof.
  intro Hne. split; [|split].
  - intros row key. unfold dict_get. now rewrite DictReader_row_cut.
  - intros row Hlt. unfold DictReader_row.
    apply Nat.ltb_lt in Hlt. rewrite Hlt. reflexivity.
  - apply mt940_lines_items, DictReader_cut, Hne.
Qed.

(** C4 as the specification words it fails: the third data row of the
    sample has ten fields under a header of nine, and the sample is
    converted. *)
Lemma long_row_is_converted :
  exists (header : list string) (rows : list (list string)) (out : string),
    csv_reader sample_csv = Ok (header :: rows) /\
    Exists (fun r => (List.length header < List.length r)%nat) rows /\
    revolut_to_mt940 sample_csv sample_iban = Ok out.
Proof.
  eexists. eexists. eexists.
  split; [vm_compute; reflexivity|].
  split; [|vm_compute; reflexivity].
  apply Exists_cons_tl, Exists_cons_tl, Exists_cons_hd. simpl. lia.
Qed.

Lemma long_rows_are_cut_not_rejected_witness :
  ["Date completed (UTC)"; "Balance"] <> [] /\
  (forall (row : list string) (key : string),
     dict_get (DictReader_row ["Date completed (UTC)"; "Balance"] row) key
     = dict_get (DictReader_row ["Date completed (UTC)"; "Balance"]
                   (firstn 2 row)) key) /\
  (forall row : list string,
     (2 < List.length row)%nat ->
     restkey (DictReader_row ["Date completed (UTC)"; "Balance"] row)
     = Some (skipn 2 row)) /\
  mt940_lines (DictReader [["Date completed (UTC)"; "Balance"];
                           ["2024-01-15"; "10.00"; "extra"]]) sample_iban
  = mt940_lines (DictReader [["Date completed (UTC)"; "Balance"];
                             ["2024-01-15"; "10.00"]]) sample_iban.
Proof.
  assert (N : ["Date completed (UTC)"; "Balance"] <> []) by discriminate.
  split; [exact N|].
  exact (@long_rows_are_cut_not_rejected ["Date completed (UTC)"; "Balance"]
           [["2024-01-15"; "10.00"; "extra"]] sample_iban N).
Defined.

(* ================================================================== *)
(** * The transaction line: direction and amount                      *)
(* ================================================================== *)







(* ================================================================== *)
(** * The two sub-lines of tag 38                                     *)
(* ================================================================== *)







(* ================================================================== *)
(** * More on _split_text_chunks and the description sub-lines        *)
(* ================================================================== *)

Section CharacterClasses.

Local Open Scope string_scope.

Variable p : ascii -> bool.

Lemma str_forall_replace (old : ascii) (new s : string) :
  str_forall p new = true -> str_forall p s = true ->
  str_forall p (replace old new s) = true.
Proof.
  intros Hn. induction s as [|c s IH]; simpl; [reflexivity|].
  rewrite andb_true_iff. intros [Hc Hs].
  destruct (Ascii.eqb c old).
  - rewrite str_forall_app, Hn. simpl. auto.
  - simpl. rewrite Hc. simpl. auto.
Qed.

End CharacterClasses.

Lemma replace_removes (old : ascii) (new s : string) :
  str_forall (fun c => negb (Ascii.eqb c old)) new = true ->
  str_forall (fun c => negb (Ascii.eqb c old)) (replace old new s) = true.
Proof.
  intros Hn. induction s as [|c s IH]; simpl; [reflexivity|].
  destruct (Ascii.eqb c old) eqn:E.
  - rewrite str_forall_app, Hn. exact IH.
  - simpl. rewrite E. exact IH.
Qed.

(** The normalised text holds no carriage return and no line feed. *)
Lemma normalize_text_no_newline (text : string) :
  str_forall (fun c => negb (is_nl c)) (normalize_text text) = true.
Proof.
  unfold normalize_text.
  assert (H : forall s, str_forall (fun c => negb (Ascii.eqb c LF)) s = true ->
                        str_forall (fun c => negb (Ascii.eqb c CR)) s = true ->
                        str_forall (fun c => negb (is_nl c)) s = true).
  { induction s as [|c s IH]; simpl; [reflexivity|].
    rewrite !andb_true_iff. intros [A1 A2] [B1 B2]. split; [|auto].
    unfold is_nl. apply negb_true_iff in A1, B1. now rewrite A1, B1. }
  apply H; apply str_forall_strip.
  - now apply replace_removes.
  - apply str_forall_replace; [reflexivity|]. now apply replace_removes.
Qed.

Lemma range0_In (stop step i : nat) :
  In i (range0 stop step) -> exists k, i = (k * step)%nat /\ (k < (stop + step - 1) / step)%nat.
Proof.
  unfold range0. rewrite in_map_iff. intros (k & <- & Hk).
  apply in_seq in Hk. exists k. split; [reflexivity | lia].
Qed.

(** X1.  With any positive width the chunks join into the normalised
    text, there are as many as the width divides the length (rounded up),
    every chunk but possibly the last has exactly the width, and none is
    empty or wider; length and width count characters. *)
Theorem split_text_chunks_any_width (text : string) (chunk_len : Z) :
  (0 < chunk_len)%Z ->
  exists chunks : list string,
    _split_text_chunks text chunk_len = Ok chunks /\
    join0 chunks = normalize_text text /\
    List.length chunks
    = ((len (normalize_text text) + Z.to_nat chunk_len - 1) / Z.to_nat chunk_len)%nat /\
    (forall i, (S i < List.length chunks)%nat ->
               len (nth i chunks "") = Z.to_nat chunk_len) /\
    (forall i, (i < List.length chunks)%nat ->
               (1 <= len (nth i chunks "") <= Z.to_nat chunk_len)%nat).
Proof.
  intro Hpos. unfold _split_text_chunks.
  set (t := normalize_text text). set (n := Z.to_nat chunk_len).
  assert (Hn : (0 < n)%nat) by (unfold n; lia).
  destruct (Z.eqb_spec chunk_len 0) as [|_]; [lia|].
  destruct (Z.ltb_spec chunk_len 0) as [|_]; [lia|].
  destruct (truthy t) eqn:Ht.
  - eexists; split; [reflexivity|].
    pose proof (range0_count Hn (len t)) as Hc.
    pose proof (range0_count_tight Hn (len t)) as Hd.
    assert (L : List.length (map (fun i => slice i n t) (range0 (len t) n))
                = ((len t + n - 1) / n)%nat)
      by (unfold range0; now rewrite !length_map, length_seq).
    split; [unfold range0; apply slices_join; [exact Hn | exact Hc]|].
    split; [exact L|].
    split; intros i Hi; rewrite L in Hi;
      rewrite slices_nth by lia; rewrite len_slice; nia.
  - apply truthy_false_iff in Ht. exists []. rewrite Ht.
    split; [reflexivity|]. split; [reflexivity|].
    split; [|split; simpl; intros; lia].
    simpl. symmetry. apply Nat.div_small. lia.
Qed.

Lemma split_text_chunks_any_width_witness :
  (0 < 35)%Z /\
  exists chunks : list string,
    _split_text_chunks (accents 36) 35 = Ok chunks /\
    join0 chunks = normalize_text (accents 36) /\
    List.length chunks
    = ((len (normalize_text (accents 36)) + Z.to_nat 35 - 1) / Z.to_nat 35)%nat /\
    (forall i, (S i < List.length chunks)%nat ->
               len (nth i chunks "") = Z.to_nat 35) /\
    (forall i, (i < List.length chunks)%nat ->
               (1 <= len (nth i chunks "") <= Z.to_nat 35)%nat).
Proof.
  assert (P : (0 < 35)%Z) by lia.
  split; [exact P|].
  apply (@split_text_chunks_any_width (accents 36) 35 P).
Defined.

Lemma chunks_hold_no_newline_aux (text : string) (chunk_len : Z) (chunks : list string) :
  _split_text_chunks text chunk_len = Ok chunks ->
  Forall (fun chunk => str_forall (fun c => negb (is_nl c)) chunk = true) chunks.
Proof.
  unfold _split_text_chunks.
  destruct (truthy (normalize_text text)); [|intro H; injection H as <-; constructor].
  destruct (chunk_len =? 0)%Z; [discriminate|].
  destruct (chunk_len <? 0)%Z; intro H; injection H as <-; [constructor|].
  apply Forall_map, Forall_forall. intros i _.
  apply str_forall_slice, normalize_text_no_newline.
Qed.

(** X3.  No chunk holds a carriage return or a line feed, whatever the
    text and the width: a description never breaks a line of the
    statement. *)
Theorem chunks_hold_no_newline (text : string) (chunk_len : Z) (chunks : list string) :
  _split_text_chunks text chunk_len = Ok chunks ->
  Forall (fun chunk => str_forall (fun c => negb (is_nl c)) chunk = true) chunks.
Proof. apply chunks_hold_no_newline_aux. Qed.

Lemma chunks_hold_no_newline_witness :
  _split_text_chunks ("ab" ++ String CR (String LF "cd"))%string 3 = Ok ["ab "; " cd"] /\
  Forall (fun chunk => str_forall (fun c => negb (is_nl c)) chunk = true) ["ab "; " cd"].
Proof.
  assert (H : _split_text_chunks ("ab" ++ String CR (String LF "cd"))%string 3
              = Ok ["ab "; " cd"]) by reflexivity.
  split; [exact H|].
  apply (@chunks_hold_no_newline _ _ _ H).
Defined.

Lemma chunks_join_35 (description : string) (chunks : list string) :
  _split_text_chunks description 35 = Ok chunks ->
  join0 chunks = normalize_text description.
Proof.
  rewrite split_text_chunks_35. intro H; injection H as <-.
  destruct (truthy (normalize_text description)) eqn:Ht.
  - assert (P35 : (0 < 35)%nat) by lia.
    unfold range0. apply slices_join; [exact P35 | apply (range0_count P35)].
  - apply truthy_false_iff in Ht. now rewrite Ht.
Qed.

Lemma str_forall_join0 (p : ascii -> bool) (l : list string) :
  Forall (fun s => str_forall p s = true) l -> str_forall p (join0 l) = true.
Proof.
  induction 1 as [|x l Hx _ IH]; [reflexivity|].
  rewrite join0_cons, str_forall_app, Hx, IH. reflexivity.
Qed.

(** X4.  The sub-lines of a description are at most three, tagged 32, 33
    and 38 in this order; after their tags they hold the whole normalised
    description, no character lost and none added, and no line break. *)
Theorem description_sublines_keep_text (description : string) (chunks : list string) :
  _split_text_chunks description 35 = Ok chunks ->
  join0 (map (drop 3) (description_lines [] chunks)) = normalize_text description /\
  List.length (description_lines [] chunks) = Nat.min 3 (List.length chunks) /\
  map (substring 0 3) (description_lines [] chunks)
  = firstn (List.length chunks) ["~32"; "~33"; "~38"] /\
  Forall (fun l => str_forall (fun c => negb (is_nl c)) l = true)
         (description_lines [] chunks).
Proof.
  intro H. pose proof (chunks_join_35 _ H) as Hj.
  pose proof (chunks_hold_no_newline_aux _ _ H) as Hn.
  split; [|split; [|split]].
  - rewrite <- Hj.
    destruct chunks as [|a [|b [|c r]]];
      cbn [description_lines List.length Nat.leb Nat.ltb app nth map skipn];
      cbn [drop append]; rewrite ?join0_cons;
      change (join0 []) with ""%string; rewrite ?str_app_nil_r; reflexivity.
  - destruct chunks as [|a [|b [|c r]]]; reflexivity.
  - assert (S0 : forall s, substring 0 0 s = ""%string) by (intros []; reflexivity).
    destruct chunks as [|a [|b [|c r]]];
      cbn [description_lines List.length Nat.leb Nat.ltb app nth skipn map
           substring append firstn];
      rewrite ?S0, ?firstn_nil; reflexivity.
  - destruct chunks as [|a [|b [|c r]]];
      cbn [description_lines List.length Nat.leb Nat.ltb app nth skipn].
    + constructor.
    + inversion Hn as [|? ? Ha _]; subst. repeat constructor. exact Ha.
    + inversion Hn as [|? ? Ha Hn']; subst. inversion Hn' as [|? ? Hb _]; subst.
      repeat constructor; assumption.
    + inversion Hn as [|? ? Ha Hn']; subst. inversion Hn' as [|? ? Hb Hn'']; subst.
      repeat constructor; try assumption.
      change (str_forall (fun c0 => negb (is_nl c0)) (join0 (c :: r)) = true).
      now apply str_forall_join0.
Qed.

Lemma description_sublines_keep_text_witness :
  _split_text_chunks (accents 80) 35 = Ok [accents 35; accents 35; accents 10] /\
  join0 (map (drop 3) (description_lines [] [accents 35; accents 35; accents 10]))
    = normalize_text (accents 80) /\
  List.length (description_lines [] [accents 35; accents 35; accents 10])
    = Nat.min 3 (List.length [accents 35; accents 35; accents 10]) /\
  map (substring 0 3) (description_lines [] [accents 35; accents 35; accents 10])
  = firstn (List.length [accents 35; accents 35; accents 10]) ["~32"; "~33"; "~38"] /\
  Forall (fun l => str_forall (fun c => negb (is_nl c)) l = true)
         (description_lines [] [accents 35; accents 35; accents 10]).
Proof.
  assert (H : _split_text_chunks (accents 80) 35
              = Ok [accents 35; accents 35; accents 10]) by (vm_compute; reflexivity).
  split; [exact H|].
  apply (@description_sublines_keep_text (accents 80) _ H).
Defined.

(* ================================================================== *)
(** * Amounts: reading back what was formatted                        *)
(* ================================================================== *)

Section ReadingDigits.

Local Open Scope string_scope.

Lemma digit_val_char (d : N) : (d < 10)%N -> digit_val (digit_char d) = d.
Proof.
  intro H.
  assert (E : (d = 0 \/ d = 1 \/ d = 2 \/ d = 3 \/ d = 4 \/ d = 5 \/ d = 6
              \/ d = 7 \/ d = 8 \/ d = 9)%N) by lia.
  repeat (destruct E as [E|E]; [subst d; reflexivity|]).
  subst d; reflexivity.
Qed.

Lemma digits_to_N_app (a b : string) : forall acc : N,
  digits_to_N acc (a ++ b) = digits_to_N (digits_to_N acc a) b.
Proof. induction a as [|c a IH]; intro acc; simpl; [reflexivity | apply IH]. Qed.

(** Reading the digits of [n] after [acc] shifts [acc] by their number. *)
Lemma digits_to_N_digits_of (fuel : nat) : forall n acc : N,
  (n < 2 ^ N.of_nat fuel)%N ->
  digits_to_N acc (digits_of fuel n)
  = (acc * 10 ^ N.of_nat (length (digits_of fuel n)) + n)%N.
Proof.
  induction fuel as [|fuel IH]; intros n acc Hb.
  - simpl in *. lia.
  - cbn [digits_of]. destruct (N.ltb_spec n 10) as [Hlt|Hge].
    + cbn [digits_to_N length]. rewrite digit_val_char by exact Hlt.
      change (10 ^ N.of_nat 1)%N with 10%N. lia.
    + assert (Hb' : (n / 10 < 2 ^ N.of_nat fuel)%N).
      { apply N.Div0.div_lt_upper_bound.
        rewrite Nat2N.inj_succ, N.pow_succ_r' in Hb. lia. }
      rewrite digits_to_N_app, IH by exact Hb'.
      cbn [digits_to_N]. rewrite digit_val_char by (apply N.mod_lt; lia).
      rewrite str_length_app. cbn [length].
      replace (N.of_nat (length (digits_of fuel (n / 10)) + 1))
        with (N.succ (N.of_nat (length (digits_of fuel (n / 10))))) by lia.
      rewrite N.pow_succ_r'.
      pose proof (N.div_mod n 10 ltac:(lia)). lia.
Qed.

Lemma digits_to_N_str (n acc : N) :
  digits_to_N acc (N_to_str n) = (acc * 10 ^ N.of_nat (length (N_to_str n)) + n)%N.
Proof. apply digits_to_N_digits_of, log2_fuel. Qed.

Lemma N_to_str_length_small (n : N) : (n < 10)%N -> length (N_to_str n) = 1%nat.
Proof.
  intro H. unfold N_to_str. cbn [digits_of].
  destruct (N.ltb_spec n 10); [reflexivity | lia].
Qed.

Lemma digits_to_N_pad2 (m acc : N) :
  (m < 100)%N -> digits_to_N acc (pad2 m) = (100 * acc + m)%N.
Proof.
  intro H. pose proof (pad2_length H) as L. unfold pad2 in *.
  destruct (N.ltb_spec m 10) as [Hlt|Hge].
  - cbn [append digits_to_N]. rewrite digits_to_N_str, N_to_str_length_small by exact Hlt.
    change (digit_val "0") with 0%N. change (10 ^ N.of_nat 1)%N with 10%N. lia.
  - rewrite digits_to_N_str, L. change (10 ^ N.of_nat 2)%N with 100%N. lia.
Qed.

Lemma span_digits_app (ds rest : string) :
  str_forall is_digit ds = true ->
  match rest with String c _ => is_digit c = false | EmptyString => True end ->
  span_digits (ds ++ rest) = (ds, rest).
Proof.
  intros Hd Hr. induction ds as [|c ds IH]; cbn [append].
  - destruct rest as [|c r]; [reflexivity|]. cbn [span_digits]. now rewrite Hr.
  - cbn [str_forall] in Hd. apply andb_true_iff in Hd. destruct Hd as [Hc Hds].
    cbn [span_digits]. rewrite Hc, (IH Hds). reflexivity.
Qed.

Lemma N_to_str_nonempty (n : N) : exists c r, N_to_str n = String c r /\ is_digit c = true.
Proof.
  pose proof (N_to_str_digits n) as Hd. pose proof (ndigits_pos n) as Hp.
  unfold ndigits in Hp. destruct (N_to_str n) as [|c r]; [simpl in Hp; lia|].
  cbn [str_forall] in Hd. apply andb_true_iff in Hd. exists c, r. tauto.
Qed.

Lemma split_sign_digit (c : ascii) (r : string) :
  is_digit c = true -> split_sign (String c r) = (false, String c r).
Proof.
  destruct c as [[] [] [] [] [] [] [] []]; try discriminate; reflexivity.
Qed.

Lemma digit_is_plain (c : ascii) :
  is_digit c = true ->
  is_plain c = true /\ Ascii.eqb c "_" = false /\ Ascii.eqb c "," = false.
Proof.
  destruct c as [[] [] [] [] [] [] [] []]; try discriminate; intros _; repeat split.
Qed.

End ReadingDigits.

Section ReadingAmounts.

Local Open Scope string_scope.

Lemma str_forall_digits_plain (p : ascii -> bool) (s : string) :
  (forall c, is_digit c = true -> p c = true) ->
  str_forall is_digit s = true -> str_forall p s = true.
Proof. intros H. apply str_forall_impl. exact H. Qed.

(** [Decimal(text)] of a plain number: an optional minus, digits, a
    point, digits. *)
Lemma Decimal_of_str_plain (s : bool) (c : ascii) (ip fp : string) :
  is_digit c = true -> str_forall is_digit ip = true -> str_forall is_digit fp = true ->
  Decimal_of_str (sign_str s ++ String c ip ++ "." ++ fp)
  = Some (Finite s (digits_to_N 0 (String c ip ++ fp)) (- Z.of_nat (length fp))).
Proof.
  intros Hc Hi Hf. unfold Decimal_of_str.
  assert (Hplain : forall p : ascii -> bool,
             (forall x, is_digit x = true -> p x = true) ->
             p "-"%char = true -> p "."%char = true ->
             str_forall p (sign_str s ++ String c ip ++ "." ++ fp) = true).
  { intros p Hp Hm Hd. rewrite !str_forall_app. cbn [str_forall].
    rewrite (Hp c Hc), Hd, (str_forall_digits_plain p ip Hp Hi),
            (str_forall_digits_plain p fp Hp Hf).
    destruct s; cbn [sign_str str_forall]; [rewrite Hm|]; reflexivity. }
  rewrite strip_id
    by (apply Hplain; [intros x Hx; now rewrite (proj1 (digit_is_plain x Hx)) | reflexivity..]).
  rewrite replace_absent
    by (apply Hplain;
        [intros x Hx; now rewrite (proj1 (proj2 (digit_is_plain x Hx))) | reflexivity..]).
  assert (Hs : split_sign (sign_str s ++ String c ip ++ "." ++ fp)
               = (s, String c ip ++ "." ++ fp)).
  { destruct s; cbn [sign_str append]; [reflexivity | now apply split_sign_digit]. }
  rewrite Hs. unfold parse_number.
  rewrite (@span_digits_app (String c ip) ("." ++ fp))
    by first [cbn [str_forall]; now rewrite Hc, Hi | reflexivity].
  cbn [append].
  replace (span_digits fp) with (fp, "")
    by (symmetry; rewrite <- (str_app_nil_r fp) at 1; now apply span_digits_app).
  cbn [truthy String.eqb negb orb parse_exponent]. f_equal.
Qed.

(** What [parse_decimal] reads in the text of an amount. *)
Lemma parse_amount_text (s : bool) (cents : N) :
  parse_decimal (Some (sign_str s ++ unsigned_amount cents)) = Finite s cents (-2).
Proof.
  unfold parse_decimal, unsigned_amount.
  destruct (N_to_str_nonempty (cents / 100)) as (c & ip & E & Hc).
  pose proof (N_to_str_digits (cents / 100)) as Hi. rewrite E in Hi.
  cbn [str_forall] in Hi. apply andb_true_iff in Hi. destruct Hi as [_ Hi].
  pose proof (pad2_digits (cents mod 100)) as Hf.
  assert (Hne : (sign_str s ++ N_to_str (cents / 100) ++ "," ++ pad2 (cents mod 100)
                 =? "") = false).
  { rewrite E. apply String.eqb_neq. destruct s; discriminate. }
  rewrite Hne, !replace_app.
  rewrite (@replace_digits "," "." (N_to_str (cents / 100)))
    by (reflexivity || apply N_to_str_digits).
  rewrite (@replace_digits "," "." (pad2 (cents mod 100)))
    by (reflexivity || exact Hf).
  replace (replace "," "." (sign_str s)) with (sign_str s) by now destruct s.
  cbn [replace Ascii.eqb Bool.eqb append]. rewrite E.
  change (String c ip ++ String "." (pad2 (cents mod 100)))
    with (String c ip ++ "." ++ pad2 (cents mod 100)).
  rewrite Decimal_of_str_plain by assumption.
  rewrite <- E, digits_to_N_app, digits_to_N_str.
  rewrite digits_to_N_pad2 by (apply N.mod_lt; lia).
  rewrite pad2_length by (apply N.mod_lt; lia).
  f_equal. pose proof (N.div_mod cents 100 ltac:(lia)). lia.
Qed.

Lemma fmt_amount_cents (s : bool) (cents : N) :
  (cents < 10 ^ 28)%N ->
  _fmt_amount (Finite s cents (-2)) = Ok (sign_str s ++ unsigned_amount cents).
Proof.
  intro H.
  assert (Hd : (ndigits cents <= 28)%Z).
  { apply ndigits_le; [lia|]. apply N2Z.inj_lt in H.
    replace (Z.of_N (10 ^ 28)) with (10 ^ 28)%Z in H by (vm_compute; reflexivity).
    exact H. }
  pose proof (ndigits_pos cents) as Hp.
  unfold _fmt_amount, quantize, Decimal_0_01.
  replace (negb ((Etiny <=? -2)%Z && (-2 <=? Emax)%Z)) with false by reflexivity.
  destruct (N.eqb_spec cents 0) as [Hc|Hc].
  - subst cents. rewrite Decimal_fix_cents by (vm_compute; discriminate).
    cbn [bind]. now rewrite format_2f_cents.
  - rewrite rescale_same. unfold prec, Emax in *.
    destruct (Z.ltb_spec 999999 (-2 + ndigits cents - 1)); [lia|].
    destruct (Z.ltb_spec 28 (-2 + ndigits cents - 1 - -2 + 1)); [lia|].
    destruct (Z.ltb_spec 28 (ndigits cents)); [lia|].
    rewrite Decimal_fix_cents by (unfold prec; lia).
    cbn [bind]. now rewrite format_2f_cents.
Qed.

End ReadingAmounts.

(** X5.  Formatting and reading back: whenever [_fmt_amount] formats a
    finite decimal, [parse_decimal] reads in the text that decimal
    quantized to two places (the same sign, the hundredths rounded
    half-even, the exponent -2), and formatting what was read gives the
    same text again. *)
Theorem parse_decimal_reads_fmt_amount (sign : bool) (coef : N) (exp : Z) :
  (Z.of_N (rescale coef exp (-2)) < 10 ^ 28)%Z ->
  exists text : string,
    _fmt_amount (Finite sign coef exp) = Ok text /\
    parse_decimal (Some text) = Finite sign (rescale coef exp (-2)) (-2) /\
    rounds_half_even_to coef exp (rescale coef exp (-2)) /\
    _fmt_amount (parse_decimal (Some text)) = Ok text.
Proof.
  intro H. eexists. split; [apply fmt_amount_in_range, H|].
  split; [apply parse_amount_text|]. split; [apply rescale_spec|].
  rewrite parse_amount_text. apply fmt_amount_cents.
  apply N2Z.inj_lt.
  replace (Z.of_N (10 ^ 28)) with (10 ^ 28)%Z by (vm_compute; reflexivity).
  exact H.
Qed.

Lemma parse_decimal_reads_fmt_amount_witness :
  (Z.of_N (rescale 35 (-1) (-2)) < 10 ^ 28)%Z /\
  exists text : string,
    _fmt_amount (Finite true 35 (-1)) = Ok text /\
    parse_decimal (Some text) = Finite true (rescale 35 (-1) (-2)) (-2) /\
    rounds_half_even_to 35 (-1) (rescale 35 (-1) (-2)) /\
    _fmt_amount (parse_decimal (Some text)) = Ok text.
Proof.
  assert (H : (Z.of_N (rescale 35 (-1) (-2)) < 10 ^ 28)%Z) by (vm_compute; reflexivity).
  split; [exact H|].
  apply (@parse_decimal_reads_fmt_amount true 35 (-1) H).
Defined.

(* ================================================================== *)
(** * Amounts: separators                                             *)
(* ================================================================== *)

Section Separators.

Local Open Scope string_scope.

Lemma replace_comma_idem (s : string) :
  replace "," "." (replace "," "." s) = replace "," "." s.
Proof.
  induction s as [|c s IH]; [reflexivity|]. cbn [replace].
  destruct (Ascii.eqb c ",") eqn:E; cbn [append replace].
  - now rewrite IH.
  - now rewrite E, IH.
Qed.

Lemma replace_point_comma (s : string) :
  replace "," "." (replace "." "," s) = replace "," "." s.
Proof.
  induction s as [|c s IH]; [reflexivity|]. cbn [replace].
  destruct (Ascii.eqb_spec c ".") as [->|Hp]; cbn [append replace].
  - cbn [Ascii.eqb Bool.eqb]. cbn [append]. now rewrite IH.
  - destruct (Ascii.eqb c ","); cbn [append]; now rewrite IH.
Qed.

Lemma replace_char_empty (old new : ascii) (s : string) :
  (replace old (String new "") s =? "") = (s =? "").
Proof.
  destruct s as [|c s]; [reflexivity|]. cbn [replace].
  destruct (Ascii.eqb c old); reflexivity.
Qed.

Lemma num_char_facts (c : ascii) :
  is_num_char c = true ->
  is_plain c = true /\ Ascii.eqb c "_" = false /\ upper_char c = c /\
  Ascii.eqb c "I" = false /\ Ascii.eqb "N" c = false /\ Ascii.eqb "S" c = false /\
  forall r, split_sign (String c r) = (false, String c r).
Proof.
  destruct c as [[] [] [] [] [] [] [] []]; try discriminate; intros _; repeat split.
Qed.

Lemma upper_num (s : string) : str_forall is_num_char s = true -> upper s = s.
Proof.
  induction s as [|c s IH]; [reflexivity|]. cbn [str_forall upper].
  rewrite andb_true_iff. intros [Hc Hs].
  destruct (num_char_facts c Hc) as (_ & _ & -> & _). now rewrite IH.
Qed.

(** A text of digits with two points in it is no number. *)
Lemma Decimal_of_str_two_points (a b c : string) :
  str_forall is_digit a = true -> str_forall is_digit b = true ->
  str_forall is_digit c = true ->
  Decimal_of_str (a ++ "." ++ b ++ "." ++ c) = None.
Proof.
  intros Ha Hb Hc.
  assert (Hn : str_forall is_num_char (a ++ "." ++ b ++ "." ++ c) = true).
  { assert (D : forall s, str_forall is_digit s = true -> str_forall is_num_char s = true).
    { intros s. apply str_forall_impl. intros x Hx. unfold is_num_char. now rewrite Hx. }
    rewrite !str_forall_app. cbn [str_forall].
    rewrite (D a Ha), (D b Hb), (D c Hc). reflexivity. }
  assert (Hpn : parse_number (a ++ "." ++ b ++ "." ++ c) = None).
  { unfold parse_number.
    rewrite (@span_digits_app a ("." ++ b ++ "." ++ c)) by (assumption || reflexivity).
    cbn [append].
    change (String "." c) with ("." ++ c).
    rewrite (@span_digits_app b ("." ++ c)) by (assumption || reflexivity).
    destruct (truthy a || truthy b); reflexivity. }
  assert (Hne : a ++ "." ++ b ++ "." ++ c <> "") by (destruct a; discriminate).
  remember (a ++ "." ++ b ++ "." ++ c) as T eqn:ET. clear ET.
  unfold Decimal_of_str.
  rewrite strip_id
    by (revert Hn; apply str_forall_impl; intros x Hx;
        now rewrite (proj1 (num_char_facts x Hx))).
  rewrite replace_absent
    by (revert Hn; apply str_forall_impl; intros x Hx;
        now rewrite (proj1 (proj2 (num_char_facts x Hx)))).
  pose proof (upper_num _ Hn) as Hu.
  destruct T as [|x r]; [congruence|].
  cbn [str_forall] in Hn. apply andb_true_iff in Hn. destruct Hn as [Hx _].
  destruct (num_char_facts x Hx) as (_ & _ & _ & HI & HN & HS & Hsign).
  rewrite Hsign, Hpn, Hu.
  cbn [String.eqb startswith]. rewrite HI, HN, HS. reflexivity.
Qed.

End Separators.

(** X6.  Commas and points are read alike: turning the commas of a text
    into points, or its points into commas, does not change the decimal
    that [parse_decimal] reads in it. *)
Theorem parse_decimal_comma_or_point (s : string) :
  parse_decimal (Some (replace "," "." s)) = parse_decimal (Some s) /\
  parse_decimal (Some (replace "." "," s)) = parse_decimal (Some s).
Proof.
  unfold parse_decimal. split.
  - rewrite replace_comma_idem, (replace_char_empty "," "." s). reflexivity.
  - rewrite replace_point_comma, (replace_char_empty "." "," s). reflexivity.
Qed.

(** X7.  A number written with two separators, such as a thousands
    separator and a decimal one, is no number for [Decimal] after the
    commas became points, and is read as zero: for all digit strings
    [a], [b], [c] and separators comma or point. *)
Theorem parse_decimal_two_separators_is_zero (a b c : string) (sep1 sep2 : ascii) :
  str_forall is_digit a = true -> str_forall is_digit b = true ->
  str_forall is_digit c = true ->
  (sep1 = "," \/ sep1 = ".")%char -> (sep2 = "," \/ sep2 = ".")%char ->
  parse_decimal (Some (a ++ String sep1 (b ++ String sep2 c))%string) = Decimal_0.
Proof.
  intros Ha Hb Hc H1 H2. unfold parse_decimal.
  assert (E : replace "," "." (a ++ String sep1 (b ++ String sep2 c))%string
              = (a ++ "." ++ b ++ "." ++ c)%string).
  { rewrite replace_app. rewrite (@replace_digits "," "." a) by (reflexivity || exact Ha).
    f_equal.
    assert (R : forall sep s, (sep = "," \/ sep = ".")%char ->
                  replace "," "." (String sep s) = String "." (replace "," "." s)).
    { intros sep s [-> | ->]; reflexivity. }
    rewrite (R sep1 _ H1), replace_app, (@replace_digits "," "." b)
      by (reflexivity || exact Hb).
    rewrite (R sep2 _ H2), (@replace_digits "," "." c) by (reflexivity || exact Hc).
    reflexivity. }
  rewrite E, Decimal_of_str_two_points by assumption.
  destruct (_ =? _)%string; reflexivity.
Qed.

Lemma parse_decimal_two_separators_is_zero_witness :
  str_forall is_digit "1" = true /\ str_forall is_digit "234" = true /\
  str_forall is_digit "56" = true /\
  parse_decimal (Some "1,234.56") = Decimal_0.
Proof.
  repeat (split; [reflexivity|]).
  apply (@parse_decimal_two_separators_is_zero "1" "234" "56" "," ".");
    solve [reflexivity | now left | now right].
Defined.

(* ================================================================== *)
(** * Dates: what fmt_yyMMdd and fmt_MMDD accept and return           *)
(* ================================================================== *)

Lemma two_chars_rest (p1 p2 : ascii -> bool) (s : string) (v : N) (r : string) :
  In (v, r) (two_chars p1 p2 s) -> length s = (2 + length r)%nat.
Proof.
  unfold two_chars. destruct s as [|a [|b s]]; simpl; try tauto.
  destruct (p1 a && p2 b); simpl; try tauto.
  intros [H|[]]. injection H as _ <-. reflexivity.
Qed.

Lemma one_char_rest (p : ascii -> bool) (s : string) (v : N) (r : string) :
  In (v, r) (one_char p s) -> length s = (1 + length r)%nat.
Proof.
  unfold one_char. destruct s as [|a s]; simpl; try tauto.
  destruct (p a); simpl; try tauto.
  intros [H|[]]. injection H as _ <-. reflexivity.
Qed.

Lemma re_m_rest (s : string) (m : N) (r : string) :
  In (m, r) (re_m s) -> (1 + length r <= length s <= 2 + length r)%nat.
Proof.
  unfold re_m. rewrite !in_app_iff. intros [H|[H|H]].
  - apply two_chars_rest in H. lia.
  - apply two_chars_rest in H. lia.
  - apply one_char_rest in H. lia.
Qed.

Lemma re_d_rest (s : string) (d : N) (r : string) :
  In (d, r) (re_d s) -> (1 + length r <= length s <= 2 + length r)%nat.
Proof.
  unfold re_d. rewrite !in_app_iff. intros [H|[H|[H|[H|H]]]].
  - apply two_chars_rest in H. lia.
  - apply two_chars_rest in H. lia.
  - apply two_chars_rest in H. lia.
  - apply one_char_rest in H. lia.
  - destruct s as [|c s]; [destruct H|].
    destruct (Ascii.eqb c " "); [|destruct H].
    apply one_char_rest in H. simpl. lia.
Qed.

(** A text in which the pattern of a date is found has 8 to 10
    characters before what is left over. *)
Lemma match_Ymd_length (s : string) (y m d : N) (rest : string) :
  match_Ymd s = Some (y, m, d, rest) ->
  (8 + length rest <= length s <= 10 + length rest)%nat.
Proof.
  unfold match_Ymd.
  destruct s as [|y1 [|y2 [|y3 [|y4 [|c r]]]]]; try discriminate.
  destruct (is_digit y1 && is_digit y2 && is_digit y3 && is_digit y4 && Ascii.eqb c "-");
    [|discriminate].
  intro E. apply first_match_In in E. destruct E as ([m' r1] & Hin & Hk).
  destruct r1 as [|c' r2]; [discriminate|].
  destruct (Ascii.eqb c' "-"); [|discriminate].
  apply first_match_In in Hk. destruct Hk as ([d' r3] & Hin' & Hk).
  injection Hk as _ _ _ <-.
  apply re_m_rest in Hin. apply re_d_rest in Hin'. cbn [length] in *. lia.
Qed.

Lemma strptime_length (s : string) (dt : datetime) :
  strptime (Some s) = Ok dt -> (8 <= length s <= 10)%nat.
Proof.
  unfold strptime.
  destruct (match_Ymd s) as [[[[y m] d] rest]|] eqn:E; [|discriminate].
  destruct (truthy rest) eqn:Hr; [discriminate|]. intros _.
  apply truthy_false_iff in Hr. subst rest.
  apply match_Ymd_length in E. simpl in E. lia.
Qed.

(** The characters of a date are single bytes: what [match_Ymd] reads
    holds no continuation byte. *)
Lemma two_chars_plain (p1 p2 : ascii -> bool) (s : string) (v : N) (r : string) :
  (forall c, p1 c = true -> is_cont c = false) ->
  (forall c, p2 c = true -> is_cont c = false) ->
  In (v, r) (two_chars p1 p2 s) ->
  str_forall (fun c => negb (is_cont c)) r = true ->
  str_forall (fun c => negb (is_cont c)) s = true.
Proof.
  intros H1 H2. unfold two_chars. destruct s as [|a [|b s]]; simpl; try tauto.
  destruct (p1 a) eqn:Ea; [|simpl; tauto].
  destruct (p2 b) eqn:Eb; [|simpl; tauto].
  simpl. intros [H|[]] Hr. injection H as _ <-.
  now rewrite (H1 a Ea), (H2 b Eb), Hr.
Qed.

Lemma one_char_plain (p : ascii -> bool) (s : string) (v : N) (r : string) :
  (forall c, p c = true -> is_cont c = false) ->
  In (v, r) (one_char p s) ->
  str_forall (fun c => negb (is_cont c)) r = true ->
  str_forall (fun c => negb (is_cont c)) s = true.
Proof.
  intros H1. unfold one_char. destruct s as [|a s]; simpl; try tauto.
  destruct (p a) eqn:Ea; [|simpl; tauto].
  simpl. intros [H|[]] Hr. injection H as _ <-.
  now rewrite (H1 a Ea), Hr.
Qed.

Lemma char_in_plain (lo hi : ascii) (c : ascii) :
  is_ascii7 hi = true -> char_in lo hi c = true -> is_cont c = false.
Proof.
  intros Hhi H. unfold is_ascii7 in Hhi. apply Nat.ltb_lt in Hhi. unfold char_in in H. apply andb_true_iff in H. destruct H as [_ H].
  apply Nat.leb_le in H. unfold is_cont.
  destruct (Nat.leb_spec 128 (nat_of_ascii c)); [lia | reflexivity].
Qed.

Lemma eqb_plain (a c : ascii) :
  is_ascii7 a = true -> Ascii.eqb a c = true -> is_cont c = false.
Proof.
  intros Ha H. unfold is_ascii7 in Ha. apply Nat.ltb_lt in Ha. apply Ascii.eqb_eq in H. subst c. unfold is_cont.
  destruct (Nat.leb_spec 128 (nat_of_ascii a)); [lia | reflexivity].
Qed.

Lemma is_digit_plain (c : ascii) : is_digit c = true -> is_cont c = false.
Proof.
  unfold is_digit. intro H. apply andb_true_iff in H. destruct H as [_ H].
  apply Nat.leb_le in H. unfold is_cont.
  destruct (Nat.leb_spec 128 (nat_of_ascii c)); [lia | reflexivity].
Qed.

Ltac plain_class :=
  intros;
  first [ eapply char_in_plain; [|eassumption]; reflexivity
        | eapply eqb_plain; [|eassumption]; reflexivity
        | eapply is_digit_plain; eassumption ].

Lemma re_m_plain (s : string) (m : N) (r : string) :
  In (m, r) (re_m s) ->
  str_forall (fun c => negb (is_cont c)) r = true ->
  str_forall (fun c => negb (is_cont c)) s = true.
Proof.
  unfold re_m. rewrite !in_app_iff. intros [H|[H|H]].
  - eapply two_chars_plain; [| |exact H]; plain_class.
  - eapply two_chars_plain; [| |exact H]; plain_class.
  - eapply one_char_plain; [|exact H]; plain_class.
Qed.

Lemma re_d_plain (s : string) (d : N) (r : string) :
  In (d, r) (re_d s) ->
  str_forall (fun c => negb (is_cont c)) r = true ->
  str_forall (fun c => negb (is_cont c)) s = true.
Proof.
  unfold re_d. rewrite !in_app_iff. intros [H|[H|[H|[H|H]]]].
  - eapply two_chars_plain; [| |exact H]; plain_class.
  - eapply two_chars_plain; [| |exact H]; plain_class.
  - eapply two_chars_plain; [| |exact H]; plain_class.
  - eapply one_char_plain; [|exact H]; plain_class.
  - destruct s as [|c s]; [destruct H|].
    destruct (Ascii.eqb_spec c " ") as [->|_]; [|destruct H].
    intro Hr. cbn [str_forall]. rewrite andb_true_iff. split; [reflexivity|].
    revert Hr. eapply one_char_plain; [|exact H]. plain_class.
Qed.

Lemma match_Ymd_plain (s : string) (y m d : N) (rest : string) :
  match_Ymd s = Some (y, m, d, rest) ->
  str_forall (fun c => negb (is_cont c)) rest = true ->
  str_forall (fun c => negb (is_cont c)) s = true.
Proof.
  unfold match_Ymd.
  destruct s as [|y1 [|y2 [|y3 [|y4 [|c r]]]]]; try discriminate.
  destruct (is_digit y1) eqn:D1; [|discriminate].
  destruct (is_digit y2) eqn:D2; [|discriminate].
  destruct (is_digit y3) eqn:D3; [|discriminate].
  destruct (is_digit y4) eqn:D4; [|discriminate].
  destruct (Ascii.eqb_spec c "-") as [->|]; [|discriminate]. cbn [andb].
  intro E. apply first_match_In in E. destruct E as ([m' r1] & Hin & Hk).
  destruct r1 as [|c' r2]; [discriminate|].
  destruct (Ascii.eqb_spec c' "-") as [->|]; [|discriminate].
  apply first_match_In in Hk. destruct Hk as ([d' r3] & Hin' & Hk).
  injection Hk as _ _ _ <-. intro Hr.
  apply (@re_d_plain _ _ _ Hin') in Hr.
  assert (Hr1 : str_forall (fun c => negb (is_cont c)) (String "-" r2) = true)
    by (cbn [str_forall]; now rewrite Hr).
  apply (@re_m_plain _ _ _ Hin) in Hr1.
  cbn [str_forall].
  now rewrite (@is_digit_plain _ D1), (@is_digit_plain _ D2), (@is_digit_plain _ D3),
              (@is_digit_plain _ D4), Hr1.
Qed.

Lemma strptime_plain (s : string) (dt : datetime) :
  strptime (Some s) = Ok dt -> str_forall (fun c => negb (is_cont c)) s = true.
Proof.
  unfold strptime.
  destruct (match_Ymd s) as [[[[y m] d] rest]|] eqn:E; [|discriminate].
  destruct (truthy rest) eqn:Hr; [discriminate|]. intros _.
  apply truthy_false_iff in Hr. subst rest.
  now apply (@match_Ymd_plain _ _ _ _ _ E).
Qed.

(** A date that is read has 8 to 10 characters. *)
Lemma strptime_len (s : string) (dt : datetime) :
  strptime (Some s) = Ok dt -> (8 <= len s <= 10)%nat.
Proof.
  intro H. rewrite (@len_plain _ (@strptime_plain _ _ H)). exact (@strptime_length _ _ H).
Qed.

Lemma strptime_raises (date_str : option string) (e : exn) :
  strptime date_str = Raise e ->
  match date_str with
  | None => e = TypeError_strptime
  | Some _ => e = ValueError_strptime
  end.
Proof.
  unfold strptime. destruct date_str as [s|]; [|intro H; now injection H].
  destruct (match_Ymd s) as [[[[y m] d] rest]|]; [|intro H; now injection H].
  destruct (truthy rest); [intro H; now injection H|].
  destruct ((y =? 0)%N || (days_in_month y m <? d)%N);
    [intro H; now injection H | discriminate].
Qed.

Lemma strftime_ymd_digits (dt : datetime) :
  str_forall is_digit (strftime_ymd dt) = true.
Proof.
  unfold strftime_ymd. now rewrite !str_forall_app, !pad2_digits.
Qed.

Lemma fmt_dates_shape_aux (date_str : string) :
  (forall out : string,
     fmt_yyMMdd (Some date_str) = Ok out ->
     (8 <= len date_str <= 10)%nat /\
     length out = 6%nat /\
     str_forall is_digit out = true /\
     fmt_MMDD (Some date_str) = Ok (drop 2 out)) /\
  ((len date_str < 8)%nat \/ (10 < len date_str)%nat ->
   fmt_yyMMdd (Some date_str) = Raise ValueError_strptime /\
   fmt_MMDD (Some date_str) = Raise ValueError_strptime) /\
  fmt_yyMMdd None = Raise TypeError_strptime /\
  fmt_MMDD None = Raise TypeError_strptime.
Proof.
  split; [|split; [|split; reflexivity]].
  - intros out H. unfold fmt_yyMMdd, fmt_MMDD in *.
    destruct (strptime (Some date_str)) as [dt|] eqn:E; [|discriminate].
    cbn [bind] in *. injection H as <-.
    destruct (@strptime_ymd_length _ _ E) as [L6 L4].
    split; [exact (@strptime_len _ _ E)|].
    split; [exact L6|]. split; [apply strftime_ymd_digits|].
    f_equal. unfold strftime_ymd, strftime_md.
    assert (L2 : length (pad2 (year dt mod 100)) = 2%nat)
      by (apply pad2_length, N.mod_lt; lia).
    rewrite <- L2 at 1. now rewrite drop_app_length.
  - intro Hlen. unfold fmt_yyMMdd, fmt_MMDD.
    destruct (strptime (Some date_str)) as [dt|e] eqn:E.
    + apply strptime_len in E. lia.
    + apply strptime_raises in E. subst e. split; reflexivity.
Qed.

(** X8.  A date that the converter accepts is a text of 8 to 10
    characters; [fmt_yyMMdd] makes six digits of it, and [fmt_MMDD]
    returns the last four of them.  A text of fewer than 8 or more than
    10 characters, such as a date with a time of day, is refused with
    ValueError, and [None] with TypeError. *)
Theorem fmt_dates_shape (date_str : string) :
  (forall out : string,
     fmt_yyMMdd (Some date_str) = Ok out ->
     (8 <= len date_str <= 10)%nat /\
     length out = 6%nat /\
     str_forall is_digit out = true /\
     fmt_MMDD (Some date_str) = Ok (drop 2 out)) /\
  ((len date_str < 8)%nat \/ (10 < len date_str)%nat ->
   fmt_yyMMdd (Some date_str) = Raise ValueError_strptime /\
   fmt_MMDD (Some date_str) = Raise ValueError_strptime) /\
  fmt_yyMMdd None = Raise TypeError_strptime /\
  fmt_MMDD None = Raise TypeError_strptime.
Proof. apply fmt_dates_shape_aux. Qed.

Lemma fmt_dates_shape_witness :
  ((8 <= len "2024-01-15" <= 10)%nat /\
   length "240115" = 6%nat /\
   str_forall is_digit "240115" = true /\
   fmt_MMDD (Some "2024-01-15") = Ok (drop 2 "240115")) /\
  (fmt_yyMMdd (Some "2024-01-15 10:30:00") = Raise ValueError_strptime /\
   fmt_MMDD (Some "2024-01-15 10:30:00") = Raise ValueError_strptime).
Proof.
  split.
  - apply (proj1 (fmt_dates_shape "2024-01-15") "240115"). reflexivity.
  - apply (proj1 (proj2 (fmt_dates_shape "2024-01-15 10:30:00"))).
    right. vm_compute. lia.
Defined.

(** X9.  The opening date is required: when the last row has no field
    Date completed (UTC) the conversion raises KeyError, when the field
    is there without a value (a row cut short) it raises TypeError, and
    when its text has fewer than 8 or more than 10 characters it raises
    ValueError; nothing else of the rows is looked at, and no other date
    field stands in for it. *)
Theorem opening_date_is_required (rows : list dict) (iban : string)
  (first_record : dict) :
  hd_error rows = Some first_record ->
  (dict_getitem (last rows first_record) DATE_COMPLETED = Raise (KeyError DATE_COMPLETED) ->
   mt940_lines rows iban = Raise (KeyError DATE_COMPLETED)) /\
  (dict_getitem (last rows first_record) DATE_COMPLETED = Ok None ->
   mt940_lines rows iban = Raise TypeError_strptime) /\
  (forall s : string,
     dict_getitem (last rows first_record) DATE_COMPLETED = Ok (Some s) ->
     (len s < 8)%nat \/ (10 < len s)%nat ->
     mt940_lines rows iban = Raise ValueError_strptime).
Proof.
  destruct rows as [|r0 rest]; [discriminate|].
  intro H; injection H as <-. unfold mt940_lines.
  split; [|split].
  - intros ->. reflexivity.
  - intros ->. reflexivity.
  - intros s -> Hlen. cbn [bind].
    pose proof (proj1 (proj2 (fmt_dates_shape_aux s)) Hlen) as [E _].
    rewrite E. reflexivity.
Qed.

Lemma opening_date_is_required_witness :
  hd_error [mkdict [("Date started (UTC)", Some "2024-01-15")] None]
    = Some (mkdict [("Date started (UTC)", Some "2024-01-15")] None) /\
  mt940_lines [mkdict [("Date started (UTC)", Some "2024-01-15")] None] sample_iban
    = Raise (KeyError DATE_COMPLETED).
Proof.
  assert (H : hd_error [mkdict [("Date started (UTC)", Some "2024-01-15")] None]
              = Some (mkdict [("Date started (UTC)", Some "2024-01-15")] None))
    by reflexivity.
  split; [exact H|].
  apply (proj1 (@opening_date_is_required _ sample_iban _ H)). reflexivity.
Defined.

(* ================================================================== *)
(** * Rows of the DictReader: columns by name                         *)
(* ================================================================== *)

From Stdlib Require Import Permutation.

Section DictItems.

Lemma fold_dict_set_items {A : Type} (key : A -> string) (val : A -> option string)
  (l : list A) : forall d : dict,
  items (fold_left (fun d a => dict_set d (key a) (val a)) l d)
  = rev (map (fun a => (key a, val a)) l) ++ items d.
Proof.
  induction l as [|a l IH]; intro d; [reflexivity|].
  cbn [fold_left map rev]. rewrite IH. cbn [dict_set items].
  rewrite <- app_assoc. reflexivity.
Qed.

(** The named entries of a row: the fields the row lacks, without value,
    before the pairs of the names and the fields, the last pair first. *)
Lemma DictReader_row_items (fieldnames row : list string) :
  items (DictReader_row fieldnames row)
  = rev (map (fun k => (k, @None string)) (skipn (List.length row) fieldnames))
    ++ rev (map (fun kv => (fst kv, Some (snd kv))) (combine fieldnames row)).
Proof.
  unfold DictReader_row, dict_zip.
  pose proof (fold_dict_set_items (@fst string string) (fun kv => Some (snd kv))
                (combine fieldnames row) (mkdict [] None)) as Hz.
  cbn [items] in Hz. rewrite app_nil_r in Hz.
  destruct (Nat.ltb_spec (List.length fieldnames) (List.length row)) as [Hlt|Hge].
  - cbn [items]. rewrite Hz, skipn_all2 by lia. reflexivity.
  - destruct (Nat.ltb_spec (List.length row) (List.length fieldnames)) as [Hlt|Hge'].
    + rewrite (fold_dict_set_items (fun k => k) (fun _ => None)), Hz. reflexivity.
    + rewrite Hz, skipn_all2 by lia. reflexivity.
Qed.

Lemma map_fst_combine (f r : list string) :
  map fst (combine f r) = firstn (List.length r) f.
Proof.
  revert r; induction f as [|k f IH]; intros [|x r]; simpl; auto.
  now rewrite IH.
Qed.

Lemma DictReader_row_keys (fieldnames row : list string) :
  Permutation (map fst (items (DictReader_row fieldnames row))) fieldnames.
Proof.
  rewrite DictReader_row_items, map_app, !map_rev, !map_map. cbn [fst].
  rewrite map_id.
  change (map (fun x : string * string => fst x) (combine fieldnames row))
    with (map fst (combine fieldnames row)).
  rewrite map_fst_combine.
  rewrite <- (firstn_skipn (List.length row) fieldnames) at 3.
  rewrite Permutation_app_comm.
  apply Permutation_app; symmetry; apply Permutation_rev.
Qed.

Lemma assoc_In (k : string) (l : list (string * option string)) (v : option string) :
  assoc k l = Some v -> In (k, v) l.
Proof.
  induction l as [|[k' v'] l IH]; simpl; [discriminate|].
  destruct (String.eqb_spec k' k) as [->|Hne].
  - intro H; injection H as <-. now left.
  - intro H. right. auto.
Qed.

Lemma assoc_NoDup (k : string) (l : list (string * option string)) (v : option string) :
  NoDup (map fst l) -> In (k, v) l -> assoc k l = Some v.
Proof.
  induction l as [|[k' v'] l IH]; simpl; [tauto|].
  intros Hnd [H|H].
  - injection H as -> ->. now rewrite String.eqb_refl.
  - inversion Hnd as [|? ? Hk' Hnd']; subst.
    destruct (String.eqb_spec k' k) as [->|Hne]; [|auto].
    exfalso. apply Hk'. apply in_map_iff. exists (k, v). auto.
Qed.

Lemma assoc_absent (k : string) (l : list (string * option string)) :
  ~ In k (map fst l) -> assoc k l = None.
Proof.
  intro H. destruct (assoc k l) as [v|] eqn:E; [|reflexivity].
  exfalso. apply H. apply assoc_In in E. apply in_map_iff. exists (k, v). auto.
Qed.

Lemma nth_error_combine (f r : list string) (i : nat) (k x : string) :
  nth_error f i = Some k -> nth_error r i = Some x -> In (k, x) (combine f r).
Proof.
  revert r i; induction f as [|k' f IH]; intros [|x' r] [|i]; simpl; try discriminate.
  - intros H1 H2. injection H1 as ->. injection H2 as ->. now left.
  - intros H1 H2. right. eauto.
Qed.

Lemma nth_error_skipn_In (f : list string) (n i : nat) (k : string) :
  nth_error f i = Some k -> (n <= i)%nat -> In k (skipn n f).
Proof.
  revert n i; induction f as [|k' f IH]; intros n i; [now destruct i|].
  destruct n as [|n]; intros H Hle.
  - cbn [skipn]. eapply nth_error_In; eassumption.
  - destruct i as [|i]; [lia|]. cbn [skipn]. simpl in H. apply (IH n i); [exact H | lia].
Qed.

(** The entry of the [i]-th name is the [i]-th field of the row, or no
    value when the row is too short. *)
Lemma DictReader_row_assoc (fieldnames row : list string) (i : nat) (k : string) :
  NoDup fieldnames -> nth_error fieldnames i = Some k ->
  assoc k (items (DictReader_row fieldnames row)) = Some (nth_error row i).
Proof.
  intros Hnd Hk. apply assoc_NoDup.
  - eapply Permutation_NoDup; [symmetry; apply DictReader_row_keys | exact Hnd].
  - rewrite DictReader_row_items. apply in_or_app.
    destruct (nth_error row i) as [x|] eqn:Ex.
    + right. apply in_rev. rewrite rev_involutive.
      apply in_map_iff. exists (k, x). split; [reflexivity|].
      eapply nth_error_combine; eassumption.
    + left. apply in_rev. rewrite rev_involutive.
      apply in_map_iff. exists k. split; [reflexivity|].
      apply nth_error_None in Ex. eapply nth_error_skipn_In; eassumption.
Qed.

Lemma DictReader_row_assoc_absent (fieldnames row : list string) (k : string) :
  ~ In k fieldnames -> assoc k (items (DictReader_row fieldnames row)) = None.
Proof.
  intro H. apply assoc_absent. intro Hin. apply H.
  eapply Permutation_in; [apply DictReader_row_keys | exact Hin].
Qed.

End DictItems.

(** X10.  Columns go by name: under a header without repeated names, the
    value of the [i]-th name in the dict of a row is the [i]-th field of
    the row, and no value when the row has no such field; a name that is
    not in the header has no entry.  Fields beyond the header never show
    under a name. *)
Theorem DictReader_row_by_name (fieldnames row : list string) :
  NoDup fieldnames ->
  (forall (i : nat) (k : string),
     nth_error fieldnames i = Some k ->
     dict_get (DictReader_row fieldnames row) k = nth_error row i /\
     dict_getitem (DictReader_row fieldnames row) k = Ok (nth_error row i)) /\
  (forall k : string,
     ~ In k fieldnames ->
     dict_get (DictReader_row fieldnames row) k = None /\
     dict_getitem (DictReader_row fieldnames row) k = Raise (KeyError k)).
Proof.
  intro Hnd. split.
  - intros i k Hk. unfold dict_get, dict_getitem.
    rewrite DictReader_row_assoc with (i := i) by assumption. split; reflexivity.
  - intros k Hk. unfold dict_get, dict_getitem.
    rewrite DictReader_row_assoc_absent by assumption. split; reflexivity.
Qed.

Lemma DictReader_row_by_name_witness :
  NoDup ["Amount"; "Balance"; "ID"] /\
  (forall (i : nat) (k : string),
     nth_error ["Amount"; "Balance"; "ID"] i = Some k ->
     dict_get (DictReader_row ["Amount"; "Balance"; "ID"] ["5"; "10"]) k
     = nth_error ["5"; "10"] i /\
     dict_getitem (DictReader_row ["Amount"; "Balance"; "ID"] ["5"; "10"]) k
     = Ok (nth_error ["5"; "10"] i)) /\
  (forall k : string,
     ~ In k ["Amount"; "Balance"; "ID"] ->
     dict_get (DictReader_row ["Amount"; "Balance"; "ID"] ["5"; "10"]) k = None /\
     dict_getitem (DictReader_row ["Amount"; "Balance"; "ID"] ["5"; "10"]) k
     = Raise (KeyError k)).
Proof.
  assert (H : NoDup ["Amount"; "Balance"; "ID"]).
  { repeat constructor; simpl; intuition discriminate. }
  split; [exact H|].
  apply (@DictReader_row_by_name ["Amount"; "Balance"; "ID"] ["5"; "10"] H).
Defined.

(* ================================================================== *)
(** * The statement and the columns                                   *)
(* ================================================================== *)

Lemma cols_agree_accessors (d d' : dict) :
  cols_agree d d' ->
  forall k : string, In k used_columns ->
    dict_get d k = dict_get d' k /\
    dict_getitem d k = dict_getitem d' k /\
    (forall v, dict_get_default d k v = dict_get_default d' k v).
Proof.
  intros H k Hk. unfold dict_get, dict_getitem, dict_get_default.
  rewrite (H k Hk). repeat split.
Qed.

Ltac used_column := unfold used_columns; simpl; auto 20.

(** Rewrites the look-ups in [d] that are not under a binder, [G] being
    [cols_agree_accessors] for [d]. *)
Ltac rew_cols d G :=
  repeat match goal with
  | |- context [dict_get d ?k] =>
      rewrite (proj1 (G k ltac:(used_column)))
  | |- context [dict_getitem d ?k] =>
      rewrite (proj1 (proj2 (G k ltac:(used_column))))
  | |- context [dict_get_default d ?k ?v] =>
      rewrite (proj2 (proj2 (G k ltac:(used_column))) v)
  end.

Lemma tx_body_used_columns (currency : string) (first_row first_row' tx tx' : dict)
  (lines : list string) :
  cols_agree first_row first_row' -> cols_agree tx tx' ->
  tx_body currency first_row tx lines = tx_body currency first_row' tx' lines.
Proof.
  intros Hf Ht.
  pose proof (cols_agree_accessors Hf) as Gf.
  pose proof (cols_agree_accessors Ht) as Gt.
  unfold tx_body. cbv zeta.
  repeat (rew_cols tx Gt; rew_cols first_row Gf;
          first [apply bind_ext; intro | reflexivity]).
Qed.

Lemma for_each_used_columns (currency : string) (first_row first_row' : dict)
  (txs txs' : list dict) :
  cols_agree first_row first_row' ->
  Forall2 cols_agree txs txs' ->
  forall lines,
    for_each txs (tx_body currency first_row) lines
    = for_each txs' (tx_body currency first_row') lines.
Proof.
  intros Hf. induction 1 as [|d d' l l' Hd _ IH]; intro lines; [reflexivity|].
  cbn [for_each].
  rewrite tx_body_used_columns with (first_row' := first_row') (tx' := d') by assumption.
  destruct (tx_body currency first_row' d' lines); cbn [bind]; auto.
Qed.

Lemma mt940_lines_used_columns (rows rows' : list dict) (iban : string) :
  Forall2 cols_agree rows rows' ->
  mt940_lines rows iban = mt940_lines rows' iban.
Proof.
  intro HF. destruct HF as [|r0 r0' rest rest' H0 Hrest]; [reflexivity|].
  assert (HF : Forall2 cols_agree (r0 :: rest) (r0' :: rest')) by now constructor.
  pose proof (@Forall2_last dict cols_agree _ _ r0 r0' H0 HF) as HL.
  unfold mt940_lines.
  set (fr := last (r0 :: rest) r0) in *. set (fr' := last (r0' :: rest') r0') in *.
  pose proof (cols_agree_accessors HL) as GL.
  pose proof (cols_agree_accessors H0) as G0.
  assert (G5 : statement_currency r0 fr = statement_currency r0' fr').
  { unfold statement_currency. rew_cols r0 G0. rew_cols fr GL. reflexivity. }
  assert (G6 : forall lines,
             for_each (rev (r0 :: rest)) (tx_body (statement_currency r0' fr') fr) lines
             = for_each (rev (r0' :: rest')) (tx_body (statement_currency r0' fr') fr') lines)
    by (intro lines; apply for_each_used_columns; [exact HL | now apply Forall2_rev]).
  clearbody fr fr'. cbv zeta.
  rewrite G5.
  repeat (rew_cols r0 G0; rew_cols fr GL; rewrite ?G6;
          first [apply bind_ext; intro | reflexivity]).
Qed.

(** X11.  The statement depends on eleven columns of the rows and on
    nothing else: two lists of rows that agree, row by row, on the
    entries of the used columns give the same statement, or the same
    exception. *)
Theorem statement_reads_used_columns_only (rows rows' : list dict) (iban : string) :
  Forall2 cols_agree rows rows' ->
  mt940_lines rows iban = mt940_lines rows' iban.
Proof. apply mt940_lines_used_columns. Qed.

Lemma statement_reads_used_columns_only_witness :
  Forall2 cols_agree
    [mkdict [("Date completed (UTC)", Some "2024-01-15")] None]
    [mkdict [("Note", Some "n"); ("Date completed (UTC)", Some "2024-01-15")]
            (Some ["x"])] /\
  mt940_lines [mkdict [("Date completed (UTC)", Some "2024-01-15")] None] sample_iban
  = mt940_lines
      [mkdict [("Note", Some "n"); ("Date completed (UTC)", Some "2024-01-15")]
              (Some ["x"])] sample_iban.
Proof.
  assert (H : Forall2 cols_agree
                [mkdict [("Date completed (UTC)", Some "2024-01-15")] None]
                [mkdict [("Note", Some "n"); ("Date completed (UTC)", Some "2024-01-15")]
                        (Some ["x"])]).
  { repeat constructor. intros k Hk. unfold used_columns in Hk. simpl in Hk.
    repeat (destruct Hk as [<-|Hk]; [reflexivity|]). destruct Hk. }
  split; [exact H|].
  apply (@statement_reads_used_columns_only _ _ sample_iban H).
Defined.

Lemma Forall_last {A : Type} (P : A -> Prop) (l : list A) (a : A) :
  P a -> Forall P l -> P (last l a).
Proof.
  intros Ha. induction 1 as [|x l Hx HF IH]; [exact Ha|].
  destruct l; [exact Hx | exact IH].
Qed.

(** X12.  Without a column named Date completed (UTC) in the header
    every input with a data row is refused with KeyError, whatever its
    other columns, Date started (UTC) included. *)
Theorem missing_date_column_raises_KeyError (fieldnames : list string)
  (rows : list (list string)) (iban : string) :
  ~ In DATE_COMPLETED fieldnames ->
  DictReader (fieldnames :: rows) <> [] ->
  mt940_lines (DictReader (fieldnames :: rows)) iban = Raise (KeyError DATE_COMPLETED).
Proof.
  intros Hk Hne.
  assert (HF : Forall (fun d => dict_getitem d DATE_COMPLETED
                                = Raise (KeyError DATE_COMPLETED))
                      (DictReader (fieldnames :: rows))).
  { cbn [DictReader]. apply Forall_map, Forall_forall. intros r _.
    unfold dict_getitem. now rewrite DictReader_row_assoc_absent. }
  destruct (DictReader (fieldnames :: rows)) as [|r0 rest] eqn:E; [congruence|].
  unfold mt940_lines.
  pose proof (@Forall_last dict _ (r0 :: rest) r0 (Forall_inv HF) HF) as HL.
  cbv beta in HL. rewrite HL. reflexivity.
Qed.

Lemma missing_date_column_raises_KeyError_witness :
  ~ In DATE_COMPLETED ["Date started (UTC)"; "Amount"] /\
  DictReader [["Date started (UTC)"; "Amount"]; ["2024-01-15"; "5"]] <> [] /\
  mt940_lines (DictReader [["Date started (UTC)"; "Amount"]; ["2024-01-15"; "5"]])
              sample_iban
  = Raise (KeyError DATE_COMPLETED).
Proof.
  assert (H1 : ~ In DATE_COMPLETED ["Date started (UTC)"; "Amount"])
    by (simpl; intuition discriminate).
  assert (H2 : DictReader [["Date started (UTC)"; "Amount"]; ["2024-01-15"; "5"]] <> [])
    by discriminate.
  split; [exact H1|]. split; [exact H2|].
  apply (@missing_date_column_raises_KeyError _ _ sample_iban H1 H2).
Defined.

(** Rows that hold the same fields under the same names, the columns in
    any order. *)
Lemma DictReader_row_reordered (h h' r r' : list string) :
  NoDup h -> NoDup h' ->
  (forall k, In k h <-> In k h') ->
  (forall i i' k, nth_error h i = Some k -> nth_error h' i' = Some k ->
                  nth_error r i = nth_error r' i') ->
  forall k, assoc k (items (DictReader_row h r)) = assoc k (items (DictReader_row h' r')).
Proof.
  intros Hnd Hnd' Hsame Hcol k.
  destruct (in_dec string_dec k h) as [Hin|Hout].
  - destruct (In_nth_error _ _ Hin) as [i Hi].
    destruct (In_nth_error _ _ (proj1 (Hsame k) Hin)) as [i' Hi'].
    rewrite DictReader_row_assoc with (i := i) by assumption.
    rewrite DictReader_row_assoc with (i := i') by assumption.
    f_equal. eapply Hcol; eassumption.
  - rewrite !DictReader_row_assoc_absent; [reflexivity | | exact Hout].
    intro Hin'. apply Hout, Hsame, Hin'.
Qed.

(** X13.  The order of the columns does not matter: two tables whose
    headers hold the same names, none repeated, and whose rows hold the
    same fields under the same names, give the same statement. *)
Theorem column_order_does_not_matter (h h' : list string)
  (rows rows' : list (list string)) (iban : string) :
  NoDup h -> NoDup h' ->
  (forall k, In k h <-> In k h') ->
  Forall2 (fun r r' =>
             (r = [] <-> r' = []) /\
             forall i i' k, nth_error h i = Some k -> nth_error h' i' = Some k ->
                            nth_error r i = nth_error r' i') rows rows' ->
  mt940_lines (DictReader (h :: rows)) iban = mt940_lines (DictReader (h' :: rows')) iban.
Proof.
  intros Hnd Hnd' Hsame HF. apply mt940_lines_used_columns.
  cbn [DictReader].
  induction HF as [|r r' l l' [Hblank Hcol] _ IH]; [constructor|].
  cbn [filter].
  assert (B : is_blank_row r' = is_blank_row r).
  { destruct r, r'; try reflexivity.
    - destruct Hblank as [Hb _]. specialize (Hb eq_refl). discriminate.
    - destruct Hblank as [_ Hb]. specialize (Hb eq_refl). discriminate. }
  rewrite B. destruct (is_blank_row r); cbn [negb map]; [exact IH|].
  constructor; [|exact IH].
  intros k _. now apply DictReader_row_reordered.
Qed.

Lemma column_order_does_not_matter_witness :
  NoDup ["Date completed (UTC)"; "Balance"] /\
  NoDup ["Balance"; "Date completed (UTC)"] /\
  (forall k, In k ["Date completed (UTC)"; "Balance"]
             <-> In k ["Balance"; "Date completed (UTC)"]) /\
  mt940_lines (DictReader [["Date completed (UTC)"; "Balance"]; ["2024-01-15"; "10"]])
              sample_iban
  = mt940_lines (DictReader [["Balance"; "Date completed (UTC)"]; ["10"; "2024-01-15"]])
                sample_iban.
Proof.
  assert (H1 : NoDup ["Date completed (UTC)"; "Balance"])
    by (repeat constructor; simpl; intuition discriminate).
  assert (H2 : NoDup ["Balance"; "Date completed (UTC)"])
    by (repeat constructor; simpl; intuition discriminate).
  assert (H3 : forall k, In k ["Date completed (UTC)"; "Balance"]
                         <-> In k ["Balance"; "Date completed (UTC)"])
    by (intro k; simpl; tauto).
  split; [exact H1|]. split; [exact H2|]. split; [exact H3|].
  apply (@column_order_does_not_matter _ _ [["2024-01-15"; "10"]] [["10"; "2024-01-15"]]
           sample_iban H1 H2 H3).
  constructor; [|constructor].
  split; [split; discriminate|].
  intros [|[|i]] [|[|i']] k; simpl; intros Hi Hi'; try discriminate;
    try (destruct i; discriminate); try (destruct i'; discriminate);
    try reflexivity;
    injection Hi as <-; discriminate Hi'.
Defined.

(* ================================================================== *)
(** * The size of the statement; balances                             *)
(* ================================================================== *)

Lemma description_lines_length (chunks : list string) :
  List.length (description_lines [] chunks) = Nat.min 3 (List.length chunks).
Proof. destruct chunks as [|a [|b [|c r]]]; reflexivity. Qed.

Lemma tx_block_length (currency : string) (first_row tx : dict) (block : list string) :
  tx_block currency first_row tx = Ok block ->
  exists chunks : list string,
    _split_text_chunks (tx_description tx) 35 = Ok chunks /\
    List.length block
    = (5 + (if truthy (tx_reference tx) then 1 else 0)
         + Nat.min 3 (List.length chunks)
         + (if truthy (tx_ben_iban tx) then 1 else 0))%nat.
Proof.
  intro H. apply tx_body_inv in H.
  destruct H as (date & dt & neg & aa & astr & chunks & _ & _ & _ & _ & _ & Hch & ->).
  exists chunks. split; [exact Hch|].
  unfold tx_sub_lines. cbn [app List.length].
  rewrite !length_app, description_lines_length.
  destruct (truthy (tx_reference tx)), (truthy (tx_ben_iban tx)); cbn [List.length]; lia.
Qed.

Lemma concat_length_bounds (lo hi : nat) (blocks : list (list string)) :
  Forall (fun b => (lo <= List.length b <= hi)%nat) blocks ->
  (lo * List.length blocks <= List.length (List.concat blocks)
   <= hi * List.length blocks)%nat.
Proof.
  induction 1 as [|b bs Hb _ IH]; [simpl; lia|].
  cbn [List.concat List.length]. rewrite length_app. lia.
Qed.

(** X14.  The size of the list of lines that is joined into the
    statement: a block has five entries, one more for a reference that is
    not empty after trimming, one for each description chunk up to three
    and one more for a beneficiary that is not empty after trimming, so
    between five and ten; the list has seven entries around its blocks,
    so between [7 + 5n] and [7 + 10n] entries for [n] rows.  An entry is
    one line of the text unless a field of the row holds a line feed. *)
Theorem statement_line_count (rows : list dict) (iban : string) (lines : list string) :
  mt940_lines rows iban = Ok lines ->
  (7 + 5 * List.length rows <= List.length lines <= 7 + 10 * List.length rows)%nat /\
  exists blocks : list (list string),
    List.length blocks = List.length rows /\
    List.length lines = (7 + List.length (List.concat blocks))%nat /\
    Forall2 (fun tx block =>
               exists chunks : list string,
                 _split_text_chunks (tx_description tx) 35 = Ok chunks /\
                 List.length block
                 = (5 + (if truthy (tx_reference tx) then 1 else 0)
                      + Nat.min 3 (List.length chunks)
                      + (if truthy (tx_ben_iban tx) then 1 else 0))%nat)
            (rev rows) blocks.
Proof.
  intro H. apply mt940_lines_inv in H.
  destruct H as (rows_0 & rest & d1 & dt1 & d2 & dt2 & ostr & cstr & blocks
                 & -> & _ & _ & _ & _ & _ & _ & HF & ->).
  assert (HL : List.length blocks = List.length (rows_0 :: rest)).
  { apply Forall2_length in HF. now rewrite length_rev in HF. }
  assert (HB : Forall2 (fun tx block =>
               exists chunks : list string,
                 _split_text_chunks (tx_description tx) 35 = Ok chunks /\
                 List.length block
                 = (5 + (if truthy (tx_reference tx) then 1 else 0)
                      + Nat.min 3 (List.length chunks)
                      + (if truthy (tx_ben_iban tx) then 1 else 0))%nat)
            (rev (rows_0 :: rest)) blocks).
  { eapply Forall2_impl; [|exact HF]. intros tx b Hb. simpl in Hb.
    eapply tx_block_length. exact Hb. }
  assert (Hbounds : Forall (fun b => (5 <= List.length b <= 10)%nat) blocks).
  { eapply Forall2_Forall_r; [|exact HB].
    intros tx b (chunks & _ & ->).
    destruct (truthy (tx_reference tx)), (truthy (tx_ben_iban tx)); lia. }
  apply concat_length_bounds in Hbounds.
  assert (Hlen : List.length
            ([":20:MT940"; (":25:/" ++ replace " " "" iban)%string; ":28C:1";
              (":60F:C" ++ strftime_ymd dt1
                 ++ statement_currency rows_0 (last (rows_0 :: rest) rows_0)
                 ++ ostr)%string]
             ++ List.concat blocks
             ++ [(":62F:C" ++ strftime_ymd dt2
                    ++ statement_currency rows_0 (last (rows_0 :: rest) rows_0)
                    ++ cstr)%string;
                 (":64:C" ++ strftime_ymd
                               (mkdatetime (year dt1) (month dt1)
                                           (days_in_month (year dt1) (month dt1)))
                    ++ statement_currency rows_0 (last (rows_0 :: rest) rows_0)
                    ++ cstr)%string;
                 "-"])
          = (7 + List.length (List.concat blocks))%nat).
  { rewrite !length_app. cbn [List.length]. lia. }
  split; [rewrite Hlen, <- HL; lia|].
  exists blocks. split; [exact HL|]. split; [exact Hlen | exact HB].
Qed.

Lemma statement_line_count_witness :
  mt940_lines sample_rows sample_iban = Ok sample_lines /\
  (7 + 5 * List.length sample_rows <= List.length sample_lines
   <= 7 + 10 * List.length sample_rows)%nat /\
  exists blocks : list (list string),
    List.length blocks = List.length sample_rows /\
    List.length sample_lines = (7 + List.length (List.concat blocks))%nat /\
    Forall2 (fun tx block =>
               exists chunks : list string,
                 _split_text_chunks (tx_description tx) 35 = Ok chunks /\
                 List.length block
                 = (5 + (if truthy (tx_reference tx) then 1 else 0)
                      + Nat.min 3 (List.length chunks)
                      + (if truthy (tx_ben_iban tx) then 1 else 0))%nat)
            (rev sample_rows) blocks.
Proof.
  assert (H : mt940_lines sample_rows sample_iban = Ok sample_lines)
    by (vm_compute; reflexivity).
  split; [exact H|].
  apply (@statement_line_count sample_rows sample_iban sample_lines H).
Defined.

(** X15.  A statement of one row opens and closes alike: the lines of
    the opening and of the closing balance carry the same date and the
    same amount, those of the one row. *)
Theorem single_row_opens_and_closes_alike (row : dict) (iban : string)
  (lines : list string) :
  mt940_lines [row] iban = Ok lines ->
  exists (date amount available_date : string) (block : list string),
    (exists d, dict_getitem row DATE_COMPLETED = Ok d /\ fmt_yyMMdd d = Ok date) /\
    _fmt_amount (parse_decimal (dict_get_default row "Balance" "0")) = Ok amount /\
    tx_block (statement_currency row row) row row = Ok block /\
    lines =
      [":20:MT940"; (":25:/" ++ replace " " "" iban)%string; ":28C:1";
       (":60F:C" ++ date ++ statement_currency row row ++ amount)%string]
      ++ block
      ++ [(":62F:C" ++ date ++ statement_currency row row ++ amount)%string;
          (":64:C" ++ available_date ++ statement_currency row row ++ amount)%string;
          "-"].
Proof.
  intro H. apply mt940_lines_inv in H.
  destruct H as (rows_0 & rest & d1 & dt1 & d2 & dt2 & ostr & cstr & blocks
                 & E & Hd1 & Hs1 & Hd2 & Hs2 & Ho & Hc & HF & ->).
  injection E as <- <-. cbn [last rev app] in *.
  rewrite Hd1 in Hd2. injection Hd2 as <-. rewrite Hs1 in Hs2. injection Hs2 as <-.
  rewrite Ho in Hc. injection Hc as <-.
  inversion HF as [|? block ? bs Hb HF']; subst. inversion HF'; subst.
  exists (strftime_ymd dt1), ostr,
         (strftime_ymd (mkdatetime (year dt1) (month dt1)
                                   (days_in_month (year dt1) (month dt1)))),
         block.
  split; [exists d1; split; [exact Hd1 | unfold fmt_yyMMdd; now rewrite Hs1]|].
  split; [exact Ho|]. split; [exact Hb|].
  cbn [List.concat]. now rewrite app_nil_r.
Qed.

Lemma single_row_opens_and_closes_alike_witness :
  mt940_lines usdt_rows sample_iban
    = Ok [":20:MT940"; ":25:/DE1234"; ":28C:1"; ":60F:C240115USDT987,50";
          ":61:2401150115D12,50N119NONREF//"; "119 0"; ":86:020~00119";
          "~60USDT"; "~63USDT";
          ":62F:C240115USDT987,50"; ":64:C240131USDT987,50"; "-"] /\
  exists (date amount available_date : string) (block : list string),
    (exists d, dict_getitem (hd (mkdict [] None) usdt_rows) DATE_COMPLETED = Ok d
               /\ fmt_yyMMdd d = Ok date) /\
    _fmt_amount (parse_decimal
                   (dict_get_default (hd (mkdict [] None) usdt_rows) "Balance" "0"))
      = Ok amount /\
    tx_block (statement_currency (hd (mkdict [] None) usdt_rows)
                                 (hd (mkdict [] None) usdt_rows))
             (hd (mkdict [] None) usdt_rows) (hd (mkdict [] None) usdt_rows)
      = Ok block /\
    [":20:MT940"; ":25:/DE1234"; ":28C:1"; ":60F:C240115USDT987,50";
     ":61:2401150115D12,50N119NONREF//"; "119 0"; ":86:020~00119";
     "~60USDT"; "~63USDT";
     ":62F:C240115USDT987,50"; ":64:C240131USDT987,50"; "-"] =
      [":20:MT940"; (":25:/" ++ replace " " "" sample_iban)%string; ":28C:1";
       (":60F:C" ++ date
          ++ statement_currency (hd (mkdict [] None) usdt_rows)
                                (hd (mkdict [] None) usdt_rows) ++ amount)%string]
      ++ block
      ++ [(":62F:C" ++ date
             ++ statement_currency (hd (mkdict [] None) usdt_rows)
                                   (hd (mkdict [] None) usdt_rows) ++ amount)%string;
          (":64:C" ++ available_date
             ++ statement_currency (hd (mkdict [] None) usdt_rows)
                                   (hd (mkdict [] None) usdt_rows) ++ amount)%string;
          "-"].
Proof.
  assert (H : mt940_lines [hd (mkdict [] None) usdt_rows] sample_iban
    = Ok [":20:MT940"; ":25:/DE1234"; ":28C:1"; ":60F:C240115USDT987,50";
          ":61:2401150115D12,50N119NONREF//"; "119 0"; ":86:020~00119";
          "~60USDT"; "~63USDT";
          ":62F:C240115USDT987,50"; ":64:C240131USDT987,50"; "-"])
    by (vm_compute; reflexivity).
  split; [exact H|].
  apply (@single_row_opens_and_closes_alike _ sample_iban _ H).
Defined.

(* ================================================================== *)
(** * When _fmt_amount returns and when it raises                     *)
(* ================================================================== *)

(** X16.  [_fmt_amount] returns on a finite decimal exactly when its
    hundredths, rounded, are below [10^28], the precision of the decimal
    context: it then returns the sign and the amount.  On every other
    finite decimal, on an infinity and on a signalling NaN it raises
    InvalidOperation, and it raises nothing else; a quiet NaN is not
    refused. *)
Theorem fmt_amount_returns_or_raises (amount : Decimal) :
  match amount with
  | Finite s c e =>
      ((Z.of_N (rescale c e (-2)) < 10 ^ 28)%Z ->
       _fmt_amount amount = Ok (sign_str s ++ unsigned_amount (rescale c e (-2)))%string) /\
      ((10 ^ 28 <= Z.of_N (rescale c e (-2)))%Z ->
       _fmt_amount amount = Raise InvalidOperation)
  | Infinity _ => _fmt_amount amount = Raise InvalidOperation
  | NaN _ true _ => _fmt_amount amount = Raise InvalidOperation
  | NaN _ false _ => exists out : string, _fmt_amount amount = Ok out
  end /\
  (forall e : exn, _fmt_amount amount = Raise e -> e = InvalidOperation).
Proof.
  destruct amount as [s c e | s | s [|] p].
  - split.
    + split; [apply fmt_amount_in_range | apply fmt_amount_out_of_range].
    + intros x Hx.
      destruct (Z.lt_ge_cases (Z.of_N (rescale c e (-2))) (10 ^ 28)) as [L|G].
      * rewrite (fmt_amount_in_range s c e L) in Hx. discriminate.
      * rewrite (fmt_amount_out_of_range s c e G) in Hx. now injection Hx.
  - split; [reflexivity|]. intros x Hx. now injection Hx.
  - split; [reflexivity|]. intros x Hx. now injection Hx.
  - split; [eexists; reflexivity|]. intros x Hx. discriminate.
Qed.

Lemma fmt_amount_returns_or_raises_witness :
  _fmt_amount (Finite true 1250 (-2)) = Ok "-12,50" /\
  _fmt_amount (Finite false 1 26) = Raise InvalidOperation.
Proof.
  split.
  - apply (proj1 (proj1 (fmt_amount_returns_or_raises (Finite true 1250 (-2))))).
    vm_compute. reflexivity.
  - apply (proj2 (proj1 (fmt_amount_returns_or_raises (Finite false 1 26)))).
    vm_compute. discriminate.
Defined.

(* ================================================================== *)
(** * Balances, dates and codes in the statement                      *)
(* ================================================================== *)

Lemma strftime_md_drop (dt : datetime) : strftime_md dt = drop 2 (strftime_ymd dt).
Proof.
  unfold strftime_ymd, strftime_md.
  assert (L2 : length (pad2 (year dt mod 100)) = 2%nat)
    by (apply pad2_length, N.mod_lt; lia).
  rewrite <- L2 at 1. now rewrite drop_app_length.
Qed.

(** X17.  The balance lines carry the mark C whatever the sign of the
    balance: a balance below zero is written with its minus sign before
    the digits, after the currency, and is not marked D as the amount of
    a transaction is. *)
Theorem balance_lines_keep_credit_mark (rows : list dict) (iban : string)
  (lines : list string) (first_record : dict)
  (s1 s2 : bool) (c1 c2 : N) (e1 e2 : Z) :
  mt940_lines rows iban = Ok lines ->
  hd_error rows = Some first_record ->
  parse_decimal (dict_get_default (last rows first_record) "Balance" "0")
    = Finite s1 c1 e1 ->
  parse_decimal (dict_get_default first_record "Balance" "0") = Finite s2 c2 e2 ->
  exists (opening_date closing_date available_date : string) (body : list string),
    length opening_date = 6%nat /\ length closing_date = 6%nat /\
    length available_date = 6%nat /\
    let currency := statement_currency first_record (last rows first_record) in
    lines =
      [":20:MT940"; (":25:/" ++ replace " " "" iban)%string; ":28C:1";
       (":60F:C" ++ opening_date ++ currency
          ++ sign_str s1 ++ unsigned_amount (rescale c1 e1 (-2)))%string]
      ++ body
      ++ [(":62F:C" ++ closing_date ++ currency
             ++ sign_str s2 ++ unsigned_amount (rescale c2 e2 (-2)))%string;
          (":64:C" ++ available_date ++ currency
             ++ sign_str s2 ++ unsigned_amount (rescale c2 e2 (-2)))%string;
          "-"].
Proof.
  intros H Hhd P1 P2. apply mt940_lines_inv in H.
  destruct H as (rows_0 & rest & d1 & dt1 & d2 & dt2 & ostr & cstr & blocks
                 & -> & _ & Hs1 & _ & Hs2 & Ho & Hc & _ & ->).
  injection Hhd as <-.
  rewrite P1 in Ho. apply fmt_amount_finite in Ho. subst ostr.
  rewrite P2 in Hc. apply fmt_amount_finite in Hc. subst cstr.
  exists (strftime_ymd dt1), (strftime_ymd dt2),
         (strftime_ymd (mkdatetime (year dt1) (month dt1)
                                   (days_in_month (year dt1) (month dt1)))),
         (List.concat blocks).
  split; [exact (proj1 (@strptime_ymd_length _ _ Hs1))|].
  split; [exact (proj1 (@strptime_ymd_length _ _ Hs2))|].
  split; [|reflexivity].
  apply strptime_calendar in Hs1. destruct Hs1 as (_ & Hm & _).
  pose proof (days_in_month_bound (year dt1) (month dt1)).
  apply strftime_ymd_length; cbn [month day]; lia.
Qed.

Lemma balance_lines_keep_credit_mark_witness :
  mt940_lines overdrawn_rows sample_iban = Ok overdrawn_lines /\
  exists (opening_date closing_date available_date : string) (body : list string),
    length opening_date = 6%nat /\ length closing_date = 6%nat /\
    length available_date = 6%nat /\
    overdrawn_lines =
      [":20:MT940"; ":25:/DE1234"; ":28C:1";
       (":60F:C" ++ opening_date ++ "EUR" ++ "3,50")%string]
      ++ body
      ++ [(":62F:C" ++ closing_date ++ "EUR" ++ "-12,50")%string;
          (":64:C" ++ available_date ++ "EUR" ++ "-12,50")%string;
          "-"].
Proof.
  assert (H : mt940_lines overdrawn_rows sample_iban = Ok overdrawn_lines)
    by (vm_compute; reflexivity).
  split; [exact H|].
  apply (@balance_lines_keep_credit_mark overdrawn_rows sample_iban overdrawn_lines
           (hd (mkdict [] None) overdrawn_rows) false true 350 1250 (-2) (-2) H);
    vm_compute; reflexivity.
Defined.

Lemma tx_block_date (currency : string) (first_row tx : dict) (block : list string) :
  tx_block currency first_row tx = Ok block ->
  exists (date : option string) (d rest : string),
    tx_date first_row tx = Ok date /\ fmt_yyMMdd date = Ok d /\
    length d = 6%nat /\
    nth 0 block "" = (":61:" ++ d ++ drop 2 d ++ rest)%string.
Proof.
  intro H. apply tx_body_inv in H.
  destruct H as (date & dt & neg & aa & astr & chunks & Hd & Hs & _ & _ & _ & _ & ->).
  exists date, (strftime_ymd dt),
    ((if neg then "D" else "C") ++ astr ++ "N" ++ tx_code_num tx
       ++ "NONREF//" ++ tx_id tx)%string.
  split; [exact Hd|].
  split; [unfold fmt_yyMMdd; now rewrite Hs|].
  split; [exact (proj1 (@strptime_ymd_length _ _ Hs))|].
  cbn [app nth]. now rewrite strftime_md_drop.
Qed.

(** X18.  The date of a transaction block is that of the field Date
    completed (UTC) when it has a value, else that of Date started (UTC)
    when it has one, else the opening date of the statement: a row
    without dates is booked on the day of the earliest row. *)
Theorem block_date_priority (rows : list dict) (iban : string) (lines : list string) :
  mt940_lines rows iban = Ok lines ->
  exists (opening_date rest : string) (blocks : list (list string))
         (footer : list string),
    length opening_date = 6%nat /\ List.length footer = 3%nat /\
    lines =
      [":20:MT940"; (":25:/" ++ replace " " "" iban)%string; ":28C:1";
       (":60F:C" ++ opening_date ++ rest)%string]
      ++ List.concat blocks ++ footer /\
    Forall2 (fun tx block =>
               exists d rest' : string,
                 nth 0 block "" = (":61:" ++ d ++ drop 2 d ++ rest')%string /\
                 length d = 6%nat /\
                 (truthy_opt (dict_get tx DATE_COMPLETED) = true ->
                  fmt_yyMMdd (dict_get tx DATE_COMPLETED) = Ok d) /\
                 (truthy_opt (dict_get tx DATE_COMPLETED) = false ->
                  truthy_opt (dict_get tx "Date started (UTC)") = true ->
                  fmt_yyMMdd (dict_get tx "Date started (UTC)") = Ok d) /\
                 (truthy_opt (dict_get tx DATE_COMPLETED) = false ->
                  truthy_opt (dict_get tx "Date started (UTC)") = false ->
                  d = opening_date))
            (rev rows) blocks.
Proof.
  intro H. apply mt940_lines_inv in H.
  destruct H as (rows_0 & rest & d1 & dt1 & d2 & dt2 & ostr & cstr & blocks
                 & -> & Hd1 & Hs1 & _ & Hs2 & _ & _ & HF & ->).
  exists (strftime_ymd dt1),
         (statement_currency rows_0 (last (rows_0 :: rest) rows_0) ++ ostr)%string,
         blocks,
         [(":62F:C" ++ strftime_ymd dt2
             ++ statement_currency rows_0 (last (rows_0 :: rest) rows_0) ++ cstr)%string;
          (":64:C" ++ strftime_ymd
                        (mkdatetime (year dt1) (month dt1)
                                    (days_in_month (year dt1) (month dt1)))
             ++ statement_currency rows_0 (last (rows_0 :: rest) rows_0) ++ cstr)%string;
          "-"].
  split; [exact (proj1 (@strptime_ymd_length _ _ Hs1))|].
  split; [reflexivity|]. split; [reflexivity|].
  eapply Forall2_impl; [|exact HF].
  intros tx block Hb. cbv beta in Hb.
  apply tx_block_date in Hb. destruct Hb as (date & d & r & Hd & Hf & Hl & Hn).
  exists d, r. split; [exact Hn|]. split; [exact Hl|].
  unfold tx_date, py_or in Hd.
  destruct (truthy_opt (dict_get tx DATE_COMPLETED)) eqn:Tc.
  - rewrite Tc in Hd. cbn [negb] in Hd. injection Hd as <-.
    split; [intros _; exact Hf|]. split; discriminate.
  - destruct (truthy_opt (dict_get tx "Date started (UTC)")) eqn:Ts.
    + cbn [negb] in Hd. injection Hd as <-.
      split; [discriminate|]. split; [intros _ _; exact Hf | discriminate].
    + cbn [negb] in Hd. rewrite Hd1 in Hd. injection Hd as <-.
      split; [discriminate|]. split; [discriminate|]. intros _ _.
      unfold fmt_yyMMdd in Hf. rewrite Hs1 in Hf. cbn [bind] in Hf.
      now injection Hf.
Qed.

Lemma block_date_priority_witness :
  mt940_lines overdrawn_rows sample_iban = Ok overdrawn_lines /\
  exists (opening_date rest : string) (blocks : list (list string))
         (footer : list string),
    length opening_date = 6%nat /\ List.length footer = 3%nat /\
    overdrawn_lines =
      [":20:MT940"; (":25:/" ++ replace " " "" sample_iban)%string; ":28C:1";
       (":60F:C" ++ opening_date ++ rest)%string]
      ++ List.concat blocks ++ footer /\
    Forall2 (fun tx block =>
               exists d rest' : string,
                 nth 0 block "" = (":61:" ++ d ++ drop 2 d ++ rest')%string /\
                 length d = 6%nat /\
                 (truthy_opt (dict_get tx DATE_COMPLETED) = true ->
                  fmt_yyMMdd (dict_get tx DATE_COMPLETED) = Ok d) /\
                 (truthy_opt (dict_get tx DATE_COMPLETED) = false ->
                  truthy_opt (dict_get tx "Date started (UTC)") = true ->
                  fmt_yyMMdd (dict_get tx "Date started (UTC)") = Ok d) /\
                 (truthy_opt (dict_get tx DATE_COMPLETED) = false ->
                  truthy_opt (dict_get tx "Date started (UTC)") = false ->
                  d = opening_date))
            (rev overdrawn_rows) blocks.
Proof.
  assert (H : mt940_lines overdrawn_rows sample_iban = Ok overdrawn_lines)
    by (vm_compute; reflexivity).
  split; [exact H|].
  apply (@block_date_priority overdrawn_rows sample_iban overdrawn_lines H).
Defined.

Lemma startswith_app (p s : string) : startswith p (p ++ s) = true.
Proof.
  induction p as [|c p IH]; [reflexivity|].
  cbn [append startswith]. now rewrite Ascii.eqb_refl, IH.
Qed.

Lemma startswith_str_in (p s : string) : startswith p s = true -> str_in p s = true.
Proof. intro H. destruct s; cbn [str_in]; now rewrite H. Qed.

Lemma str_in_app (p a b : string) : str_in p (a ++ p ++ b) = true.
Proof.
  induction a as [|c a IH].
  - cbn [append]. apply startswith_str_in, startswith_app.
  - cbn [append str_in]. rewrite IH. apply orb_true_r.
Qed.

Lemma upper_app (a b : string) : upper (a ++ b) = (upper a ++ upper b)%string.
Proof. induction a as [|c a IH]; [reflexivity|]. cbn [append upper]. now rewrite IH. Qed.

Lemma startswith_length (p s : string) :
  startswith p s = true -> (length p <= length s)%nat.
Proof.
  revert s. induction p as [|c p IH]; intros s H; [simpl; lia|].
  destruct s as [|c' s]; [discriminate|].
  cbn [startswith] in H. apply andb_true_iff in H. destruct H as [_ H].
  apply IH in H. simpl. lia.
Qed.

Lemma str_in_length (p s : string) : str_in p s = true -> (length p <= length s)%nat.
Proof.
  induction s as [|c s IH]; intro H.
  - cbn [str_in] in H. rewrite orb_false_r in H. now apply startswith_length.
  - cbn [str_in] in H. apply orb_true_iff in H. destruct H as [H|H].
    + now apply startswith_length.
    + apply IH in H. simpl. lia.
Qed.

(** X19.  The fee code: a row whose field Type holds the letters fee,
    in any mix of cases and anywhere in the text, gets the code 49 on the
    three leading lines of its block; a row whose Type is absent, without
    a value or shorter than three characters gets the code 119. *)
Theorem fee_code_in_any_letter_case (currency : string) (first_row tx : dict)
  (block : list string) :
  tx_block currency first_row tx = Ok block ->
  (forall a f b : string,
     dict_get tx "Type" = Some (a ++ f ++ b)%string -> upper f = "FEE" ->
     exists (head : string) (rest : list string),
       block = (":61:" ++ head ++ "N49NONREF//" ++ tx_id tx)%string
               :: "49 0" :: ":86:020~0049" :: rest) /\
  ((length (or_str (dict_get tx "Type") "") < 3)%nat ->
   exists (head : string) (rest : list string),
     block = (":61:" ++ head ++ "N119NONREF//" ++ tx_id tx)%string
             :: "119 0" :: ":86:020~00119" :: rest).
Proof.
  intro H. apply tx_body_inv in H.
  destruct H as (date & dt & neg & aa & astr & chunks & _ & _ & _ & _ & _ & _ & ->).
  split.
  - intros a f b Ht Hf.
    assert (E : tx_code_num tx = "49").
    { unfold tx_code_num. rewrite Ht.
      replace (or_str (Some (a ++ f ++ b)%string) "") with (a ++ f ++ b)%string
        by (unfold or_str; destruct (truthy (a ++ f ++ b)) eqn:T;
            [reflexivity | now apply truthy_false_iff in T]).
      now rewrite !upper_app, Hf, str_in_app. }
    rewrite E.
    exists (strftime_ymd dt ++ strftime_md dt ++ (if neg then "D" else "C") ++ astr)%string,
           (tx_sub_lines currency tx chunks).
    cbn [app]. now rewrite !str_app_assoc.
  - intro Hl.
    assert (E : tx_code_num tx = "119").
    { unfold tx_code_num.
      destruct (str_in "FEE" (upper (or_str (dict_get tx "Type") ""))) eqn:S;
        [|reflexivity].
      apply str_in_length in S. rewrite upper_length in S. simpl in S. lia. }
    rewrite E.
    exists (strftime_ymd dt ++ strftime_md dt ++ (if neg then "D" else "C") ++ astr)%string,
           (tx_sub_lines currency tx chunks).
    cbn [app]. now rewrite !str_app_assoc.
Qed.

Lemma fee_code_in_any_letter_case_witness :
  tx_block "EUR" (last overdrawn_rows (mkdict [] None))
           (nth 1 overdrawn_rows (mkdict [] None))
    = Ok [":61:2401050105C4,00N49NONREF//"; "49 0"; ":86:020~0049"; "~60€"; "~63€"] /\
  exists (head : string) (rest : list string),
    [":61:2401050105C4,00N49NONREF//"; "49 0"; ":86:020~0049"; "~60€"; "~63€"]
    = (":61:" ++ head ++ "N49NONREF//"
         ++ tx_id (nth 1 overdrawn_rows (mkdict [] None)))%string
      :: "49 0" :: ":86:020~0049" :: rest.
Proof.
  assert (H : tx_block "EUR" (last overdrawn_rows (mkdict [] None))
                       (nth 1 overdrawn_rows (mkdict [] None))
              = Ok [":61:2401050105C4,00N49NONREF//"; "49 0"; ":86:020~0049";
                    "~60€"; "~63€"])
    by (vm_compute; reflexivity).
  split; [exact H|].
  apply (proj1 (@fee_code_in_any_letter_case _ _ _ _ H) "Card " "Fee" " refund");
    reflexivity.
Defined.

(** X20.  The identifiers of a block are cleaned: the transaction
    identifier that ends the line of tag 61 holds no hyphen, and the
    beneficiary sub-line, written when the trimmed field Beneficiary IBAN
    is not empty, holds the field without its spaces and never the bare
    tag. *)
Theorem block_identifiers_are_cleaned (currency : string) (first_row tx : dict)
  (block : list string) :
  tx_block currency first_row tx = Ok block ->
  (exists head : string, nth 0 block "" = (head ++ "NONREF//" ++ tx_id tx)%string) /\
  str_forall (fun c => negb (Ascii.eqb c "-")) (tx_id tx) = true /\
  (truthy (tx_ben_iban tx) = true ->
   In ("~38" ++ replace " " "" (tx_ben_iban tx))%string block /\
   str_forall (fun c => negb (Ascii.eqb c " ")) (replace " " "" (tx_ben_iban tx)) = true /\
   replace " " "" (tx_ben_iban tx) <> "").
Proof.
  intro H. apply tx_body_inv in H.
  destruct H as (date & dt & neg & aa & astr & chunks & _ & _ & _ & _ & _ & _ & ->).
  split; [|split].
  - exists (":61:" ++ strftime_ymd dt ++ strftime_md dt ++ (if neg then "D" else "C")
              ++ astr ++ "N" ++ tx_code_num tx)%string.
    cbn [app nth]. now rewrite !str_app_assoc.
  - unfold tx_id. apply str_forall_strip. now apply replace_removes.
  - intro T. split; [|split].
    + cbn [app]. do 3 right. unfold tx_sub_lines. rewrite T.
      rewrite !in_app_iff. right. right. left. now left.
    + now apply replace_removes.
    + apply truthy_true_iff in T. unfold tx_ben_iban in *.
      now apply strip_replace_space.
Qed.

Lemma block_identifiers_are_cleaned_witness :
  tx_block "EUR" (last overdrawn_rows (mkdict [] None))
           (hd (mkdict [] None) overdrawn_rows)
    = Ok [":61:2402100210D20,00N119NONREF//abc"; "119 0"; ":86:020~00119";
          "~38GB123"; "~60€"; "~63€"] /\
  tx_id (hd (mkdict [] None) overdrawn_rows) = "abc" /\
  In "~38GB123"
     [":61:2402100210D20,00N119NONREF//abc"; "119 0"; ":86:020~00119";
      "~38GB123"; "~60€"; "~63€"].
Proof.
  assert (H : tx_block "EUR" (last overdrawn_rows (mkdict [] None))
                       (hd (mkdict [] None) overdrawn_rows)
              = Ok [":61:2402100210D20,00N119NONREF//abc"; "119 0"; ":86:020~00119";
                    "~38GB123"; "~60€"; "~63€"])
    by (vm_compute; reflexivity).
  split; [exact H|]. split; [reflexivity|].
  apply (proj2 (proj2 (@block_identifiers_are_cleaned _ _ _ _ H))). reflexivity.
Defined.
